(** * Webhooks extension: the event-listener trigger-set reconciliation

    A shallow embedding of [webhooks-extension/pkg/endpoints/webhook.go]:
    the Git URL normaliser ([getGitValues], [compareGitRepoNames]), the
    trigger builder ([newTrigger]), the monitor deduplicator
    ([doesMonitorExist], [generateMonitorTriggerName]), the reconciler
    ([createEventListener], [updateEventListener],
    [deleteFromEventListener]) and the two HTTP handlers that drive them
    ([createWebhook], [deleteWebhook]).

    Go values are modelled as the code has them: [string] for Go strings
    (bytes), [Z] for [int], records for structs, a pair with an
    [option error] for a [(value, error)] result, and an explicit
    [Panics] outcome where the code indexes or slices out of range.  The
    cluster (event listener, trigger bindings, templates, ingress, pipeline
    runs, the Git provider) is an explicit state threaded through every
    client call. *)

From Stdlib Require Import String Ascii List ZArith Lia Bool Arith.
Import ListNotations.

#[local] Open Scope string_scope.
#[local] Open Scope Z_scope.

(** ** Go's [strings] and [strconv] packages, on byte strings *)

Module strings.

Definition lowerByte (c : ascii) : ascii :=
  let n := nat_of_ascii c in
  if (Nat.leb 65 n && Nat.leb n 90)%bool then ascii_of_nat (n + 32) else c.

(** [strings.ToLower], on ASCII input (bytes above 127 are kept as they are). *)
Fixpoint ToLower (s : string) : string :=
  match s with
  | EmptyString => EmptyString
  | String c t => String (lowerByte c) (ToLower t)
  end.

Definition len (s : string) : Z := Z.of_nat (String.length s).

Fixpoint HasPrefix (s prefix : string) {struct prefix} : bool :=
  match prefix, s with
  | EmptyString, _ => true
  | String p ps, String c cs => (Ascii.eqb c p && HasPrefix cs ps)%bool
  | String _ _, EmptyString => false
  end.

Fixpoint drop (n : nat) (s : string) : string :=
  match n, s with
  | O, _ => s
  | S n', String _ t => drop n' t
  | S _, EmptyString => EmptyString
  end.

Fixpoint take (n : nat) (s : string) : string :=
  match n, s with
  | O, _ => EmptyString
  | S n', String c t => String c (take n' t)
  | S _, EmptyString => EmptyString
  end.

Definition HasSuffix (s suffix : string) : bool :=
  (Nat.leb (String.length suffix) (String.length s)
   && String.eqb (drop (String.length s - String.length suffix) s) suffix)%bool.

Definition TrimPrefix (s prefix : string) : string :=
  if HasPrefix s prefix then drop (String.length prefix) s else s.

Definition TrimSuffix (s suffix : string) : string :=
  if HasSuffix s suffix then take (String.length s - String.length suffix) s else s.

(** [strings.Index]: the byte offset of the first occurrence, or -1. *)
Fixpoint Index (s substr : string) : Z :=
  if HasPrefix s substr then 0
  else match s with
       | EmptyString => -1
       | String _ t => let i := Index t substr in if i <? 0 then -1 else i + 1
       end.

(** [strings.LastIndex]: the byte offset of the last occurrence, or -1. *)
Fixpoint LastIndex (s substr : string) : Z :=
  match s with
  | EmptyString => if HasPrefix s substr then 0 else -1
  | String _ t =>
      let i := LastIndex t substr in
      if 0 <=? i then i + 1 else if HasPrefix s substr then 0 else -1
  end.

Definition Contains (s substr : string) : bool := 0 <=? Index s substr.

(** Non-overlapping occurrences: after a match the scan resumes behind it. *)
Fixpoint countFrom (skip : nat) (s substr : string) : Z :=
  match s with
  | EmptyString => 0
  | String _ t =>
      match skip with
      | S k => countFrom k t substr
      | O => if HasPrefix s substr
             then 1 + countFrom (String.length substr - 1) t substr
             else countFrom 0 t substr
      end
  end.

Definition Count (s substr : string) : Z :=
  match substr with
  | EmptyString => len s + 1
  | _ => countFrom 0 s substr
  end.

(** [strings.Split] for a non-empty separator; [cur] is the piece being read. *)
Fixpoint splitFrom (skip : nat) (s sep cur : string) : list string :=
  match s with
  | EmptyString => [cur]
  | String c t =>
      match skip with
      | S k => splitFrom k t sep cur
      | O => if HasPrefix s sep
             then cur :: splitFrom (String.length sep - 1) t sep EmptyString
             else splitFrom 0 t sep (cur ++ String c EmptyString)
      end
  end.

Definition Split (s sep : string) : list string := splitFrom 0 s sep EmptyString.

(** The slice expression [s[lo:hi]]; out of range it panics in Go. *)
Definition slice (s : string) (lo hi : Z) : option string :=
  if ((0 <=? lo) && (lo <=? hi) && (hi <=? len s))%bool
  then Some (take (Z.to_nat (hi - lo)) (drop (Z.to_nat lo) s))
  else None.

End strings.

Module strconv.

Definition digit (n : nat) : ascii := ascii_of_nat (48 + Nat.modulo n 10).

Fixpoint digits (fuel n : nat) (acc : string) : string :=
  match fuel with
  | O => acc
  | S f =>
      let acc' := String (digit n) acc in
      if Nat.ltb n 10 then acc' else digits f (Nat.div n 10) acc'
  end.

(** [strconv.Itoa] on the non-negative integers the program prints. *)
Definition Itoa (n : Z) : string := digits (S (Z.to_nat n)) (Z.to_nat n) EmptyString.

Definition FormatBool (b : bool) : string := if b then "true" else "false".

End strconv.

(** ** Errors, panics and results *)

(** A Go [error]: its message, and whether the API machinery reports it as
    a NotFound status ([k8serrors.IsNotFound]). *)
Record error : Type := mkError { Error : string; IsNotFound : bool }.

Module errors.
Definition New (msg : string) : error := mkError msg false.
End errors.

(** What a call does: it returns, or it panics (index or slice out of
    range, nil dereference), or the model ran out of fuel in a loop that
    has no bound in the source. *)
Inductive outcome (A : Type) : Type :=
| Returns (a : A)
| Panics (msg : string)
| Diverges.
Arguments Returns {A} a.
Arguments Panics {A} msg.
Arguments Diverges {A}.

Definition obind {A B} (m : outcome A) (k : A -> outcome B) : outcome B :=
  match m with
  | Returns a => k a
  | Panics msg => Panics msg
  | Diverges => Diverges
  end.

Definition sliceOrPanic (s : string) (lo hi : Z) : outcome string :=
  match strings.slice s lo hi with
  | Some r => Returns r
  | None => Panics "slice bounds out of range"
  end.

(** ** 4.1 Git URL normaliser *)

Definition malformedURL : error :=
  errors.New "URL didn't contain an owner and repository".

(** [getGitValues]: the URL is lower-cased, a leading scheme is removed
    from the working copy and put back in front of the server. *)
Definition getGitValues (url : string)
  : outcome (string * string * string * option error) :=
  let '(url, repoURL, prefix) :=
    if negb (String.eqb url "") then
      let url := strings.ToLower url in
      if strings.Contains url "https://"
      then (url, strings.TrimPrefix url "https://", "https://")
      else (url, strings.TrimPrefix url "http://", "http://")
    else (url, "", "") in
  let numSlashes := strings.Count repoURL "/" in
  if numSlashes <? 2 then Returns ("", "", "", Some malformedURL)
  else
    let repoURL := strings.TrimSuffix repoURL "/" in
    obind (sliceOrPanic repoURL 0 (strings.Index repoURL "/")) (fun host =>
    let gitServer := prefix ++ host in
    obind (sliceOrPanic repoURL (strings.Index repoURL "/" + 1)
                        (strings.LastIndex repoURL "/")) (fun gitOwner =>
    obind (if strings.HasSuffix url ".git"
           then sliceOrPanic repoURL (strings.LastIndex repoURL "/" + 1)
                             (strings.len repoURL - 4)
           else sliceOrPanic repoURL (strings.LastIndex repoURL "/" + 1)
                             (strings.len repoURL)) (fun gitRepo =>
    Returns (gitServer, gitOwner, gitRepo, None)))).

Definition compareGitRepoNames (url1 url2 : string)
  : outcome (bool * option error) :=
  obind (getGitValues url1) (fun '(serverName1, ownerName1, repoName1, err1) =>
  obind (getGitValues url2) (fun '(serverName2, ownerName2, repoName2, err2) =>
  match err1 with
  | Some e => Returns (false, Some e)
  | None =>
      match err2 with
      | Some e => Returns (false, Some e)
      | None =>
          if (String.eqb serverName1 serverName2
              && String.eqb ownerName1 ownerName2
              && String.eqb repoName1 repoName2)%bool
          then Returns (true, None)
          else Returns (false, None)
      end
  end)).

(** ** 3. Data model *)

(** The registration request ([webhook], declared beside the handlers). *)
Record webhook : Type := mkWebhook {
  Name : string;
  Namespace : string;
  GitRepositoryURL : string;
  AccessTokenRef : string;
  Pipeline : string;
  DockerRegistry : string;
  HelmSecret : string;
  ReleaseName : string;
  PullTask : string;
  ServiceAccount : string;
  OnSuccessComment : string;
  OnFailureComment : string;
  OnTimeoutComment : string;
  OnMissingComment : string
}.

(** Go's [==] on the struct: every field is compared. *)
Definition webhook_eqb (a b : webhook) : bool :=
  (String.eqb a.(Name) b.(Name)
   && String.eqb a.(Namespace) b.(Namespace)
   && String.eqb a.(GitRepositoryURL) b.(GitRepositoryURL)
   && String.eqb a.(AccessTokenRef) b.(AccessTokenRef)
   && String.eqb a.(Pipeline) b.(Pipeline)
   && String.eqb a.(DockerRegistry) b.(DockerRegistry)
   && String.eqb a.(HelmSecret) b.(HelmSecret)
   && String.eqb a.(ReleaseName) b.(ReleaseName)
   && String.eqb a.(PullTask) b.(PullTask)
   && String.eqb a.(ServiceAccount) b.(ServiceAccount)
   && String.eqb a.(OnSuccessComment) b.(OnSuccessComment)
   && String.eqb a.(OnFailureComment) b.(OnFailureComment)
   && String.eqb a.(OnTimeoutComment) b.(OnTimeoutComment)
   && String.eqb a.(OnMissingComment) b.(OnMissingComment))%bool.

Inductive ParamType : Type := ParamTypeString | ParamTypeArray.

(** [pipelinesv1alpha1.ArrayOrString] and [pipelinesv1alpha1.Param]: an
    interceptor header. *)
Record ArrayOrString : Type := mkAOS { Type_ : ParamType; StringVal : string }.
Record HeaderParam : Type := mkHeader { hName : string; hValue : ArrayOrString }.

(** [v1alpha1.Param] of a trigger binding: a name and a string value. *)
Record BindingParam : Type := mkParam { pName : string; pValue : string }.

(** [v1alpha1.EventListenerBinding]: the code writes [Ref] and reads both
    [Ref] and [Name] ([bName]). *)
Record EventListenerBinding : Type := mkBinding {
  bName : string;
  Ref : string;
  bAPIVersion : string
}.

Record EventListenerTemplate : Type := mkTemplate {
  tmplName : string;
  tmplAPIVersion : string
}.

Record ObjectReference : Type := mkObjectRef {
  orAPIVersion : string;
  orKind : string;
  orName : string;
  orNamespace : string
}.

Record WebhookInterceptor : Type := mkWebhookInterceptor {
  Header : list HeaderParam;
  ObjectRef : option ObjectReference
}.

(** [v1alpha1.EventInterceptor]; [Webhook] is a pointer and may be nil. *)
Record EventInterceptor : Type := mkInterceptor {
  Webhook : option WebhookInterceptor
}.

Record EventListenerTrigger : Type := mkTrigger {
  tName : string;
  Bindings : list EventListenerBinding;
  Template : EventListenerTemplate;
  Interceptors : list EventInterceptor
}.

(** The zero value, as [var monitorTrigger v1alpha1.EventListenerTrigger]. *)
Definition zeroTrigger : EventListenerTrigger :=
  mkTrigger "" [] (mkTemplate "" "") [].

(** The shared trigger collection. *)
Record EventListener : Type := mkEventListener {
  elName : string;
  elNamespace : string;
  ServiceAccountName : string;
  Triggers : list EventListenerTrigger
}.

Definition zeroEventListener : EventListener := mkEventListener "" "" "" [].

Record TriggerBinding : Type := mkTriggerBinding {
  tbName : string;
  tbParams : list BindingParam
}.

Record PipelineRun : Type := mkPipelineRun {
  prName : string;
  prNamespace : string;
  prPipelineRef : string;
  prLabels : list (string * string)
}.

Record EnvDefaults : Type := mkDefaults {
  dNamespace : string;
  dDockerRegistry : string;
  dCallbackURL : string
}.

(** The receiver [r Resource]: the install defaults, the process
    environment, and [utils.GetGitProviderAndAPIURL], whose code is not
    part of this file and is taken as given. *)
Record Resource : Type := mkResource {
  Defaults : EnvDefaults;
  LookupEnv : string -> option string;
  GetGitProviderAndAPIURL : string -> string * string * option error
}.

Definition eventListenerName : string := "tekton-webhooks-eventlistener".
Definition routeName : string := "el-" ++ eventListenerName.
Definition webhookextPullTask : string := "monitor-task".

Definition actions : HeaderParam :=
  mkHeader "Wext-Incoming-Actions"
           (mkAOS ParamTypeString "opened,reopened,synchronize").

(** ** 4.2 Trigger builder *)

Definition newTrigger (r : Resource)
  (name bindingName templateName repoURL event secretName extraBindingName : string)
  : EventListenerTrigger :=
  {| tName := name;
     Bindings := [ {| bName := ""; Ref := bindingName; bAPIVersion := "v1alpha1" |};
                   {| bName := ""; Ref := extraBindingName; bAPIVersion := "v1alpha1" |} ];
     Template := {| tmplName := templateName; tmplAPIVersion := "v1alpha1" |};
     Interceptors :=
       [ {| Webhook := Some
              {| Header :=
                   [ mkHeader "Wext-Trigger-Name" (mkAOS ParamTypeString name);
                     mkHeader "Wext-Repository-Url" (mkAOS ParamTypeString repoURL);
                     mkHeader "Wext-Incoming-Event" (mkAOS ParamTypeString event);
                     mkHeader "Wext-Secret-Name" (mkAOS ParamTypeString secretName) ];
                 ObjectRef := Some
                   {| orAPIVersion := "v1";
                      orKind := "Service";
                      orName := "tekton-webhooks-extension-validator";
                      orNamespace := r.(Defaults).(dNamespace) |} |} |} ] |}.

(** [t.Interceptors[0].Webhook.Header]: the first interceptor only. *)
Definition firstHeader (t : EventListenerTrigger) : outcome (list HeaderParam) :=
  match t.(Interceptors) with
  | [] => Panics "index out of range"
  | i :: _ =>
      match i.(Webhook) with
      | None => Panics "nil pointer dereference"
      | Some w => Returns w.(Header)
      end
  end.

(** [t.Interceptors[0].Webhook.Header = append(t.Interceptors[0].Webhook.Header, p)] *)
Definition appendHeader (t : EventListenerTrigger) (p : HeaderParam)
  : outcome EventListenerTrigger :=
  match t.(Interceptors) with
  | [] => Panics "index out of range"
  | i :: rest =>
      match i.(Webhook) with
      | None => Panics "nil pointer dereference"
      | Some w =>
          Returns {| tName := t.(tName);
                     Bindings := t.(Bindings);
                     Template := t.(Template);
                     Interceptors :=
                       {| Webhook := Some {| Header := w.(Header) ++ [p];
                                             ObjectRef := w.(ObjectRef) |} |} :: rest |}
      end
  end.

(** ** 4.3 Monitor deduplicator *)

(** The inner loop of [doesMonitorExist] over one trigger's headers. *)
Inductive headerScan : Type := ScanMatch | ScanNoMatch | ScanError.

Fixpoint scanHeaders (headers : list HeaderParam) (repoURL : string)
  : outcome headerScan :=
  match headers with
  | [] => Returns ScanNoMatch
  | header :: rest =>
      if String.eqb header.(hName) "Wext-Repository-Url" then
        obind (compareGitRepoNames header.(hValue).(StringVal) repoURL)
              (fun '(matched, err) =>
                 match err with
                 | Some _ => Returns ScanError
                 | None => if matched then Returns ScanMatch
                           else scanHeaders rest repoURL
                 end)
      else scanHeaders rest repoURL
  end.

Fixpoint doesMonitorExist (monitorTriggerNamePrefix : string) (webhook : webhook)
  (triggers : list EventListenerTrigger) : outcome (bool * string) :=
  match triggers with
  | [] => Returns (false, "")
  | trigger :: rest =>
      if strings.HasPrefix trigger.(tName) monitorTriggerNamePrefix then
        obind (firstHeader trigger) (fun headers =>
        obind (scanHeaders headers webhook.(GitRepositoryURL)) (fun s =>
        match s with
        | ScanError => Returns (false, "")
        | ScanMatch => Returns (true, trigger.(tName))
        | ScanNoMatch => doesMonitorExist monitorTriggerNamePrefix webhook rest
        end))
      else doesMonitorExist monitorTriggerNamePrefix webhook rest
  end.

(** The inner loop of [generateMonitorTriggerName]: is the suggestion taken? *)
Fixpoint nameTaken (existingTriggers : list EventListenerTrigger)
  (suggestedName : string) : bool :=
  match existingTriggers with
  | [] => false
  | t :: rest =>
      if String.eqb t.(tName) suggestedName then true
      else nameTaken rest suggestedName
  end.

(** [rand.Intn n] on the [pos]-th draw of the source. *)
Definition Intn (source : nat -> Z) (pos : nat) (n : Z) : Z := (source pos) mod n.

(** [generateMonitorTriggerName]: draw, and redraw while the suggestion is
    the name of an existing trigger.  The loop has no bound in the source;
    [fuel] bounds the number of draws, and the result carries the position
    of the next draw. *)
Fixpoint generateMonitorTriggerName (fuel : nat) (source : nat -> Z) (pos : nat)
  (prefix : string) (existingTriggers : list EventListenerTrigger)
  : outcome (string * nat) :=
  match fuel with
  | O => Diverges
  | S fuel' =>
      let suggestedName := prefix ++ strconv.Itoa (Intn source pos 10000) in
      if nameTaken existingTriggers suggestedName
      then generateMonitorTriggerName fuel' source (S pos) prefix existingTriggers
      else Returns (suggestedName, S pos)
  end.

Definition getMonitorBindingName (r : Resource) (repoURL monitorTask : string)
  : string * option error :=
  let monitorTask := if String.eqb monitorTask "" then "monitor-task" else monitorTask in
  let monitorBindingName := monitorTask ++ "-binding" in
  if String.eqb monitorTask webhookextPullTask then
    let '(provider, _, err) := r.(GetGitProviderAndAPIURL) repoURL in
    match err with
    | Some e => ("", Some e)
    | None => (monitorTask ++ "-" ++ provider ++ "-binding", None)
    end
  else (monitorBindingName, None).

(** ** The cluster: every collaborator the handlers call

    The event-listener store holds the one shared collection; the binding,
    template and pipeline-run stores hold named objects; [ingress] and
    [route] are the externally provisioned network objects.  [providerCalls]
    logs the calls that reached the Git provider ([AddWebhook] and
    [RemoveWebhook] live outside this file).  [faults] decides the fate of
    the coming client calls, one entry per call: [Some e] makes the call
    fail with [e] and change nothing.  [randSource] is [math/rand];
    [nameSuffix] is what the API server appends to a [GenerateName]. *)

Inductive ProviderCall : Type :=
| AddWebhookCall (hook : webhook) (owner repo : string)
| RemoveWebhookCall (hook : webhook) (owner repo : string).

Record Cluster : Type := mkCluster {
  eventListener : option EventListener;
  triggerBindings : list TriggerBinding;
  triggerTemplates : list string;
  ingress : bool;
  route : bool;
  pipelineRuns : list PipelineRun;
  readyReplicas : Z;
  providerCalls : list ProviderCall;
  dashboardURL : string;
  faults : list (option error);
  randSource : nat -> Z;
  randPos : nat;
  nameSuffix : nat -> string;
  namePos : nat
}.

Definition setEventListener (v : option EventListener) (c : Cluster) : Cluster :=
  mkCluster v c.(triggerBindings) c.(triggerTemplates) c.(ingress) c.(route)
            c.(pipelineRuns) c.(readyReplicas) c.(providerCalls) c.(dashboardURL)
            c.(faults) c.(randSource) c.(randPos) c.(nameSuffix) c.(namePos).

Definition setTriggerBindings (v : list TriggerBinding) (c : Cluster) : Cluster :=
  mkCluster c.(eventListener) v c.(triggerTemplates) c.(ingress) c.(route)
            c.(pipelineRuns) c.(readyReplicas) c.(providerCalls) c.(dashboardURL)
            c.(faults) c.(randSource) c.(randPos) c.(nameSuffix) c.(namePos).

Definition setIngress (v : bool) (c : Cluster) : Cluster :=
  mkCluster c.(eventListener) c.(triggerBindings) c.(triggerTemplates) v c.(route)
            c.(pipelineRuns) c.(readyReplicas) c.(providerCalls) c.(dashboardURL)
            c.(faults) c.(randSource) c.(randPos) c.(nameSuffix) c.(namePos).

Definition setRoute (v : bool) (c : Cluster) : Cluster :=
  mkCluster c.(eventListener) c.(triggerBindings) c.(triggerTemplates) c.(ingress) v
            c.(pipelineRuns) c.(readyReplicas) c.(providerCalls) c.(dashboardURL)
            c.(faults) c.(randSource) c.(randPos) c.(nameSuffix) c.(namePos).

Definition setPipelineRuns (v : list PipelineRun) (c : Cluster) : Cluster :=
  mkCluster c.(eventListener) c.(triggerBindings) c.(triggerTemplates) c.(ingress)
            c.(route) v c.(readyReplicas) c.(providerCalls) c.(dashboardURL)
            c.(faults) c.(randSource) c.(randPos) c.(nameSuffix) c.(namePos).

Definition setProviderCalls (v : list ProviderCall) (c : Cluster) : Cluster :=
  mkCluster c.(eventListener) c.(triggerBindings) c.(triggerTemplates) c.(ingress)
            c.(route) c.(pipelineRuns) c.(readyReplicas) v c.(dashboardURL)
            c.(faults) c.(randSource) c.(randPos) c.(nameSuffix) c.(namePos).

Definition setFaults (v : list (option error)) (c : Cluster) : Cluster :=
  mkCluster c.(eventListener) c.(triggerBindings) c.(triggerTemplates) c.(ingress)
            c.(route) c.(pipelineRuns) c.(readyReplicas) c.(providerCalls)
            c.(dashboardURL) v c.(randSource) c.(randPos) c.(nameSuffix) c.(namePos).

Definition setRandPos (v : nat) (c : Cluster) : Cluster :=
  mkCluster c.(eventListener) c.(triggerBindings) c.(triggerTemplates) c.(ingress)
            c.(route) c.(pipelineRuns) c.(readyReplicas) c.(providerCalls)
            c.(dashboardURL) c.(faults) c.(randSource) v c.(nameSuffix) c.(namePos).

Definition setNamePos (v : nat) (c : Cluster) : Cluster :=
  mkCluster c.(eventListener) c.(triggerBindings) c.(triggerTemplates) c.(ingress)
            c.(route) c.(pipelineRuns) c.(readyReplicas) c.(providerCalls)
            c.(dashboardURL) c.(faults) c.(randSource) c.(randPos) c.(nameSuffix) v.

(** A computation against the cluster. *)
Definition M (A : Type) : Type := Cluster -> outcome (A * Cluster).

Definition ret {A} (a : A) : M A := fun c => Returns (a, c).

Definition bind {A B} (m : M A) (k : A -> M B) : M B :=
  fun c =>
    match m c with
    | Returns (a, c') => k a c'
    | Panics msg => Panics msg
    | Diverges => Diverges
    end.

Definition liftO {A} (o : outcome A) : M A :=
  fun c =>
    match o with
    | Returns a => Returns (a, c)
    | Panics msg => Panics msg
    | Diverges => Diverges
    end.

Declare Scope go_scope.
Delimit Scope go_scope with go.
Notation "x <- m ;; k" := (bind m (fun x => k))
  (at level 61, m at next level, right associativity) : go_scope.
Notation "' pat <- m ;; k" := (bind m (fun x => match x with pat => k end))
  (at level 61, pat pattern, m at next level, right associativity) : go_scope.
#[local] Open Scope go_scope.

(** One call through a client: the next fault entry, if any, decides
    whether it reaches the store. *)
Definition clientCall {A} (zero : A)
  (op : Cluster -> (A * option error) * Cluster) : M (A * option error) :=
  fun c =>
    match c.(faults) with
    | Some e :: rest => Returns ((zero, Some e), setFaults rest c)
    | None :: rest => Returns (op (setFaults rest c))
    | [] => Returns (op c)
    end.

Definition notFound (name : string) : error := mkError (name ++ " not found") true.
Definition alreadyExists (name : string) : error :=
  mkError (name ++ " already exists") false.

Module EventListeners.

Definition Get (name : string) : M (EventListener * option error) :=
  clientCall zeroEventListener (fun c =>
    match c.(eventListener) with
    | Some el => if String.eqb el.(elName) name then ((el, None), c)
                 else ((zeroEventListener, Some (notFound name)), c)
    | None => ((zeroEventListener, Some (notFound name)), c)
    end).

Definition Create (el : EventListener) : M (EventListener * option error) :=
  clientCall zeroEventListener (fun c =>
    match c.(eventListener) with
    | Some _ => ((zeroEventListener, Some (alreadyExists el.(elName))), c)
    | None => ((el, None), setEventListener (Some el) c)
    end).

Definition Update (el : EventListener) : M (EventListener * option error) :=
  clientCall zeroEventListener (fun c =>
    match c.(eventListener) with
    | Some old => if String.eqb old.(elName) el.(elName)
                  then ((el, None), setEventListener (Some el) c)
                  else ((zeroEventListener, Some (notFound el.(elName))), c)
    | None => ((zeroEventListener, Some (notFound el.(elName))), c)
    end).

Definition Delete (name : string) : M (unit * option error) :=
  clientCall tt (fun c =>
    match c.(eventListener) with
    | Some el => if String.eqb el.(elName) name
                 then ((tt, None), setEventListener None c)
                 else ((tt, Some (notFound name)), c)
    | None => ((tt, Some (notFound name)), c)
    end).

End EventListeners.

Definition zeroTriggerBinding : TriggerBinding := mkTriggerBinding "" [].

Fixpoint findBinding (name : string) (bs : list TriggerBinding) : option TriggerBinding :=
  match bs with
  | [] => None
  | b :: rest => if String.eqb b.(tbName) name then Some b else findBinding name rest
  end.

Fixpoint removeBinding (name : string) (bs : list TriggerBinding) : list TriggerBinding :=
  match bs with
  | [] => []
  | b :: rest => if String.eqb b.(tbName) name then rest else b :: removeBinding name rest
  end.

Module TriggerBindings.

Definition Get (name : string) : M (TriggerBinding * option error) :=
  clientCall zeroTriggerBinding (fun c =>
    match findBinding name c.(triggerBindings) with
    | Some b => ((b, None), c)
    | None => ((zeroTriggerBinding, Some (notFound name)), c)
    end).

(** [Create] of an object whose metadata carries a [GenerateName]. *)
Definition Create (generateName : string) (params : list BindingParam)
  : M (TriggerBinding * option error) :=
  clientCall zeroTriggerBinding (fun c =>
    let name := generateName ++ c.(nameSuffix) c.(namePos) in
    let c := setNamePos (S c.(namePos)) c in
    match findBinding name c.(triggerBindings) with
    | Some _ => ((zeroTriggerBinding, Some (alreadyExists name)), c)
    | None =>
        let b := mkTriggerBinding name params in
        ((b, None), setTriggerBindings (c.(triggerBindings) ++ [b]) c)
    end).

Definition Delete (name : string) : M (unit * option error) :=
  clientCall tt (fun c =>
    match findBinding name c.(triggerBindings) with
    | Some _ => ((tt, None), setTriggerBindings (removeBinding name c.(triggerBindings)) c)
    | None => ((tt, Some (notFound name)), c)
    end).

End TriggerBindings.

Module TriggerTemplates.

Definition Get (name : string) : M (unit * option error) :=
  clientCall tt (fun c =>
    if existsb (String.eqb name) c.(triggerTemplates)
    then ((tt, None), c)
    else ((tt, Some (notFound name)), c)).

End TriggerTemplates.

Module Ingresses.

Definition Create (name : string) : M (unit * option error) :=
  clientCall tt (fun c =>
    if c.(ingress) then ((tt, Some (alreadyExists name)), c)
    else ((tt, None), setIngress true c)).

Definition Delete (name : string) : M (unit * option error) :=
  clientCall tt (fun c =>
    if c.(ingress) then ((tt, None), setIngress false c)
    else ((tt, Some (notFound name)), c)).

End Ingresses.

Module Routes.

Definition Create (name : string) : M (unit * option error) :=
  clientCall tt (fun c =>
    if c.(route) then ((tt, Some (alreadyExists name)), c)
    else ((tt, None), setRoute true c)).

Definition Delete (name : string) : M (unit * option error) :=
  clientCall tt (fun c =>
    if c.(route) then ((tt, None), setRoute false c)
    else ((tt, Some (notFound name)), c)).

End Routes.

Module Deployments.

(** The ready replicas of the named deployment (0 when the call fails). *)
Definition Get (name : string) : M (Z * option error) :=
  clientCall 0 (fun c => ((c.(readyReplicas), None), c)).

End Deployments.

Module PipelineRuns.

Definition List (namespace : string) : M (list PipelineRun * option error) :=
  clientCall [] (fun c =>
    ((filter (fun p => String.eqb p.(prNamespace) namespace) c.(pipelineRuns), None), c)).

Definition Delete (namespace name : string) : M (unit * option error) :=
  clientCall tt (fun c =>
    if existsb (fun p => (String.eqb p.(prNamespace) namespace
                          && String.eqb p.(prName) name)%bool) c.(pipelineRuns)
    then ((tt, None),
          setPipelineRuns
            (filter (fun p => negb (String.eqb p.(prNamespace) namespace
                                    && String.eqb p.(prName) name)%bool)
                    c.(pipelineRuns)) c)
    else ((tt, Some (notFound name)), c)).

End PipelineRuns.

(** [r.AddWebhook] and [r.RemoveWebhook]: calls to the Git provider. *)
Definition AddWebhook (hook : webhook) (owner repo : string) : M (option error) :=
  '(_, err) <- clientCall tt (fun c =>
      ((tt, None), setProviderCalls (c.(providerCalls) ++ [AddWebhookCall hook owner repo]) c)) ;;
  ret err.

Definition RemoveWebhook (hook : webhook) (owner repo : string) : M (option error) :=
  '(_, err) <- clientCall tt (fun c =>
      ((tt, None), setProviderCalls (c.(providerCalls) ++ [RemoveWebhookCall hook owner repo]) c)) ;;
  ret err.

(** ** Bindings *)

Definition Getenv (r : Resource) (key : string) : string :=
  match r.(LookupEnv) key with
  | Some v => v
  | None => ""
  end.

(** [getDashboardURL] discovers the dashboard through a service lookup and
    an HTTP request; its result is a given of the cluster. *)
Definition getDashboardURL (installNs : string) : M string :=
  fun c => Returns (c.(dashboardURL), c).

Definition getParams (r : Resource) (webhook : webhook)
  : M (list BindingParam * list BindingParam) :=
  let requestedReleaseName := webhook.(ReleaseName) in
  '(server, org, repo, _) <- liftO (getGitValues webhook.(GitRepositoryURL)) ;;
  let server := strings.TrimPrefix server "https://" in
  let server := strings.TrimPrefix server "http://" in
  let releaseName :=
    if negb (String.eqb requestedReleaseName "") then requestedReleaseName else repo in
  let ssl := Getenv r "SSL_VERIFICATION_ENABLED" in
  let sslVerify := negb (String.eqb (strings.ToLower ssl) "false") in
  let '(provider, apiURL, _) := r.(GetGitProviderAndAPIURL) webhook.(GitRepositoryURL) in
  let hookParams :=
    [ mkParam "webhooks-tekton-release-name" releaseName;
      mkParam "webhooks-tekton-target-namespace" webhook.(Namespace);
      mkParam "webhooks-tekton-service-account" webhook.(ServiceAccount);
      mkParam "webhooks-tekton-git-server" server;
      mkParam "webhooks-tekton-git-org" org;
      mkParam "webhooks-tekton-git-repo" repo;
      mkParam "webhooks-tekton-pull-task" webhook.(PullTask);
      mkParam "webhooks-tekton-ssl-verify" (strconv.FormatBool sslVerify);
      mkParam "webhooks-tekton-insecure-skip-tls-verify" (strconv.FormatBool (negb sslVerify)) ] in
  let hookParams :=
    if negb (String.eqb webhook.(DockerRegistry) "")
    then (hookParams ++ [mkParam "webhooks-tekton-docker-registry" webhook.(DockerRegistry)])%list
    else hookParams in
  let hookParams :=
    if negb (String.eqb webhook.(HelmSecret) "")
    then (hookParams ++ [mkParam "webhooks-tekton-helm-secret" webhook.(HelmSecret)])%list
    else hookParams in
  let orDefault (v d : string) := if String.eqb v "" then d else v in
  let onSuccessComment := orDefault webhook.(OnSuccessComment) "Success" in
  let onFailureComment := orDefault webhook.(OnFailureComment) "Failed" in
  let onTimeoutComment := orDefault webhook.(OnTimeoutComment) "Unknown" in
  let onMissingComment := orDefault webhook.(OnMissingComment) "Missing" in
  dashboard <- getDashboardURL r.(Defaults).(dNamespace) ;;
  let prMonitorParams :=
    [ mkParam "commentsuccess" onSuccessComment;
      mkParam "commentfailure" onFailureComment;
      mkParam "commenttimeout" onTimeoutComment;
      mkParam "commentmissing" onMissingComment;
      mkParam "gitsecretname" webhook.(AccessTokenRef);
      mkParam "gitsecretkeyname" "accessToken";
      mkParam "dashboardurl" dashboard;
      mkParam "insecure-skip-tls-verify" (strconv.FormatBool (negb sslVerify));
      mkParam "provider" provider;
      mkParam "apiurl" apiURL ] in
  ret (hookParams, prMonitorParams).

(** [GetTriggerBindingObjectMeta]: the binding's [GenerateName]. *)
Definition GetTriggerBindingObjectMeta (name : string) : string := "wext-" ++ name ++ "-".

Definition createBindings (r : Resource) (webhook : webhook)
  (monitorTriggerName : string) (createMonitorBinding : bool)
  : M (string * string * option error) :=
  '(hookParams, prMonitorParams) <- getParams r webhook ;;
  '(actualHookBinding, err) <-
     TriggerBindings.Create (GetTriggerBindingObjectMeta webhook.(Name)) hookParams ;;
  match err with
  | Some e => ret ("", "", Some e)
  | None =>
      if createMonitorBinding then
        '(actualMonitorBinding, err) <-
           TriggerBindings.Create (GetTriggerBindingObjectMeta monitorTriggerName)
                                  prMonitorParams ;;
        match err with
        | Some e => ret (actualHookBinding.(tbName), "", Some e)
        | None => ret (actualHookBinding.(tbName), actualMonitorBinding.(tbName), None)
        end
      else ret (actualHookBinding.(tbName), "", None)
  end.

(** The clean-up loop after a failed [createBindings]: results are dropped. *)
Fixpoint deleteCreatedBindings (bindings : list string) : M unit :=
  match bindings with
  | [] => ret tt
  | binding :: rest =>
      if negb (String.eqb binding "")
      then _ <- TriggerBindings.Delete binding ;; deleteCreatedBindings rest
      else deleteCreatedBindings rest
  end.

(** ** 4.4 Trigger-set reconciler *)

Definition pushTriggerOf (r : Resource) (webhook : webhook) (hookExtBinding : string)
  : EventListenerTrigger :=
  newTrigger r (webhook.(Name) ++ "-" ++ webhook.(Namespace) ++ "-push-event")
             (webhook.(Pipeline) ++ "-push-binding")
             (webhook.(Pipeline) ++ "-template")
             webhook.(GitRepositoryURL)
             "push, Push Hook, Tag Push Hook"
             webhook.(AccessTokenRef)
             hookExtBinding.

Definition pullRequestTriggerOf (r : Resource) (webhook : webhook) (hookExtBinding : string)
  : outcome EventListenerTrigger :=
  appendHeader
    (newTrigger r (webhook.(Name) ++ "-" ++ webhook.(Namespace) ++ "-pullrequest-event")
                (webhook.(Pipeline) ++ "-pullrequest-binding")
                (webhook.(Pipeline) ++ "-template")
                webhook.(GitRepositoryURL)
                "pull_request, Merge Request Hook"
                webhook.(AccessTokenRef)
                hookExtBinding)
    actions.

Definition monitorTriggerOf (r : Resource) (webhook : webhook)
  (monitorTriggerName monitorBindingName monitorExtBinding : string)
  : outcome EventListenerTrigger :=
  appendHeader
    (newTrigger r monitorTriggerName
                monitorBindingName
                (webhook.(PullTask) ++ "-template")
                webhook.(GitRepositoryURL)
                "pull_request, Merge Request Hook"
                webhook.(AccessTokenRef)
                monitorExtBinding)
    actions.

(** [generateMonitorTriggerName] on the cluster's random source. *)
Definition generateName (fuel : nat) (prefix : string)
  (existingTriggers : list EventListenerTrigger) : M string :=
  fun c =>
    match generateMonitorTriggerName fuel c.(randSource) c.(randPos) prefix existingTriggers with
    | Returns (name, pos) => Returns (name, setRandPos pos c)
    | Panics msg => Panics msg
    | Diverges => Diverges
    end.

(** Creation of the event listener, called when none exists at the point
    of webhook creation. *)
Definition createEventListener (fuel : nat) (r : Resource) (webhook : webhook)
  (namespace monitorTriggerNamePrefix : string)
  : M (option EventListener * option error) :=
  let '(monitorBindingName, err) :=
    getMonitorBindingName r webhook.(GitRepositoryURL) webhook.(PullTask) in
  match err with
  | Some e => ret (None, Some e)
  | None =>
      '(hookExtBinding, monitorExtBinding, err) <-
         createBindings r webhook monitorBindingName true ;;
      match err with
      | Some e =>
          _ <- deleteCreatedBindings [hookExtBinding; monitorExtBinding] ;;
          ret (None, Some e)
      | None =>
          let pushTrigger := pushTriggerOf r webhook hookExtBinding in
          pullRequestTrigger <- liftO (pullRequestTriggerOf r webhook hookExtBinding) ;;
          monitorTriggerName <- generateName fuel monitorTriggerNamePrefix [] ;;
          monitorTrigger <-
            liftO (monitorTriggerOf r webhook monitorTriggerName
                                    monitorBindingName monitorExtBinding) ;;
          let triggers := [pushTrigger; pullRequestTrigger; monitorTrigger] in
          let eventListener :=
            {| elName := eventListenerName;
               elNamespace := namespace;
               ServiceAccountName := "tekton-webhooks-extension-eventlistener";
               Triggers := triggers |} in
          '(created, err) <- EventListeners.Create eventListener ;;
          ret (match err with None => Some created | Some _ => None end, err)
      end
  end.

Definition withTriggers (el : EventListener) (ts : list EventListenerTrigger)
  : EventListener :=
  {| elName := el.(elName);
     elNamespace := el.(elNamespace);
     ServiceAccountName := el.(ServiceAccountName);
     Triggers := ts |}.

(** Update of the event listener, called when adding additional webhooks
    as the program runs with a single event listener. *)
Definition updateEventListener (fuel : nat) (r : Resource)
  (eventListener : EventListener) (webhook : webhook)
  (monitorTriggerNamePrefix : string)
  : M (option EventListener * option error) :=
  let '(monitorBindingName, err) :=
    getMonitorBindingName r webhook.(GitRepositoryURL) webhook.(PullTask) in
  match err with
  | Some e => ret (None, Some e)
  | None =>
      '(existingMonitorFound, _) <-
         liftO (doesMonitorExist monitorTriggerNamePrefix webhook
                                 eventListener.(Triggers)) ;;
      let createMonitorBinding := negb existingMonitorFound in
      '(hookExtBinding, monitorExtBinding, err) <-
         createBindings r webhook monitorBindingName createMonitorBinding ;;
      match err with
      | Some e =>
          _ <- deleteCreatedBindings [hookExtBinding; monitorExtBinding] ;;
          ret (None, Some e)
      | None =>
          let newPushTrigger := pushTriggerOf r webhook hookExtBinding in
          newPullRequestTrigger <-
            liftO (pullRequestTriggerOf r webhook hookExtBinding) ;;
          let triggers := (eventListener.(Triggers) ++ [newPushTrigger])%list in
          let triggers := (triggers ++ [newPullRequestTrigger])%list in
          triggers <-
            (if negb existingMonitorFound then
               monitorTriggerName <- generateName fuel monitorTriggerNamePrefix triggers ;;
               newMonitor <-
                 liftO (monitorTriggerOf r webhook monitorTriggerName
                                         monitorBindingName monitorExtBinding) ;;
               ret (triggers ++ [newMonitor])%list
             else ret triggers) ;;
          '(updated, err) <- EventListeners.Update (withTriggers eventListener triggers) ;;
          ret (match err with None => Some updated | Some _ => None end, err)
      end
  end.

(** The state of the loop of [deleteFromEventListener] over the current
    triggers.  [bindingsToRemove] is the key set of the Go map, in
    insertion order. *)
Record sweep : Type := mkSweep {
  monitorTrigger : EventListenerTrigger;
  actualMonitorBindingName : string;
  triggersOnRepo : Z;
  triggersDeleted : Z;
  newTriggers : list EventListenerTrigger;
  bindingsToRemove : list string
}.

Definition sweepStart : sweep := mkSweep zeroTrigger "" 0 0 [] [].

(** [m[key] = key] on the key set. *)
Definition mapInsert (key : string) (keys : list string) : list string :=
  if existsb (String.eqb key) keys then keys else (keys ++ [key])%list.

(** The last binding whose [Name] starts with [prefix], else [current]. *)
Fixpoint lastBindingNamed (prefix : string) (bindings : list EventListenerBinding)
  (current : string) : string :=
  match bindings with
  | [] => current
  | binding :: rest =>
      if strings.HasPrefix binding.(bName) prefix
      then lastBindingNamed prefix rest binding.(bName)
      else lastBindingNamed prefix rest current
  end.

Fixpoint markBindings (prefix : string) (bindings : list EventListenerBinding)
  (keys : list string) : list string :=
  match bindings with
  | [] => keys
  | binding :: rest =>
      if strings.HasPrefix binding.(bName) prefix
      then markBindings prefix rest (mapInsert binding.(bName) keys)
      else markBindings prefix rest keys
  end.

(** How many headers name the repository, by string equality. *)
Fixpoint countRepoHeaders (interceptorParams : list HeaderParam) (repoURL : string) : Z :=
  match interceptorParams with
  | [] => 0
  | p :: rest =>
      (if (String.eqb p.(hName) "Wext-Repository-Url"
           && String.eqb p.(hValue).(StringVal) repoURL)%bool then 1 else 0)
      + countRepoHeaders rest repoURL
  end.

(** [for _, triggerName := range toRemove]: is the trigger one to remove? *)
Fixpoint inToRemove (toRemove : list string) (name : string) : bool :=
  match toRemove with
  | [] => false
  | triggerName :: rest =>
      if String.eqb triggerName name then true else inToRemove rest name
  end.

Definition sweepStep (webhook : webhook) (monitorBindingName : string)
  (toRemove : list string) (existingMonitorFound : bool) (monitorTriggerName : string)
  (st : sweep) (t : EventListenerTrigger) : outcome sweep :=
  if (existingMonitorFound && String.eqb t.(tName) monitorTriggerName)%bool then
    Returns (mkSweep t
                     (lastBindingNamed ("wext-" ++ monitorBindingName ++ "-")
                                       t.(Bindings) st.(actualMonitorBindingName))
                     st.(triggersOnRepo) st.(triggersDeleted)
                     st.(newTriggers) st.(bindingsToRemove))
  else
    obind (firstHeader t) (fun interceptorParams =>
    let onRepo := st.(triggersOnRepo)
                  + countRepoHeaders interceptorParams webhook.(GitRepositoryURL) in
    if inToRemove toRemove t.(tName) then
      Returns (mkSweep st.(monitorTrigger) st.(actualMonitorBindingName)
                       onRepo (st.(triggersDeleted) + 1)
                       st.(newTriggers)
                       (markBindings ("wext-" ++ webhook.(Name) ++ "-")
                                     t.(Bindings) st.(bindingsToRemove)))
    else
      Returns (mkSweep st.(monitorTrigger) st.(actualMonitorBindingName)
                       onRepo st.(triggersDeleted)
                       (st.(newTriggers) ++ [t])
                       st.(bindingsToRemove))).

Fixpoint sweepTriggers (webhook : webhook) (monitorBindingName : string)
  (toRemove : list string) (existingMonitorFound : bool) (monitorTriggerName : string)
  (currentTriggers : list EventListenerTrigger) (st : sweep) : outcome sweep :=
  match currentTriggers with
  | [] => Returns st
  | t :: rest =>
      obind (sweepStep webhook monitorBindingName toRemove
                       existingMonitorFound monitorTriggerName st t)
            (fun st' => sweepTriggers webhook monitorBindingName toRemove
                                      existingMonitorFound monitorTriggerName rest st')
  end.

(** The retention decision that follows the loop. *)
Definition decideMonitor (st : sweep) : sweep :=
  if st.(triggersDeleted) <? st.(triggersOnRepo) then
    mkSweep st.(monitorTrigger) st.(actualMonitorBindingName)
            st.(triggersOnRepo) st.(triggersDeleted)
            (st.(newTriggers) ++ [st.(monitorTrigger)])
            st.(bindingsToRemove)
  else
    mkSweep st.(monitorTrigger) st.(actualMonitorBindingName)
            st.(triggersOnRepo) st.(triggersDeleted)
            st.(newTriggers)
            (mapInsert st.(actualMonitorBindingName) st.(bindingsToRemove)).

(** Everything [deleteFromEventListener] computes from the collection
    before it touches the store. *)
Definition reconcileDelete (name monitorTriggerNamePrefix monitorBindingName : string)
  (webhook : webhook) (currentTriggers : list EventListenerTrigger) : outcome sweep :=
  let toRemove := [name ++ "-push-event"; name ++ "-pullrequest-event"] in
  obind (doesMonitorExist monitorTriggerNamePrefix webhook currentTriggers)
        (fun '(existingMonitorFound, monitorTriggerName) =>
  obind (sweepTriggers webhook monitorBindingName toRemove
                       existingMonitorFound monitorTriggerName
                       currentTriggers sweepStart)
        (fun st => Returns (decideMonitor st))).

Definition createDeleteIngress (mode installNS : string) : M (option error) :=
  if String.eqb mode "create" then
    '(_, err) <- Ingresses.Create ("el-" ++ eventListenerName) ;; ret err
  else if String.eqb mode "delete" then
    '(_, err) <- Ingresses.Delete ("el-" ++ eventListenerName) ;; ret err
  else ret (Some (errors.New "Wrong mode for createDeleteIngress")).

Definition createOpenshiftRoute (serviceName : string) : M (option error) :=
  '(_, err) <- Routes.Create serviceName ;; ret err.

Definition deleteOpenshiftRoute (routeName : string) : M (option error) :=
  '(_, err) <- Routes.Delete routeName ;; ret err.

Definition platformSet (r : Resource) : bool :=
  match r.(LookupEnv) "PLATFORM" with
  | Some _ => true
  | None => false
  end.

(** [for binding := range bindingsToRemove]: a failed delete is logged and
    its error kept in [err]; the next delete overwrites it. *)
Fixpoint deleteBindings (keys : list string) (err : option error) : M (option error) :=
  match keys with
  | [] => ret err
  | binding :: rest =>
      '(_, err) <- TriggerBindings.Delete binding ;;
      deleteBindings rest err
  end.

Definition deleteFromEventListener (r : Resource)
  (name installNS monitorTriggerNamePrefix : string) (webhook : webhook)
  : M (option error) :=
  '(el, err) <- EventListeners.Get eventListenerName ;;
  match err with
  | Some e => ret (Some e)
  | None =>
      let '(monitorBindingName, err) :=
        getMonitorBindingName r webhook.(GitRepositoryURL) webhook.(PullTask) in
      match err with
      | Some e => ret (Some e)
      | None =>
          st <- liftO (reconcileDelete name monitorTriggerNamePrefix monitorBindingName
                                       webhook el.(Triggers)) ;;
          match st.(newTriggers) with
          | [] =>
              '(_, err) <- EventListeners.Delete el.(elName) ;;
              match err with
              | Some e => ret (Some e)
              | None =>
                  if negb (platformSet r) then
                    err <- createDeleteIngress "delete" installNS ;;
                    match err with
                    | Some e => ret (Some e)
                    | None => deleteBindings st.(bindingsToRemove) None
                    end
                  else
                    err <- deleteOpenshiftRoute routeName ;;
                    match err with
                    | Some e => ret (Some e)
                    | None => deleteBindings st.(bindingsToRemove) None
                    end
              end
          | _ :: _ =>
              '(_, err) <- EventListeners.Update (withTriggers el st.(newTriggers)) ;;
              match err with
              | Some e => ret (Some e)
              | None => deleteBindings st.(bindingsToRemove) None
              end
          end
      end
  end.

(** ** Listing the registrations held by the collection *)

Record hookFields : Type := mkHookFields {
  fReleaseName : string;
  fNamespace : string;
  fServiceAccount : string;
  fPullTask : string;
  fDockerReg : string;
  fHelmSecret : string
}.

(** The [switch param.Name] of [getHookFromTrigger] over one binding. *)
Fixpoint readParams (params : list BindingParam) (f : hookFields) : hookFields :=
  match params with
  | [] => f
  | param :: rest =>
      let v := param.(pValue) in
      let f' :=
        if String.eqb param.(pName) "webhooks-tekton-release-name" then
          mkHookFields v f.(fNamespace) f.(fServiceAccount) f.(fPullTask) f.(fDockerReg) f.(fHelmSecret)
        else if String.eqb param.(pName) "webhooks-tekton-target-namespace" then
          mkHookFields f.(fReleaseName) v f.(fServiceAccount) f.(fPullTask) f.(fDockerReg) f.(fHelmSecret)
        else if String.eqb param.(pName) "webhooks-tekton-service-account" then
          mkHookFields f.(fReleaseName) f.(fNamespace) v f.(fPullTask) f.(fDockerReg) f.(fHelmSecret)
        else if String.eqb param.(pName) "webhooks-tekton-pull-task" then
          mkHookFields f.(fReleaseName) f.(fNamespace) f.(fServiceAccount) v f.(fDockerReg) f.(fHelmSecret)
        else if String.eqb param.(pName) "webhooks-tekton-docker-registry" then
          mkHookFields f.(fReleaseName) f.(fNamespace) f.(fServiceAccount) f.(fPullTask) v f.(fHelmSecret)
        else if String.eqb param.(pName) "webhooks-tekton-helm-secret" then
          mkHookFields f.(fReleaseName) f.(fNamespace) f.(fServiceAccount) f.(fPullTask) f.(fDockerReg) v
        else f in
      readParams rest f'
  end.

(** The loop over [t.Bindings]: each referenced binding is fetched; a
    failed fetch renames the local copy of the trigger and reads no
    parameter (the client hands back an empty object). *)
Fixpoint readBindings (bindings : list EventListenerBinding)
  (tname : string) (f : hookFields) : M (string * hookFields) :=
  match bindings with
  | [] => ret (tname, f)
  | binding :: rest =>
      '(b, err) <- TriggerBindings.Get binding.(Ref) ;;
      let tname := match err with
                   | Some _ => "Broken webhook! Resources not found"
                   | None => tname
                   end in
      readBindings rest tname (readParams b.(tbParams) f)
  end.

(** The [switch header.Name] over the first interceptor's headers. *)
Fixpoint readHeaders (headers : list HeaderParam) (repo gitSecret : string)
  : string * string :=
  match headers with
  | [] => (repo, gitSecret)
  | header :: rest =>
      if String.eqb header.(hName) "Wext-Repository-Url"
      then readHeaders rest header.(hValue).(StringVal) gitSecret
      else if String.eqb header.(hName) "Wext-Secret-Name"
      then readHeaders rest repo header.(hValue).(StringVal)
      else readHeaders rest repo gitSecret
  end.

Definition getHookFromTrigger (r : Resource) (t : EventListenerTrigger) (suffix : string)
  : M webhook :=
  '(tname, f) <- readBindings t.(Bindings) t.(tName) (mkHookFields "" "" "" "" "" "") ;;
  headers <- liftO (firstHeader t) ;;
  let '(repo, gitSecret) := readHeaders headers "" "" in
  let namespace :=
    if String.eqb f.(fNamespace) "" then r.(Defaults).(dNamespace) else f.(fNamespace) in
  ret {| Name := strings.TrimSuffix tname ("-" ++ namespace ++ suffix);
         Namespace := namespace;
         GitRepositoryURL := repo;
         AccessTokenRef := gitSecret;
         Pipeline := strings.TrimSuffix t.(Template).(tmplName) "-template";
         DockerRegistry := f.(fDockerReg);
         HelmSecret := f.(fHelmSecret);
         ReleaseName := f.(fReleaseName);
         PullTask := f.(fPullTask);
         ServiceAccount := f.(fServiceAccount);
         OnSuccessComment := "";
         OnFailureComment := "";
         OnTimeoutComment := "";
         OnMissingComment := "" |}.

Fixpoint containedInArray (array : list webhook) (hook : webhook) : bool :=
  match array with
  | [] => false
  | item :: rest => if webhook_eqb item hook then true else containedInArray rest hook
  end.

Fixpoint hooksOfTriggers (r : Resource) (triggers : list EventListenerTrigger)
  (hooks : list webhook) : M (list webhook) :=
  match triggers with
  | [] => ret hooks
  | trigger :: rest =>
      if strings.HasSuffix trigger.(tName) "-push-event" then
        hook <- getHookFromTrigger r trigger "-push-event" ;;
        hooksOfTriggers r rest
          (if negb (containedInArray hooks hook) then (hooks ++ [hook])%list else hooks)
      else if strings.HasSuffix trigger.(tName) "-pullrequest-event" then
        hook <- getHookFromTrigger r trigger "-pullrequest-event" ;;
        hooksOfTriggers r rest
          (if negb (containedInArray hooks hook) then (hooks ++ [hook])%list else hooks)
      else hooksOfTriggers r rest hooks
  end.

(** A [nil] slice and an empty one are the same list. *)
Definition getWebhooksFromEventListener (r : Resource) : M (list webhook * option error) :=
  '(el, err) <- EventListeners.Get eventListenerName ;;
  match err with
  | Some e =>
      if strings.Contains e.(Error) "not found" then ret ([], None)
      else ret ([], Some e)
  | None =>
      hooks <- hooksOfTriggers r el.(Triggers) [] ;;
      ret (hooks, None)
  end.

Definition getHooksForRepo (r : Resource) (gitURL : string)
  : M (list webhook * option error) :=
  '(allHooks, err) <- getWebhooksFromEventListener r ;;
  match err with
  | Some e => ret ([], Some e)
  | None =>
      ret (filter (fun hook => String.eqb hook.(GitRepositoryURL) gitURL) allHooks, None)
  end.

(** ** Purging pipeline runs *)

Fixpoint label (labels : list (string * string)) (key : string) : string :=
  match labels with
  | [] => ""
  | (k, v) :: rest => if String.eqb k key then v else label rest key
  end.

(** The URL rebuilt from a run's labels, as the loop compares it. *)
Definition foundRepoURLOf (pipelineRun : PipelineRun) : string :=
  let serverURL := label pipelineRun.(prLabels) "webhooks.tekton.dev/gitServer" in
  let orgName := label pipelineRun.(prLabels) "webhooks.tekton.dev/gitOrg" in
  let repoName := label pipelineRun.(prLabels) "webhooks.tekton.dev/gitRepo" in
  strings.ToLower
    (strings.TrimSuffix ("https://" ++ serverURL ++ "/" ++ orgName ++ "/" ++ repoName) ".git").

(** The loop of [deletePipelineRuns]; [gitRepoURL] is reassigned in every
    iteration that looks at a run of the pipeline. *)
Fixpoint purgeRuns (items : list PipelineRun) (gitRepoURL namespace pipeline : string)
  : M (option error) :=
  match items with
  | [] => ret None
  | pipelineRun :: rest =>
      if String.eqb pipelineRun.(prPipelineRef) pipeline then
        let gitRepoURL := strings.ToLower (strings.TrimSuffix gitRepoURL ".git") in
        if String.eqb (foundRepoURLOf pipelineRun) gitRepoURL then
          '(_, err) <- PipelineRuns.Delete namespace pipelineRun.(prName) ;;
          match err with
          | Some e => ret (Some e)
          | None => purgeRuns rest gitRepoURL namespace pipeline
          end
        else purgeRuns rest gitRepoURL namespace pipeline
      else purgeRuns rest gitRepoURL namespace pipeline
  end.

Definition deletePipelineRuns (gitRepoURL namespace pipeline : string) : M (option error) :=
  '(allPipelineRuns, err) <- PipelineRuns.List namespace ;;
  match err with
  | Some e => ret (Some e)
  | None => purgeRuns allPipelineRuns gitRepoURL namespace pipeline
  end.

(** ** 4.5 Registration service: the two handlers *)

(** What a handler wrote to the response, in order. *)
Inductive ResponseWrite : Type :=
| WriteError (statusCode : Z) (message : string)
| WriteHeader (statusCode : Z).

Definition Response : Type := list ResponseWrite.

Module http.
Definition StatusCreated : Z := 201.
Definition StatusNoContent : Z := 204.
Definition StatusBadRequest : Z := 400.
Definition StatusNotFound : Z := 404.
Definition StatusInternalServerError : Z := 500.
End http.

Definition RespondError (response : Response) (err : error) (statusCode : Z) : Response :=
  (response ++ [WriteError statusCode err.(Error)])%list.

Definition withGitRepositoryURL (v : string) (w : webhook) : webhook :=
  mkWebhook w.(Name) w.(Namespace) v w.(AccessTokenRef) w.(Pipeline) w.(DockerRegistry)
            w.(HelmSecret) w.(ReleaseName) w.(PullTask) w.(ServiceAccount)
            w.(OnSuccessComment) w.(OnFailureComment) w.(OnTimeoutComment)
            w.(OnMissingComment).

Definition withPullTask (v : string) (w : webhook) : webhook :=
  mkWebhook w.(Name) w.(Namespace) w.(GitRepositoryURL) w.(AccessTokenRef) w.(Pipeline)
            w.(DockerRegistry) w.(HelmSecret) w.(ReleaseName) v w.(ServiceAccount)
            w.(OnSuccessComment) w.(OnFailureComment) w.(OnTimeoutComment)
            w.(OnMissingComment).

Definition withDockerRegistry (v : string) (w : webhook) : webhook :=
  mkWebhook w.(Name) w.(Namespace) w.(GitRepositoryURL) w.(AccessTokenRef) w.(Pipeline)
            v w.(HelmSecret) w.(ReleaseName) w.(PullTask) w.(ServiceAccount)
            w.(OnSuccessComment) w.(OnFailureComment) w.(OnTimeoutComment)
            w.(OnMissingComment).

(** The request body as the handler goes on with it: the URL without a
    trailing [.git], the default pull task, the registry without scheme
    (or the install default). *)
Definition sanitize (r : Resource) : webhook -> webhook := fun webhook =>
  let webhook :=
    withGitRepositoryURL (strings.TrimSuffix webhook.(GitRepositoryURL) ".git") webhook in
  let webhook :=
    if String.eqb webhook.(PullTask) "" then withPullTask webhookextPullTask webhook
    else webhook in
  let dockerRegDefault := r.(Defaults).(dDockerRegistry) in
  let webhook :=
    withDockerRegistry (strings.TrimPrefix webhook.(DockerRegistry) "https://") webhook in
  let webhook :=
    withDockerRegistry (strings.TrimPrefix webhook.(DockerRegistry) "http://") webhook in
  if (String.eqb webhook.(DockerRegistry) "" && negb (String.eqb dockerRegDefault ""))%bool
  then withDockerRegistry dockerRegDefault webhook
  else webhook.

(** The loop over the hooks already registered for the repository: the
    message of the first conflict. *)
Fixpoint conflictWith (hooks : list webhook) (webhook : webhook) : option string :=
  match hooks with
  | [] => None
  | hook :: rest =>
      if String.eqb hook.(Name) webhook.(Name) then
        Some "Webhook already exists with the same name"
      else if (String.eqb hook.(Pipeline) webhook.(Pipeline)
               && String.eqb hook.(Namespace) webhook.(Namespace))%bool then
        Some "Webhook already exists for the specified Git repository, running the same pipeline in the same namespace"
      else if negb (String.eqb hook.(PullTask) webhook.(PullTask)) then
        Some ("PullTask mismatch. Webhooks on a repository must use the same PullTask existing webhooks use "
              ++ hook.(PullTask) ++ " not " ++ webhook.(PullTask) ++ ".")
      else conflictWith rest webhook
  end.

(** Up to [n] polls of the event listener's deployment, one second apart. *)
Fixpoint awaitEventListener (n : nat) : M unit :=
  match n with
  | O => ret tt
  | S n' =>
      '(replicas, _) <- Deployments.Get routeName ;;
      if 0 <? replicas then ret tt else awaitEventListener n'
  end.

Definition isSome {A} (o : option A) : bool :=
  match o with Some _ => true | None => false end.

Definition errText (o : option error) : string :=
  match o with Some e => e.(Error) | None => "%!s(<nil>)" end.

(** The part of [createWebhook] that follows the look-up of the hooks of
    the repository; the look-up's error is not read. *)
Definition createWebhookWith (fuel : nat) (r : Resource) (hooks : list webhook)
  (webhook : webhook) : M Response :=
  let response : Response := [] in
  let installNs := r.(Defaults).(dNamespace) in
  match conflictWith hooks webhook with
  | Some msg => ret (RespondError response (errors.New msg) http.StatusBadRequest)
  | None =>
  '(_, templateErr) <- TriggerTemplates.Get (webhook.(Pipeline) ++ "-template") ;;
  '(_, pushErr) <- TriggerBindings.Get (webhook.(Pipeline) ++ "-push-binding") ;;
  '(_, pullrequestErr) <- TriggerBindings.Get (webhook.(Pipeline) ++ "-pullrequest-binding") ;;
  if (isSome templateErr || isSome pushErr || isSome pullrequestErr)%bool then
    let msg := "Could not find the required trigger template or trigger bindings in namespace: "
               ++ installNs ++ ". Expected to find: " ++ webhook.(Pipeline) ++ "-template, "
               ++ webhook.(Pipeline) ++ "-push-binding and "
               ++ webhook.(Pipeline) ++ "-pullrequest-binding" in
    ret (RespondError response (errors.New msg) http.StatusBadRequest)
  else
  '(eventListener, err) <- EventListeners.Get eventListenerName ;;
  if (match err with Some e => negb e.(IsNotFound) | None => false end) then
    let msg := "unable to create webhook due to error listing Tekton eventlistener: "
               ++ errText err in
    ret (RespondError response (errors.New msg) http.StatusInternalServerError)
  else
  '(gitServer, gitOwner, gitRepo, err) <- liftO (getGitValues webhook.(GitRepositoryURL)) ;;
  if isSome err then
    ret (RespondError response
           (errors.New "error parsing GitRepositoryURL, check pod logs for more details")
           http.StatusInternalServerError)
  else
  let monitorTriggerNamePrefix := gitOwner ++ "." ++ gitRepo ++ "-" in
  reconciled <-
    (if negb (String.eqb eventListener.(elName) "") then
       '(_, err) <- updateEventListener fuel r eventListener webhook monitorTriggerNamePrefix ;;
       match err with
       | Some e =>
           let msg := "error creating webhook due to error updating eventlistener: "
                      ++ e.(Error) in
           ret (Some (RespondError response (errors.New msg) http.StatusInternalServerError))
       | None => ret None
       end
     else
       '(_, err) <- createEventListener fuel r webhook installNs monitorTriggerNamePrefix ;;
       match err with
       | Some e =>
           let msg := "error creating webhook due to error creating eventlistener. Error was: "
                      ++ e.(Error) in
           ret (Some (RespondError response (errors.New msg) http.StatusInternalServerError))
       | None =>
           if negb (platformSet r) then
             err <- createDeleteIngress "create" installNs ;;
             match err with
             | Some e =>
                 let msg := "error creating webhook due to error creating ingress. Error was: "
                            ++ e.(Error) in
                 '(_, err2) <- EventListeners.Delete eventListenerName ;;
                 match err2 with
                 | Some e2 =>
                     let updatedMsg :=
                       "error creating webhook due to error creating ingress. Also failed to cleanup and delete eventlistener. Errors were: "
                       ++ e.(Error) ++ " and " ++ e2.(Error) in
                     ret (Some (RespondError response (errors.New updatedMsg)
                                             http.StatusInternalServerError))
                 | None =>
                     ret (Some (RespondError response (errors.New msg)
                                             http.StatusInternalServerError))
                 end
             | None => ret None
             end
           else
             err <- createOpenshiftRoute routeName ;;
             match err with
             | Some e =>
                 '(_, err2) <- EventListeners.Delete eventListenerName ;;
                 match err2 with
                 | Some e2 =>
                     let updatedMsg :=
                       "Error creating webhook due to error creating route. Also failed to cleanup and delete eventlistener. Errors were: "
                       ++ e.(Error) ++ " and " ++ e2.(Error) in
                     ret (Some (RespondError response (errors.New updatedMsg)
                                             http.StatusInternalServerError))
                 | None =>
                     ret (Some (RespondError response e http.StatusInternalServerError))
                 end
             | None => ret None
             end
       end) ;;
  match reconciled with
  | Some failed => ret failed
  | None =>
      match hooks with
      | [] =>
          _ <- awaitEventListener 30 ;;
          err <- AddWebhook webhook gitOwner gitRepo ;;
          match err with
          | Some e =>
              err2 <- deleteFromEventListener r (webhook.(Name) ++ "-" ++ webhook.(Namespace))
                                              installNs monitorTriggerNamePrefix webhook ;;
              match err2 with
              | Some e2 =>
                  let updatedMsg :=
                    "error creating webhook. Also failed to cleanup and delete entry from eventlistener. Errors were: "
                    ++ e.(Error) ++ " and " ++ e2.(Error) in
                  ret (RespondError response (errors.New updatedMsg)
                                    http.StatusInternalServerError)
              | None => ret (RespondError response e http.StatusInternalServerError)
              end
          | None => ret (response ++ [WriteHeader http.StatusCreated])%list
          end
      | _ :: _ => ret (response ++ [WriteHeader http.StatusCreated])%list
      end
  end
  end.

(** Creates a webhook for a given repository and populates (creating it if
    it does not exist yet) the event listener.  The request body is the
    decoded [webhook]; the handler runs under [modifyingEventListenerLock],
    so handlers are composed one after the other. *)
Definition createWebhook (fuel : nat) (r : Resource) (request : webhook) : M Response :=
  let response : Response := [] in
  let webhook := sanitize r request in
  if (negb (String.eqb request.(Name) "") && (57 <? strings.len request.(Name)))%bool then
    ret (RespondError response
           (errors.New ("requested webhook name (" ++ request.(Name)
                        ++ ") must be less than 58 characters"))
           http.StatusBadRequest)
  else if String.eqb webhook.(Namespace) "" then
    ret (RespondError response
           (errors.New "a namespace for creating a webhook is required, but none was given")
           http.StatusBadRequest)
  else if negb (strings.HasPrefix webhook.(GitRepositoryURL) "http") then
    ret (RespondError response
           (errors.New "the supplied GitRepositoryURL does not specify the protocol http:// or https://")
           http.StatusBadRequest)
  else if Z.of_nat (List.length (strings.Split webhook.(GitRepositoryURL) "/")) <? 4 then
    ret (RespondError response (errors.New "GitRepositoryURL format error")
                      http.StatusBadRequest)
  else
    '(hooks, _) <- getHooksForRepo r webhook.(GitRepositoryURL) ;;
    createWebhookWith fuel r hooks webhook.

Module strconvBool.
(** [strconv.ParseBool] *)
Definition ParseBool (str : string) : bool * option error :=
  if existsb (String.eqb str) ["1"; "t"; "T"; "TRUE"; "true"; "True"] then (true, None)
  else if existsb (String.eqb str) ["0"; "f"; "F"; "FALSE"; "false"; "False"] then (false, None)
  else (false, Some (errors.New ("strconv.ParseBool: parsing " ++ str ++ ": invalid syntax"))).
End strconvBool.

(** The loop of [deleteWebhook] over the hooks of the repository.  A
    failure ends the handler ([inr]); otherwise the loop goes on with what
    was written so far and whether a hook matched ([inl]). *)
Fixpoint deleteMatching (r : Resource) (webhooks rest : list webhook)
  (name repo namespace : string) (toDeletePipelineRuns : bool)
  (gitOwner gitRepo monitorTriggerNamePrefix : string)
  (found : bool) (response : Response) : M (bool * Response + Response) :=
  match rest with
  | [] => ret (inl (found, response))
  | hook :: rest' =>
      if (String.eqb hook.(Name) name && String.eqb hook.(Namespace) namespace)%bool then
        removed <-
          (if (Z.of_nat (List.length webhooks) =? 1) then RemoveWebhook hook gitOwner gitRepo
           else ret None) ;;
        match removed with
        | Some e => ret (inr (RespondError response e http.StatusInternalServerError))
        | None =>
            _ <- (if toDeletePipelineRuns
                  then deletePipelineRuns repo namespace hook.(Pipeline)
                  else ret None) ;;
            let eventListenerEntryPrefix := name ++ "-" ++ namespace in
            err <- deleteFromEventListener r eventListenerEntryPrefix
                                           r.(Defaults).(dNamespace)
                                           monitorTriggerNamePrefix hook ;;
            match err with
            | Some _ =>
                ret (inr (RespondError response
                            (errors.New "error deleting webhook from eventlistener")
                            http.StatusInternalServerError))
            | None =>
                deleteMatching r webhooks rest' name repo namespace toDeletePipelineRuns
                               gitOwner gitRepo monitorTriggerNamePrefix true
                               (response ++ [WriteHeader 204])%list
            end
        end
      else
        deleteMatching r webhooks rest' name repo namespace toDeletePipelineRuns
                       gitOwner gitRepo monitorTriggerNamePrefix found response
  end.

(** Removes from the event listener, removes the webhook.  [name] is the
    path parameter; [repo], [namespace] and [deletePipelineRuns] are the
    query parameters. *)
Definition deleteWebhook (r : Resource) (name repo namespace deletePipelineRuns : string)
  : M Response :=
  let response : Response := [] in
  let '(toDeletePipelineRuns, parseErr) :=
    if negb (String.eqb deletePipelineRuns "")
    then strconvBool.ParseBool deletePipelineRuns
    else (false, None) in
  if isSome parseErr then
    ret (RespondError response
           (errors.New "bad request information provided, cannot handle deletepipelineruns query (should be set to true or not provided)")
           http.StatusInternalServerError)
  else if (String.eqb namespace "" || String.eqb repo "")%bool then
    ret (RespondError response
           (errors.New ("bad request information provided, a namespace and a repository must be specified as query parameters. Namespace: "
                        ++ namespace ++ ", repo: " ++ repo))
           http.StatusBadRequest)
  else
    '(webhooks, err) <- getHooksForRepo r repo ;;
    match err with
    | Some e => ret (RespondError response e http.StatusNotFound)
    | None =>
        if Z.of_nat (List.length webhooks) <? 1 then
          ret (RespondError response (errors.New ("no webhook found for repo " ++ repo))
                            http.StatusBadRequest)
        else
          '(_, gitOwner, gitRepo, err) <- liftO (getGitValues repo) ;;
          if isSome err then
            ret (RespondError response
                   (errors.New ("error getting git values for repo " ++ repo))
                   http.StatusInternalServerError)
          else
            let monitorTriggerNamePrefix := gitOwner ++ "." ++ gitRepo ++ "-" in
            looped <- deleteMatching r webhooks webhooks name repo namespace
                                     toDeletePipelineRuns gitOwner gitRepo
                                     monitorTriggerNamePrefix false response ;;
            match looped with
            | inr failed => ret failed
            | inl (found, response) =>
                if negb found then
                  ret (RespondError response
                         (errors.New ("no webhook found for repo " ++ repo ++ " with name "
                                      ++ name ++ " associated with namespace " ++ namespace))
                         http.StatusNotFound)
                else ret response
            end
    end.

(** A cluster with nothing in it but the pipeline's template and base
    bindings, for running the handlers on concrete requests. *)
Definition demoResource : Resource :=
  mkResource (mkDefaults "tekton-pipelines" "" "http://listener.example.com")
             (fun _ => None)
             (fun _ => ("github", "https://api.github.com/", None)).

Definition emptyCluster : Cluster :=
  {| eventListener := None;
     triggerBindings := [ mkTriggerBinding "simple-pipeline-push-binding" [];
                          mkTriggerBinding "simple-pipeline-pullrequest-binding" [];
                          mkTriggerBinding "monitor-task-github-binding" [] ];
     triggerTemplates := ["simple-pipeline-template"; "monitor-task-template"];
     ingress := false;
     route := false;
     pipelineRuns := [];
     readyReplicas := 1;
     providerCalls := [];
     dashboardURL := "http://localhost:9097/";
     faults := [];
     randSource := fun n => 4242 + 7 * Z.of_nat n;
     randPos := O;
     nameSuffix := fun n => strconv.Itoa (Z.of_nat n);
     namePos := O |}.

Definition helloWorld : webhook :=
  {| Name := "go-hello-world";
     Namespace := "green";
     GitRepositoryURL := "https://github.com/ncskier/go-hello-world";
     AccessTokenRef := "github-secret";
     Pipeline := "simple-pipeline";
     DockerRegistry := "mydockerregistry";
     HelmSecret := "";
     ReleaseName := "";
     PullTask := "";
     ServiceAccount := "";
     OnSuccessComment := "";
     OnFailureComment := "";
     OnTimeoutComment := "";
     OnMissingComment := "" |}.

Definition withName (v : string) (w : webhook) : webhook :=
  mkWebhook v w.(Namespace) w.(GitRepositoryURL) w.(AccessTokenRef) w.(Pipeline)
            w.(DockerRegistry) w.(HelmSecret) w.(ReleaseName) w.(PullTask) w.(ServiceAccount)
            w.(OnSuccessComment) w.(OnFailureComment) w.(OnTimeoutComment)
            w.(OnMissingComment).

Definition withNamespace (v : string) (w : webhook) : webhook :=
  mkWebhook w.(Name) v w.(GitRepositoryURL) w.(AccessTokenRef) w.(Pipeline)
            w.(DockerRegistry) w.(HelmSecret) w.(ReleaseName) w.(PullTask) w.(ServiceAccount)
            w.(OnSuccessComment) w.(OnFailureComment) w.(OnTimeoutComment)
            w.(OnMissingComment).

(** The names of the triggers a cluster holds ([None]: no collection). *)
Definition triggerNames (c : Cluster) : option (list string) :=
  match c.(eventListener) with
  | Some el => Some (map tName el.(Triggers))
  | None => None
  end.

(** * Properties *)

(** ** Byte strings *)

Section StringFacts.

Lemma length_app (a b : string) :
  String.length (a ++ b) = (String.length a + String.length b)%nat.
Proof. induction a as [|c a IH]; simpl; [reflexivity | now rewrite IH]. Qed.

Lemma app_assoc_s (a b c : string) : (a ++ b) ++ c = a ++ (b ++ c).
Proof. induction a as [|x a IH]; simpl; [reflexivity | now rewrite IH]. Qed.

Lemma app_empty_r (a : string) : a ++ "" = a.
Proof. induction a as [|x a IH]; simpl; [reflexivity | now rewrite IH]. Qed.

Lemma HasPrefix_app (p s : string) : strings.HasPrefix (p ++ s) p = true.
Proof.
  induction p as [|c p IH]; simpl; [reflexivity|].
  now rewrite Ascii.eqb_refl, IH.
Qed.

Lemma HasPrefix_split (s p : string) :
  strings.HasPrefix s p = true -> s = p ++ strings.drop (String.length p) s.
Proof.
  revert s; induction p as [|c p IH]; intros s H; simpl in *; [reflexivity|].
  destruct s as [|d s]; [discriminate|].
  apply andb_prop in H as [Hc Hp].
  apply Ascii.eqb_eq in Hc; subst d.
  simpl. f_equal. now apply IH.
Qed.

Lemma drop_app (a b : string) : strings.drop (String.length a) (a ++ b) = b.
Proof. induction a as [|c a IH]; simpl; [now destruct b | exact IH]. Qed.

Lemma take_app (a b : string) : strings.take (String.length a) (a ++ b) = a.
Proof. induction a as [|c a IH]; simpl; [now destruct b | now rewrite IH]. Qed.

Lemma take_drop (n : nat) (s : string) : strings.take n s ++ strings.drop n s = s.
Proof.
  revert s; induction n as [|n IH]; intros [|c s]; simpl; try reflexivity.
  now rewrite IH.
Qed.

Lemma HasSuffix_app (a s : string) : strings.HasSuffix (a ++ s) s = true.
Proof.
  unfold strings.HasSuffix. rewrite length_app.
  replace (String.length a + String.length s - String.length s)%nat
    with (String.length a) by lia.
  rewrite drop_app, String.eqb_refl.
  replace (Nat.leb (String.length s) (String.length a + String.length s)) with true;
    [reflexivity|].
  symmetry. apply Nat.leb_le. lia.
Qed.

(** The last byte of a string. *)
Fixpoint lastByte (s : string) : option ascii :=
  match s with
  | EmptyString => None
  | String c EmptyString => Some c
  | String _ t => lastByte t
  end.

Lemma lastByte_app (a b : string) : b <> "" -> lastByte (a ++ b) = lastByte b.
Proof.
  intros Hb. induction a as [|c a IH]; simpl; [reflexivity|].
  destruct (a ++ b) eqn:E; [|exact IH].
  destruct a; simpl in E; [congruence | discriminate].
Qed.

Lemma HasSuffix_split (s suffix : string) :
  strings.HasSuffix s suffix = true ->
  s = strings.take (String.length s - String.length suffix) s ++ suffix.
Proof.
  unfold strings.HasSuffix. intros H.
  apply andb_prop in H as [_ H]. apply String.eqb_eq in H.
  pose proof (take_drop (String.length s - String.length suffix) s) as E.
  rewrite H in E. now symmetry.
Qed.

Lemma HasSuffix_lastByte (s suffix : string) :
  suffix <> "" -> strings.HasSuffix s suffix = true -> lastByte s = lastByte suffix.
Proof.
  intros Hne H. rewrite (HasSuffix_split _ _ H). now apply lastByte_app.
Qed.

End StringFacts.

(** ** 4.1 The normaliser *)

(** The URL as [getGitValues] reads it, in the spec's words: lower-cased,
    then without its leading [https://] (when the URL contains that
    scheme anywhere) or else without its leading [http://]. *)
Definition withoutScheme (url : string) : string :=
  let url := strings.ToLower url in
  if strings.Contains url "https://" then strings.TrimPrefix url "https://"
  else strings.TrimPrefix url "http://".

Definition schemeOf (url : string) : string :=
  if strings.Contains (strings.ToLower url) "https://" then "https://" else "http://".

Lemma getGitValues_eq (url : string) :
  getGitValues url =
  if strings.Count (withoutScheme url) "/" <? 2
  then Returns ("", "", "", Some malformedURL)
  else
    let repoURL := strings.TrimSuffix (withoutScheme url) "/" in
    obind (sliceOrPanic repoURL 0 (strings.Index repoURL "/")) (fun host =>
    obind (sliceOrPanic repoURL (strings.Index repoURL "/" + 1)
                        (strings.LastIndex repoURL "/")) (fun gitOwner =>
    obind (if strings.HasSuffix (strings.ToLower url) ".git"
           then sliceOrPanic repoURL (strings.LastIndex repoURL "/" + 1)
                             (strings.len repoURL - 4)
           else sliceOrPanic repoURL (strings.LastIndex repoURL "/" + 1)
                             (strings.len repoURL)) (fun gitRepo =>
    Returns (schemeOf url ++ host, gitOwner, gitRepo, None)))).
Proof.
  unfold getGitValues, withoutScheme, schemeOf.
  destruct (String.eqb url "") eqn:E.
  - apply String.eqb_eq in E. subst url. reflexivity.
  - simpl negb. cbv iota.
    destruct (strings.Contains (strings.ToLower url) "https://"); reflexivity.
Qed.

Lemma Index_byte_spec (c : ascii) (s : string) :
  strings.Index s (String c "") = -1
  \/ exists n : nat,
       strings.Index s (String c "") = Z.of_nat n
       /\ s = strings.take n s ++ String c (strings.drop (S n) s)
       /\ strings.Index (strings.take n s) (String c "") = -1.
Proof.
  induction s as [|d t IH].
  - left. reflexivity.
  - cbn [strings.Index strings.HasPrefix].
    destruct (Ascii.eqb d c) eqn:E; cbn [andb].
    + right. exists O. apply Ascii.eqb_eq in E. subst d. repeat split.
    + destruct IH as [IH | (n & Hi & Hs & Hn)].
      * left. rewrite IH. reflexivity.
      * right. exists (S n). rewrite Hi.
        replace (Z.of_nat n <? 0) with false by (symmetry; apply Z.ltb_ge; lia).
        repeat split.
        -- lia.
        -- cbn [strings.take strings.drop append]. f_equal. exact Hs.
        -- cbn [strings.take strings.Index strings.HasPrefix].
           rewrite E. cbn [andb]. rewrite Hn. reflexivity.
Qed.

Lemma HasPrefix_take (n : nat) (s p : string) :
  strings.HasPrefix (strings.take n s) p = true -> strings.HasPrefix s p = true.
Proof.
  revert n s; induction p as [|c p IH]; intros n s H; [reflexivity|].
  destruct n as [|n]; destruct s as [|d s]; simpl in *; try discriminate.
  apply andb_prop in H as [H1 H2]. rewrite H1. simpl. eapply IH; eauto.
Qed.

Lemma HasPrefix_TrimSuffix (s suffix p : string) :
  strings.HasPrefix (strings.TrimSuffix s suffix) p = true -> strings.HasPrefix s p = true.
Proof.
  unfold strings.TrimSuffix. destruct (strings.HasSuffix s suffix); [|trivial].
  apply HasPrefix_take.
Qed.

Lemma sliceOrPanic_from_start (s : string) (hi : Z) (r : string) :
  sliceOrPanic s 0 hi = Returns r -> 0 <= hi /\ r = strings.take (Z.to_nat hi) s.
Proof.
  unfold sliceOrPanic, strings.slice.
  destruct (0 <=? hi) eqn:E; cbn [andb Z.leb]; [|simpl; discriminate].
  apply Z.leb_le in E.
  replace (0 <=? 0) with true by reflexivity. cbn [andb].
  destruct (hi <=? strings.len s); [|discriminate].
  intros [= <-]. split; [exact E|].
  now rewrite Z.sub_0_r.
Qed.

(** The host that precedes the first [/]. *)
Lemma host_of_slice (s host : string) :
  sliceOrPanic s 0 (strings.Index s "/") = Returns host ->
  strings.Index host "/" = -1 /\ strings.HasPrefix s (host ++ "/") = true.
Proof.
  intros H. apply sliceOrPanic_from_start in H as [Hi ->].
  destruct (Index_byte_spec "/"%char s) as [E | (n & E & Hs & Hn)].
  - change (String "/" "") with "/" in E. lia.
  - change (String "/" "") with "/" in *. rewrite E, Nat2Z.id.
    split; [exact Hn|].
    rewrite Hs at 1.
    replace (strings.take n s ++ String "/" (strings.drop (S n) s))
      with ((strings.take n s ++ "/") ++ strings.drop (S n) s)
      by (rewrite app_assoc_s; reflexivity).
    apply HasPrefix_app.
Qed.

(** C4, as amended: [getGitValues] checks no scheme.  It returns the
    malformed-URL error exactly when fewer than two [/] remain in the
    lower-cased URL after a leading [https://] (when the URL contains that
    scheme) or else a leading [http://] has been removed; and when it
    succeeds the returned server is a scheme, [https://] or [http://],
    followed by the host, the part of the remaining URL before its first
    [/]: the scheme is put back in front of the server, not stripped. *)
Theorem getGitValues_malformed_iff_and_server (url : string) :
  ((exists server owner repo e,
       getGitValues url = Returns (server, owner, repo, Some e))
   <-> strings.Count (withoutScheme url) "/" < 2)
  /\ (strings.Count (withoutScheme url) "/" < 2 ->
      getGitValues url = Returns ("", "", "", Some malformedURL))
  /\ (forall server owner repo,
        getGitValues url = Returns (server, owner, repo, None) ->
        exists host,
          server = schemeOf url ++ host
          /\ (schemeOf url = "https://" \/ schemeOf url = "http://")
          /\ strings.Index host "/" = -1
          /\ strings.HasPrefix (withoutScheme url) (host ++ "/") = true).
Proof.
  rewrite getGitValues_eq.
  destruct (strings.Count (withoutScheme url) "/" <? 2) eqn:E.
  - apply Z.ltb_lt in E. repeat split.
    + intros _. exact E.
    + intros _. now exists "", "", "", malformedURL.
    + discriminate.
  - apply Z.ltb_ge in E. cbv zeta. repeat split.
    + intros (server & owner & repo & e & H).
      destruct (sliceOrPanic _ 0 _); simpl in H; try discriminate.
      destruct (sliceOrPanic _ (_ + 1) _); simpl in H; try discriminate.
      destruct (strings.HasSuffix _ ".git");
        destruct (sliceOrPanic _ (_ + 1) _); simpl in H; discriminate.
    + lia.
    + lia.
    + intros server owner repo H.
      destruct (sliceOrPanic _ 0 _) as [host| |] eqn:Hhost; simpl in H; try discriminate.
      destruct (sliceOrPanic _ (_ + 1) _); simpl in H; try discriminate.
      assert (Hs : server = schemeOf url ++ host).
      { destruct (strings.HasSuffix _ ".git");
          destruct (sliceOrPanic _ (_ + 1) _); simpl in H; congruence. }
      exists host. apply host_of_slice in Hhost as [Hno Hpre].
      repeat split; trivial.
      * unfold schemeOf. destruct (strings.Contains _ _); auto.
      * eapply HasPrefix_TrimSuffix; eauto.
Qed.

(** C4 as stated fails: a URL with no scheme at all is accepted, and the
    server that comes back carries a scheme. *)
Lemma getGitValues_accepts_schemeless_url :
  strings.HasPrefix "github.com/tektoncd/pipeline" "http://" = false
  /\ strings.HasPrefix "github.com/tektoncd/pipeline" "https://" = false
  /\ getGitValues "github.com/tektoncd/pipeline"
     = Returns ("http://github.com", "tektoncd", "pipeline", None)
  /\ getGitValues "https://github.com/tektoncd/pipeline"
     = Returns ("https://github.com", "tektoncd", "pipeline", None).
Proof. repeat split; reflexivity. Qed.

(** ** 4.3 Generated monitor names *)

Lemma nameTaken_true_iff (existing : list EventListenerTrigger) (name : string) :
  nameTaken existing name = true <-> In name (map tName existing).
Proof.
  induction existing as [|t rest IH]; simpl.
  - split; [discriminate | tauto].
  - destruct (String.eqb (tName t) name) eqn:E.
    + apply String.eqb_eq in E. tauto.
    + apply String.eqb_neq in E. rewrite IH. split; [tauto|].
      intros [H|H]; [contradiction | exact H].
Qed.

Lemma nameTaken_false_Forall (existing : list EventListenerTrigger) (name : string) :
  nameTaken existing name = false -> Forall (fun t => tName t <> name) existing.
Proof.
  intros H. apply Forall_forall. intros t Ht E.
  assert (nameTaken existing name = true) as C.
  { apply nameTaken_true_iff. rewrite <- E. now apply in_map. }
  congruence.
Qed.

Lemma Intn_range (source : nat -> Z) (pos : nat) (n : Z) :
  0 < n -> 0 <= Intn source pos n < n.
Proof. intros H. unfold Intn. apply Z.mod_pos_bound. exact H. Qed.

(** While every draw is taken the loop goes on. *)
Lemma generateMonitorTriggerName_skips (k : nat) :
  forall (fuel : nat) (source : nat -> Z) (pos : nat) (prefix : string)
         (existing : list EventListenerTrigger),
    (forall j, (j < k)%nat ->
       nameTaken existing (prefix ++ strconv.Itoa (Intn source (pos + j) 10000)) = true) ->
    generateMonitorTriggerName (k + fuel) source pos prefix existing
    = generateMonitorTriggerName fuel source (pos + k) prefix existing.
Proof.
  induction k as [|k IH]; intros fuel source pos prefix existing Hk.
  - now rewrite Nat.add_0_r.
  - cbn [Nat.add generateMonitorTriggerName].
    pose proof (Hk O ltac:(lia)) as H0. rewrite Nat.add_0_r in H0. rewrite H0.
    rewrite IH.
    + f_equal. lia.
    + intros j Hj. replace (S pos + j)%nat with (pos + S j)%nat by lia.
      apply Hk. lia.
Qed.

(** C9, as amended: the name returned is the prefix followed by the
    decimal integer of the first draw whose name is free.  If the first
    [k] draws of the random source are names of existing triggers and the
    next one is not, the function returns after [k + 1] draws the prefix
    followed by that draw, an integer in [0, 10000), and the name differs
    from the name of every trigger in the list. *)
Theorem generateMonitorTriggerName_first_free_draw
  (prefix : string) (existing : list EventListenerTrigger)
  (source : nat -> Z) (pos k fuel : nat) :
  (forall j, (j < k)%nat ->
     nameTaken existing (prefix ++ strconv.Itoa (Intn source (pos + j) 10000)) = true) ->
  nameTaken existing (prefix ++ strconv.Itoa (Intn source (pos + k) 10000)) = false ->
  (k < fuel)%nat ->
  let n := Intn source (pos + k) 10000 in
  generateMonitorTriggerName fuel source pos prefix existing
  = Returns (prefix ++ strconv.Itoa n, S (pos + k))
  /\ 0 <= n < 10000
  /\ Forall (fun t => tName t <> prefix ++ strconv.Itoa n) existing.
Proof.
  intros Htaken Hfree Hfuel n. repeat split.
  - replace fuel with (k + S (fuel - S k))%nat by lia.
    rewrite generateMonitorTriggerName_skips by exact Htaken.
    cbn [generateMonitorTriggerName]. fold n. unfold n. rewrite Hfree. reflexivity.
  - apply Intn_range. lia.
  - apply Intn_range. lia.
  - now apply nameTaken_false_Forall.
Qed.

(** Whenever the function returns, what it returns is such a name. *)
Lemma generateMonitorTriggerName_returns (fuel : nat) :
  forall (source : nat -> Z) (pos : nat) (prefix : string)
         (existing : list EventListenerTrigger) (name : string) (pos' : nat),
    generateMonitorTriggerName fuel source pos prefix existing = Returns (name, pos') ->
    exists n, name = prefix ++ strconv.Itoa n /\ 0 <= n < 10000
              /\ nameTaken existing name = false.
Proof.
  induction fuel as [|fuel IH]; intros source pos prefix existing name pos' H;
    [discriminate|].
  cbn [generateMonitorTriggerName] in H.
  destruct (nameTaken existing _) eqn:E.
  - eapply IH; eauto.
  - inversion H; subst. eexists. repeat split; try apply Intn_range; try lia. exact E.
Qed.

Definition namedTrigger (name : string) : EventListenerTrigger :=
  mkTrigger name [] (mkTemplate "" "") [].

(** Every name [prefix ++ Itoa n] with [n] below 10000 taken. *)
Definition allNamesTaken (prefix : string) : list EventListenerTrigger :=
  map (fun n => namedTrigger (prefix ++ strconv.Itoa (Z.of_nat n)))
      (seq 0 (Z.to_nat 10000)).

Lemma allNamesTaken_taken (prefix : string) (source : nat -> Z) (pos : nat) :
  nameTaken (allNamesTaken prefix) (prefix ++ strconv.Itoa (Intn source pos 10000)) = true.
Proof.
  apply nameTaken_true_iff. unfold allNamesTaken. rewrite map_map. cbn [tName namedTrigger].
  pose proof (Intn_range source pos 10000 ltac:(lia)) as R.
  apply in_map_iff. exists (Z.to_nat (Intn source pos 10000)). split.
  - rewrite Z2Nat.id by lia. reflexivity.
  - apply in_seq. lia.
Qed.

(** C9 as stated fails: with all ten thousand candidate names taken the
    function returns nothing, whatever the random source draws and however
    long it runs. *)
Lemma generateMonitorTriggerName_never_returns_when_saturated :
  exists existing : list EventListenerTrigger,
    List.length existing = Z.to_nat 10000
    /\ forall (fuel : nat) (source : nat -> Z) (pos : nat),
         generateMonitorTriggerName fuel source pos "monitor-" existing = Diverges.
Proof.
  exists (allNamesTaken "monitor-"). split.
  - unfold allNamesTaken. now rewrite length_map, length_seq.
  - induction fuel as [|fuel IH]; intros source pos; [reflexivity|].
    cbn [generateMonitorTriggerName]. rewrite allNamesTaken_taken. apply IH.
Qed.

Definition oneTaken : list EventListenerTrigger := [namedTrigger "a.b-7"].

Lemma generateMonitorTriggerName_first_free_draw_witness :
  generateMonitorTriggerName 2 (fun n => 7 + 10000 * Z.of_nat n + 5 * Z.of_nat n) O "a.b-" oneTaken
  = Returns ("a.b-12", 2%nat).
Proof.
  pose proof (generateMonitorTriggerName_first_free_draw
                "a.b-" oneTaken (fun n => 7 + 10000 * Z.of_nat n + 5 * Z.of_nat n) O 1 2) as H.
  cbv zeta in H.
  destruct H as [H _].
  - intros j Hj. assert (j = O) by lia. subst j. reflexivity.
  - reflexivity.
  - lia.
  - exact H.
Defined.

(** ** Computations against the cluster *)

Lemma bind_returns {A B} (m : M A) (k : A -> M B) (c c' : Cluster) (b : B) :
  bind m k c = Returns (b, c') ->
  exists a c1, m c = Returns (a, c1) /\ k a c1 = Returns (b, c').
Proof.
  unfold bind. destruct (m c) as [[a c1]| |]; try discriminate.
  intros H. now exists a, c1.
Qed.

Lemma ret_returns {A} (a b : A) (c c' : Cluster) :
  ret a c = Returns (b, c') -> b = a /\ c' = c.
Proof. unfold ret. intros [= -> ->]. now split. Qed.

Lemma liftO_returns {A} (o : outcome A) (a : A) (c c' : Cluster) :
  liftO o c = Returns (a, c') -> o = Returns a /\ c' = c.
Proof. unfold liftO. destruct o; try discriminate. intros [= -> ->]. now split. Qed.

(** A computation leaves the part [f] of the cluster as it found it. *)
Definition preserves {A X} (f : Cluster -> X) (m : M A) : Prop :=
  forall c a c', m c = Returns (a, c') -> f c' = f c.

Lemma preserves_ret {A X} (f : Cluster -> X) (a : A) : preserves f (ret a).
Proof. intros c b c' H. apply ret_returns in H as [_ ->]. reflexivity. Qed.

Lemma preserves_liftO {A X} (f : Cluster -> X) (o : outcome A) : preserves f (liftO o).
Proof. intros c b c' H. apply liftO_returns in H as [_ ->]. reflexivity. Qed.

Lemma preserves_bind {A B X} (f : Cluster -> X) (m : M A) (k : A -> M B) :
  preserves f m -> (forall a, preserves f (k a)) -> preserves f (bind m k).
Proof.
  intros Hm Hk c b c' H. apply bind_returns in H as (a & c1 & H1 & H2).
  rewrite (Hk a _ _ _ H2). eapply Hm; eauto.
Qed.

Lemma preserves_clientCall {A X} (f : Cluster -> X) (zero : A)
  (op : Cluster -> (A * option error) * Cluster) :
  (forall v c, f (setFaults v c) = f c) ->
  (forall c, f (snd (op c)) = f c) ->
  preserves f (clientCall zero op).
Proof.
  intros Hf Hop c a c' H. unfold clientCall in H.
  destruct (faults c) as [|[e|] rest].
  - inversion H; subst. rewrite <- (Hop c). now destruct (op c); inversion H.
  - inversion H; subst. apply Hf.
  - inversion H. rewrite <- (Hf rest c), <- (Hop (setFaults rest c)).
    now destruct (op (setFaults rest c)); inversion H.
Qed.

(** The parts of the cluster that the properties below follow. *)
Definition storedTriggers (c : Cluster) : list EventListenerTrigger :=
  match c.(eventListener) with
  | Some el => el.(Triggers)
  | None => []
  end.

Lemma TriggerBindings_Get_preserves {X} (f : Cluster -> X) (name : string) :
  (forall v c, f (setFaults v c) = f c) ->
  preserves f (TriggerBindings.Get name).
Proof.
  intros Hf. unfold TriggerBindings.Get.
  apply preserves_clientCall; [exact Hf|]. intros c.
  destruct (findBinding name (triggerBindings c)); reflexivity.
Qed.

Lemma EventListeners_Get_preserves {X} (f : Cluster -> X) (name : string) :
  (forall v c, f (setFaults v c) = f c) ->
  preserves f (EventListeners.Get name).
Proof.
  intros Hf. unfold EventListeners.Get.
  apply preserves_clientCall; [exact Hf|]. intros c.
  destruct (eventListener c) as [el|]; [destruct (String.eqb _ _)|]; reflexivity.
Qed.

Lemma TriggerTemplates_Get_preserves {X} (f : Cluster -> X) (name : string) :
  (forall v c, f (setFaults v c) = f c) ->
  preserves f (TriggerTemplates.Get name).
Proof.
  intros Hf. unfold TriggerTemplates.Get.
  apply preserves_clientCall; [exact Hf|]. intros c.
  destruct (existsb _ _); reflexivity.
Qed.

Lemma Deployments_Get_preserves {X} (f : Cluster -> X) (name : string) :
  (forall v c, f (setFaults v c) = f c) ->
  preserves f (Deployments.Get name).
Proof.
  intros Hf. unfold Deployments.Get.
  apply preserves_clientCall; [exact Hf|]. reflexivity.
Qed.

Lemma awaitEventListener_preserves {X} (f : Cluster -> X) (n : nat) :
  (forall v c, f (setFaults v c) = f c) ->
  preserves f (awaitEventListener n).
Proof.
  intros Hf. induction n as [|n IH]; cbn [awaitEventListener].
  - apply preserves_ret.
  - apply preserves_bind; [now apply Deployments_Get_preserves|].
    intros [replicas err]. destruct (0 <? replicas); [apply preserves_ret | exact IH].
Qed.

Lemma readBindings_preserves {X} (f : Cluster -> X) (bindings : list EventListenerBinding) :
  (forall v c, f (setFaults v c) = f c) ->
  forall tname fields, preserves f (readBindings bindings tname fields).
Proof.
  intros Hf. induction bindings as [|b rest IH]; intros tname fields; cbn [readBindings].
  - apply preserves_ret.
  - apply preserves_bind; [now apply TriggerBindings_Get_preserves|].
    intros [tb err]. apply IH.
Qed.

Lemma getHookFromTrigger_preserves {X} (f : Cluster -> X) (r : Resource)
  (t : EventListenerTrigger) (suffix : string) :
  (forall v c, f (setFaults v c) = f c) ->
  preserves f (getHookFromTrigger r t suffix).
Proof.
  intros Hf. unfold getHookFromTrigger.
  apply preserves_bind; [now apply readBindings_preserves|].
  intros [tname fields]. apply preserves_bind; [apply preserves_liftO|].
  intros headers. destruct (readHeaders headers "" ""). apply preserves_ret.
Qed.

Lemma hooksOfTriggers_preserves {X} (f : Cluster -> X) (r : Resource)
  (triggers : list EventListenerTrigger) :
  (forall v c, f (setFaults v c) = f c) ->
  forall hooks, preserves f (hooksOfTriggers r triggers hooks).
Proof.
  intros Hf. induction triggers as [|t rest IH]; intros hooks; cbn [hooksOfTriggers].
  - apply preserves_ret.
  - destruct (strings.HasSuffix (tName t) "-push-event").
    + apply preserves_bind; [now apply getHookFromTrigger_preserves|]. intros; apply IH.
    + destruct (strings.HasSuffix (tName t) "-pullrequest-event").
      * apply preserves_bind; [now apply getHookFromTrigger_preserves|]. intros; apply IH.
      * apply IH.
Qed.

(** The look-up of the hooks of a repository only reads: it leaves every
    store as it was (it uses up fault entries, nothing else). *)
Lemma getHooksForRepo_preserves {X} (f : Cluster -> X) (r : Resource) (gitURL : string) :
  (forall v c, f (setFaults v c) = f c) ->
  preserves f (getHooksForRepo r gitURL).
Proof.
  intros Hf. unfold getHooksForRepo, getWebhooksFromEventListener.
  apply preserves_bind.
  - apply preserves_bind; [now apply EventListeners_Get_preserves|].
    intros [el [e|]].
    + destruct (strings.Contains _ _); apply preserves_ret.
    + apply preserves_bind; [now apply hooksOfTriggers_preserves|].
      intros; apply preserves_ret.
  - intros [hooks [e|]]; apply preserves_ret.
Qed.

(** ** 4.5 Deleting where nothing is registered *)

(** The stores of two clusters hold the same objects. *)
Definition sameStores (c c' : Cluster) : Prop :=
  eventListener c' = eventListener c
  /\ triggerBindings c' = triggerBindings c
  /\ triggerTemplates c' = triggerTemplates c
  /\ ingress c' = ingress c
  /\ route c' = route c
  /\ pipelineRuns c' = pipelineRuns c
  /\ providerCalls c' = providerCalls c.

Lemma getHooksForRepo_sameStores (r : Resource) (gitURL : string) (c c' : Cluster)
  (res : list webhook * option error) :
  getHooksForRepo r gitURL c = Returns (res, c') -> sameStores c c'.
Proof.
  intros H. unfold sameStores.
  repeat split;
    (eapply (getHooksForRepo_preserves _ r gitURL); [reflexivity | exact H]).
Qed.

(** The query parameter [deletepipelineruns] is absent or a boolean. *)
Definition deletePipelineRunsOK (deletePipelineRuns : string) : bool :=
  (String.eqb deletePipelineRuns ""
   || negb (isSome (snd (strconvBool.ParseBool deletePipelineRuns))))%bool.

(** C7, as amended: when the look-up finds no registration for the
    repository, the delete fails with the error [no webhook found for
    repo ...] and HTTP status 400 (Bad Request), not 404, and it leaves
    every store as it was. *)
Theorem deleteWebhook_without_registration_is_bad_request
  (r : Resource) (name repo namespace deletePipelineRuns : string) (c c1 : Cluster) :
  namespace <> "" ->
  repo <> "" ->
  deletePipelineRunsOK deletePipelineRuns = true ->
  getHooksForRepo r repo c = Returns (([], None), c1) ->
  deleteWebhook r name repo namespace deletePipelineRuns c
  = Returns ([WriteError 400 ("no webhook found for repo " ++ repo)], c1)
  /\ sameStores c c1.
Proof.
  intros Hns Hrepo Hdpr Hlookup. repeat split;
    try (eapply getHooksForRepo_sameStores; exact Hlookup).
  unfold deleteWebhook.
  assert (Hparse :
    (if negb (String.eqb deletePipelineRuns "")
     then strconvBool.ParseBool deletePipelineRuns else (false, None))
    = (fst (if negb (String.eqb deletePipelineRuns "")
            then strconvBool.ParseBool deletePipelineRuns else (false, None)), None)).
  { unfold deletePipelineRunsOK in Hdpr.
    destruct (String.eqb deletePipelineRuns ""); [reflexivity|].
    cbn [negb orb] in *.
    destruct (strconvBool.ParseBool deletePipelineRuns) as [b [e|]];
      [discriminate | reflexivity]. }
  rewrite Hparse. cbn [isSome].
  apply String.eqb_neq in Hns, Hrepo. rewrite Hns, Hrepo. cbn [orb].
  unfold bind. rewrite Hlookup. reflexivity.
Qed.

(** C7 as stated fails: with no collection at all the answer is 400. *)
Lemma deleteWebhook_without_registration_is_not_404 :
  getHooksForRepo demoResource "https://github.com/ncskier/go-hello-world" emptyCluster
  = Returns (([], None), emptyCluster)
  /\ deleteWebhook demoResource "go-hello-world"
                   "https://github.com/ncskier/go-hello-world" "green" "" emptyCluster
     = Returns ([WriteError 400 "no webhook found for repo https://github.com/ncskier/go-hello-world"],
                emptyCluster).
Proof. split; reflexivity. Qed.

Lemma deleteWebhook_without_registration_witness :
  deleteWebhook demoResource "go-hello-world"
                "https://github.com/ncskier/go-hello-world" "green" "true" emptyCluster
  = Returns ([WriteError 400 "no webhook found for repo https://github.com/ncskier/go-hello-world"],
             emptyCluster).
Proof.
  refine (proj1 (deleteWebhook_without_registration_is_bad_request
                   demoResource "go-hello-world"
                   "https://github.com/ncskier/go-hello-world" "green" "true"
                   emptyCluster emptyCluster _ _ _ _));
    try discriminate; reflexivity.
Defined.

(** ** What a successful client call did *)

Lemma clientCall_returns {A} (zero : A) (op : Cluster -> (A * option error) * Cluster)
  (c c' : Cluster) (x : A * option error) :
  clientCall zero op c = Returns (x, c') ->
  (exists e rest, faults c = Some e :: rest /\ x = (zero, Some e) /\ c' = setFaults rest c)
  \/ (exists c0, (c0 = c \/ exists rest, c0 = setFaults rest c) /\ op c0 = (x, c')).
Proof.
  unfold clientCall. destruct (faults c) as [|[e|] rest] eqn:E; intros H.
  - right. exists c. split; [now left|]. now inversion H.
  - left. exists e, rest. inversion H; subst. now repeat split.
  - right. exists (setFaults rest c). split; [right; now exists rest|]. now inversion H.
Qed.

(** The trigger a builder returns (the builders never panic). *)
Definition built (o : outcome EventListenerTrigger) : EventListenerTrigger :=
  match o with
  | Returns t => t
  | _ => zeroTrigger
  end.

Lemma pullRequestTriggerOf_built (r : Resource) (w : webhook) (hookExtBinding : string) :
  pullRequestTriggerOf r w hookExtBinding
  = Returns (built (pullRequestTriggerOf r w hookExtBinding)).
Proof. reflexivity. Qed.

Lemma monitorTriggerOf_built (r : Resource) (w : webhook) (name mbn mb : string) :
  monitorTriggerOf r w name mbn mb = Returns (built (monitorTriggerOf r w name mbn mb)).
Proof. reflexivity. Qed.

Ltac minv H :=
  lazymatch type of H with
  | bind _ _ _ = Returns _ =>
      let a := fresh "a" in
      let c1 := fresh "c" in
      let H1 := fresh "H" in
      let H2 := fresh "H" in
      apply bind_returns in H as (a & c1 & H1 & H2); minv H1; minv H2
  | ret _ _ = Returns _ =>
      let E := fresh "E" in
      apply ret_returns in H as [E ?]; subst
  | liftO _ _ = Returns _ =>
      apply liftO_returns in H as [? ?]; subst
  | (match ?x with _ => _ end) _ = Returns _ =>
      let E := fresh "E" in
      destruct x eqn:E; try discriminate H; try minv H
  | _ => idtac
  end.

Lemma TriggerBindings_Create_returns (generateName : string) (params : list BindingParam)
  (c c' : Cluster) (b : TriggerBinding) :
  TriggerBindings.Create generateName params c = Returns ((b, None), c') ->
  eventListener c' = eventListener c
  /\ providerCalls c' = providerCalls c
  /\ (exists suffix, b = mkTriggerBinding (generateName ++ suffix) params)
  /\ triggerBindings c' = (triggerBindings c ++ [b])%list.
Proof.
  intros H. unfold TriggerBindings.Create in H.
  apply clientCall_returns in H as [(e & rest & _ & [=] & _) | (c0 & Hc0 & H)].
  cbv zeta in H.
  destruct (findBinding _ _) eqn:E; [discriminate|].
  inversion H; subst. cbn.
  destruct Hc0 as [-> | (rest & ->)]; cbn; repeat split; eauto.
Qed.

Lemma getParams_returns (r : Resource) (w : webhook) (c c' : Cluster)
  (x : list BindingParam * list BindingParam) :
  getParams r w c = Returns (x, c') -> c' = c.
Proof.
  intros H. unfold getParams in H. minv H.
  match goal with
  | D : getDashboardURL _ _ = Returns _ |- _ => unfold getDashboardURL in D; now inversion D
  end.
Qed.

(** A successful [createBindings] appends the hook binding, and the
    monitor binding when asked to, to the binding store. *)
Lemma createBindings_returns (r : Resource) (w : webhook) (mbn : string) (flag : bool)
  (c c' : Cluster) (hb mb : string) :
  createBindings r w mbn flag c = Returns ((hb, mb, None), c') ->
  eventListener c' = eventListener c
  /\ providerCalls c' = providerCalls c
  /\ exists hookBinding,
       tbName hookBinding = hb
       /\ strings.HasPrefix hb ("wext-" ++ Name w ++ "-") = true
       /\ if flag
          then exists monitorBinding,
                 tbName monitorBinding = mb
                 /\ strings.HasPrefix mb ("wext-" ++ mbn ++ "-") = true
                 /\ triggerBindings c'
                    = (triggerBindings c ++ [hookBinding; monitorBinding])%list
          else mb = "" /\ triggerBindings c' = (triggerBindings c ++ [hookBinding])%list.
Proof.
  intros H. unfold createBindings in H. minv H;
    repeat match goal with
    | G : getParams _ _ _ = Returns _ |- _ => apply getParams_returns in G; subst
    | G : TriggerBindings.Create _ _ _ = Returns _ |- _ =>
        let s := fresh "s" in
        apply TriggerBindings_Create_returns in G as (? & ? & (s & ->) & ?)
    | G : (_, _, _) = (_, _, _) |- _ => inversion G; subst; clear G
    end.
  - split; [congruence|]. split; [congruence|].
    eexists (mkTriggerBinding _ _). split; [reflexivity|]. split; [apply HasPrefix_app|].
    eexists (mkTriggerBinding _ _). split; [reflexivity|]. split; [apply HasPrefix_app|].
    match goal with
    | A : triggerBindings ?c2 = (triggerBindings ?c1 ++ _)%list,
      B : triggerBindings ?c1 = (triggerBindings ?c0 ++ _)%list |- _ =>
        rewrite A, B, <- app_assoc; reflexivity
    end.
  - split; [congruence|]. split; [congruence|].
    eexists (mkTriggerBinding _ _). split; [reflexivity|]. split; [apply HasPrefix_app|].
    split; [reflexivity | eassumption].
Qed.

Lemma generateName_returns (fuel : nat) (prefix : string)
  (existing : list EventListenerTrigger) (c c' : Cluster) (name : string) :
  generateName fuel prefix existing c = Returns (name, c') ->
  eventListener c' = eventListener c
  /\ triggerBindings c' = triggerBindings c
  /\ providerCalls c' = providerCalls c
  /\ exists n, name = prefix ++ strconv.Itoa n /\ 0 <= n < 10000
               /\ nameTaken existing name = false.
Proof.
  unfold generateName. intros H.
  destruct (generateMonitorTriggerName _ _ _ _ _) as [[nm pos]| |] eqn:E; try discriminate.
  inversion H; subst. repeat split.
  eapply generateMonitorTriggerName_returns; eauto.
Qed.

Lemma EventListeners_Create_returns (el x : EventListener) (c c' : Cluster) :
  EventListeners.Create el c = Returns ((x, None), c') ->
  eventListener c = None
  /\ eventListener c' = Some el
  /\ triggerBindings c' = triggerBindings c
  /\ providerCalls c' = providerCalls c.
Proof.
  intros H. unfold EventListeners.Create in H.
  apply clientCall_returns in H as [(e & rest & _ & [=] & _) | (c0 & Hc0 & H)].
  destruct (eventListener c0) eqn:E; [discriminate|].
  inversion H; subst.
  destruct Hc0 as [-> | (rest & ->)]; cbn in *; repeat split; auto.
Qed.

Lemma EventListeners_Update_returns (el x : EventListener) (c c' : Cluster) :
  EventListeners.Update el c = Returns ((x, None), c') ->
  eventListener c' = Some el
  /\ triggerBindings c' = triggerBindings c
  /\ providerCalls c' = providerCalls c.
Proof.
  intros H. unfold EventListeners.Update in H.
  apply clientCall_returns in H as [(e & rest & _ & [=] & _) | (c0 & Hc0 & H)].
  destruct (eventListener c0) eqn:E; [|discriminate].
  destruct (String.eqb _ _); [|discriminate].
  inversion H; subst.
  destruct Hc0 as [-> | (rest & ->)]; cbn in *; repeat split; auto.
Qed.

Lemma EventListeners_Get_returns (name : string) (el : EventListener) (c c' : Cluster)
  (err : option error) :
  EventListeners.Get name c = Returns ((el, err), c') ->
  eventListener c' = eventListener c
  /\ triggerBindings c' = triggerBindings c
  /\ providerCalls c' = providerCalls c
  /\ match err with
     | None => eventListener c = Some el /\ elName el = name
     | Some _ => el = zeroEventListener
     end.
Proof.
  intros H. unfold EventListeners.Get in H.
  apply clientCall_returns in H as [(e & rest & _ & [= -> ->] & ->) | (c0 & Hc0 & H)].
  - repeat split.
  - assert (eventListener c0 = eventListener c /\ triggerBindings c0 = triggerBindings c
            /\ providerCalls c0 = providerCalls c) as (E1 & E2 & E3)
      by (destruct Hc0 as [-> | (rest & ->)]; repeat split).
    destruct (eventListener c0) as [el0|] eqn:E.
    + destruct (String.eqb (elName el0) name) eqn:En; inversion H; subst;
        repeat split; try congruence.
      now apply String.eqb_eq.
    + inversion H; subst. repeat split; congruence.
Qed.

(** The registration builds. *)
Definition monitorNamed (prefix name : string) : Prop :=
  exists n, name = prefix ++ strconv.Itoa n /\ 0 <= n < 10000.

Lemma createEventListener_returns (fuel : nat) (r : Resource) (w : webhook)
  (namespace prefix : string) (c c' : Cluster) (res : option EventListener) :
  createEventListener fuel r w namespace prefix c = Returns ((res, None), c') ->
  exists monitorBindingName hookExtBinding monitorExtBinding monitorTriggerName
         hookBinding monitorBinding,
    getMonitorBindingName r (GitRepositoryURL w) (PullTask w) = (monitorBindingName, None)
    /\ monitorNamed prefix monitorTriggerName
    /\ eventListener c = None
    /\ eventListener c'
       = Some {| elName := eventListenerName;
                 elNamespace := namespace;
                 ServiceAccountName := "tekton-webhooks-extension-eventlistener";
                 Triggers :=
                   [ pushTriggerOf r w hookExtBinding;
                     built (pullRequestTriggerOf r w hookExtBinding);
                     built (monitorTriggerOf r w monitorTriggerName
                                             monitorBindingName monitorExtBinding) ] |}
    /\ tbName hookBinding = hookExtBinding
    /\ tbName monitorBinding = monitorExtBinding
    /\ strings.HasPrefix hookExtBinding ("wext-" ++ Name w ++ "-") = true
    /\ strings.HasPrefix monitorExtBinding ("wext-" ++ monitorBindingName ++ "-") = true
    /\ triggerBindings c' = (triggerBindings c ++ [hookBinding; monitorBinding])%list
    /\ providerCalls c' = providerCalls c.
Proof.
  intros H. unfold createEventListener in H. minv H.
  - match goal with G : (_, None) = (_, Some _) |- _ => discriminate G end.
  - repeat match goal with
    | G : (_, _) = (_, _) |- _ => inversion G; subst; clear G
    | G : createBindings _ _ _ _ _ = Returns (_, _, None, _) |- _ =>
        apply createBindings_returns in G as (? & ? & ? & ? & ? & ? & ? & ? & ?)
    | G : generateName _ _ _ _ = Returns _ |- _ =>
        apply generateName_returns in G as (? & ? & ? & ? & ? & ? & ?)
    | G : EventListeners.Create _ _ = Returns (_, None, _) |- _ =>
        apply EventListeners_Create_returns in G as (? & ? & ? & ?)
    | G : ?o = Returns ?a |- _ =>
        is_var a;
        assert (a = built o) by (rewrite G; reflexivity); subst a; clear G
    end.
    subst. do 6 eexists. split; [reflexivity|].
    split; [eexists; split; [reflexivity | eassumption]|].
    split; [congruence|].
    split; [eassumption|].
    split; [reflexivity|]. split; [reflexivity|].
    repeat (split; [eassumption|]).
    split; congruence.
Qed.

Lemma updateEventListener_returns (fuel : nat) (r : Resource) (w : webhook)
  (el : EventListener) (prefix : string) (c c' : Cluster) (res : option EventListener) :
  updateEventListener fuel r el w prefix c = Returns ((res, None), c') ->
  exists monitorBindingName existingMonitorFound monitorName hookExtBinding hookBinding,
    getMonitorBindingName r (GitRepositoryURL w) (PullTask w) = (monitorBindingName, None)
    /\ doesMonitorExist prefix w (Triggers el) = Returns (existingMonitorFound, monitorName)
    /\ tbName hookBinding = hookExtBinding
    /\ strings.HasPrefix hookExtBinding ("wext-" ++ Name w ++ "-") = true
    /\ providerCalls c' = providerCalls c
    /\ if existingMonitorFound then
         eventListener c'
         = Some (withTriggers el
                   (Triggers el ++ [ pushTriggerOf r w hookExtBinding;
                                     built (pullRequestTriggerOf r w hookExtBinding) ])%list)
         /\ triggerBindings c' = (triggerBindings c ++ [hookBinding])%list
       else
         exists monitorExtBinding monitorTriggerName monitorBinding,
           monitorNamed prefix monitorTriggerName
           /\ nameTaken (Triggers el ++ [ pushTriggerOf r w hookExtBinding;
                                          built (pullRequestTriggerOf r w hookExtBinding) ])%list
                        monitorTriggerName = false
           /\ tbName monitorBinding = monitorExtBinding
           /\ strings.HasPrefix monitorExtBinding ("wext-" ++ monitorBindingName ++ "-") = true
           /\ eventListener c'
              = Some (withTriggers el
                        (Triggers el
                         ++ [ pushTriggerOf r w hookExtBinding;
                              built (pullRequestTriggerOf r w hookExtBinding);
                              built (monitorTriggerOf r w monitorTriggerName
                                                      monitorBindingName
                                                      monitorExtBinding) ])%list)
           /\ triggerBindings c' = (triggerBindings c ++ [hookBinding; monitorBinding])%list.
Proof.
  intros H. unfold updateEventListener in H. minv H.
  all: repeat match goal with
    | G : (_, _) = (_, _) |- _ => inversion G; subst; clear G
    | G : createBindings _ _ _ _ _ = Returns (_, _, None, _) |- _ =>
        apply createBindings_returns in G as (? & ? & ? & ? & ? & ?)
    | G : generateName _ _ _ _ = Returns _ |- _ =>
        apply generateName_returns in G as (? & ? & ? & ? & ? & ? & ?)
    | G : EventListeners.Update _ _ = Returns (_, None, _) |- _ =>
        apply EventListeners_Update_returns in G as (? & ? & ?)
    | G : ?o = Returns ?a |- _ =>
        is_var a;
        assert (a = built o) by (rewrite G; reflexivity); subst a; clear G
    end.
  all: subst.
  all: repeat match goal with
    | G : context [((_ ++ [_]) ++ [_])%list] |- _ =>
        rewrite <- !app_assoc in G; cbn [app] in G
    | G : negb ?b = _ |- _ => destruct b; cbn [negb] in G; try discriminate G; clear G
    | G : exists _, _ |- _ => destruct G as (? & ? & ? & ?)
    end.
  - do 5 eexists. split; [reflexivity|]. split; [eassumption|].
    split; [reflexivity|]. split; [eassumption|]. split; [congruence|].
    cbv iota. do 3 eexists.
    split; [eexists; split; [reflexivity | eassumption]|].
    split; [eassumption|]. split; [reflexivity|]. subst.
    split; [eassumption|]. split; [eassumption|].
    repeat match goal with
    | A : triggerBindings ?a = triggerBindings ?b |- triggerBindings ?a = _ => rewrite A
    end. assumption.
  - do 5 eexists. split; [reflexivity|]. split; [eassumption|].
    split; [reflexivity|]. split; [eassumption|]. split; [congruence|].
    cbv iota. split; [eassumption |].
    repeat match goal with
    | A : triggerBindings ?a = triggerBindings ?b |- triggerBindings ?a = _ => rewrite A
    end. tauto.
Qed.


Lemma createDeleteIngress_preserves {X} (f : Cluster -> X) (mode installNS : string) :
  (forall v c, f (setFaults v c) = f c) ->
  (forall v c, f (setIngress v c) = f c) ->
  preserves f (createDeleteIngress mode installNS).
Proof.
  intros Hf Hi. unfold createDeleteIngress, Ingresses.Create, Ingresses.Delete.
  destruct (String.eqb mode "create"); [|destruct (String.eqb mode "delete")].
  - apply preserves_bind; [|intros [u e]; apply preserves_ret].
    apply preserves_clientCall; [exact Hf|].
    intros c. destruct (ingress c); cbn [snd]; [reflexivity | apply Hi].
  - apply preserves_bind; [|intros [u e]; apply preserves_ret].
    apply preserves_clientCall; [exact Hf|].
    intros c. destruct (ingress c); cbn [snd]; [apply Hi | reflexivity].
  - apply preserves_ret.
Qed.

Lemma createOpenshiftRoute_preserves {X} (f : Cluster -> X) (serviceName : string) :
  (forall v c, f (setFaults v c) = f c) ->
  (forall v c, f (setRoute v c) = f c) ->
  preserves f (createOpenshiftRoute serviceName).
Proof.
  intros Hf Hi. unfold createOpenshiftRoute, Routes.Create.
  apply preserves_bind; [|intros [u e]; apply preserves_ret].
  apply preserves_clientCall; [exact Hf|].
  intros c. destruct (route c); cbn [snd]; [reflexivity | apply Hi].
Qed.

Lemma deleteOpenshiftRoute_preserves {X} (f : Cluster -> X) (name : string) :
  (forall v c, f (setFaults v c) = f c) ->
  (forall v c, f (setRoute v c) = f c) ->
  preserves f (deleteOpenshiftRoute name).
Proof.
  intros Hf Hi. unfold deleteOpenshiftRoute, Routes.Delete.
  apply preserves_bind; [|intros [u e]; apply preserves_ret].
  apply preserves_clientCall; [exact Hf|].
  intros c. destruct (route c); cbn [snd]; [apply Hi | reflexivity].
Qed.

Lemma AddWebhook_returns (hook : webhook) (owner repo : string) (c c' : Cluster) :
  AddWebhook hook owner repo c = Returns (None, c') ->
  eventListener c' = eventListener c
  /\ triggerBindings c' = triggerBindings c
  /\ providerCalls c' = (providerCalls c ++ [AddWebhookCall hook owner repo])%list.
Proof.
  intros H. unfold AddWebhook in H. minv H.
  match goal with
  | G : clientCall _ _ _ = Returns _ |- _ =>
      apply clientCall_returns in G as [(e & rest & _ & [=] & _) | (cc & Hcc & G)];
      inversion G; subst; destruct Hcc as [-> | (rest & ->)]; repeat split
  end.
Qed.

(** What one successful registration of [w] did, [hooks] being the hooks
    the look-up found for the repository. *)
Definition registrationEffect (r : Resource) (hooks : list webhook) (w : webhook)
  (c c' : Cluster) : Prop :=
  exists server owner repo monitorBindingName hookBinding,
    getGitValues (GitRepositoryURL w) = Returns (server, owner, repo, None)
    /\ getMonitorBindingName r (GitRepositoryURL w) (PullTask w) = (monitorBindingName, None)
    /\ strings.HasPrefix (tbName hookBinding) ("wext-" ++ Name w ++ "-") = true
    /\ providerCalls c'
       = (providerCalls c
          ++ match hooks with [] => [AddWebhookCall w owner repo] | _ :: _ => [] end)%list
    /\ let prefix := owner ++ "." ++ repo ++ "-" in
       let hookTriggers :=
         [ pushTriggerOf r w (tbName hookBinding);
           built (pullRequestTriggerOf r w (tbName hookBinding)) ] in
       let monitorOf (name : string) (monitorBinding : TriggerBinding) :=
         built (monitorTriggerOf r w name monitorBindingName (tbName monitorBinding)) in
       let withMonitor (before : list EventListenerTrigger) (el : EventListener) :=
         exists monitorTriggerName monitorBinding,
           monitorNamed prefix monitorTriggerName
           /\ (before = [] \/ nameTaken (before ++ hookTriggers)%list monitorTriggerName = false)
           /\ strings.HasPrefix (tbName monitorBinding)
                                ("wext-" ++ monitorBindingName ++ "-") = true
           /\ eventListener c'
              = Some (withTriggers el
                        (before ++ hookTriggers
                         ++ [monitorOf monitorTriggerName monitorBinding])%list)
           /\ triggerBindings c' = (triggerBindings c ++ [hookBinding; monitorBinding])%list in
       match eventListener c with
       | None =>
           withMonitor []
             (mkEventListener eventListenerName (dNamespace (Defaults r))
                              "tekton-webhooks-extension-eventlistener" [])
       | Some el =>
           exists existingMonitorFound monitorName,
             doesMonitorExist prefix w (Triggers el)
             = Returns (existingMonitorFound, monitorName)
             /\ if existingMonitorFound then
                  eventListener c'
                  = Some (withTriggers el (Triggers el ++ hookTriggers)%list)
                  /\ triggerBindings c' = (triggerBindings c ++ [hookBinding])%list
                else withMonitor (Triggers el) el
       end.

Ltac use_frames :=
  repeat match goal with
  | G : TriggerTemplates.Get ?n ?c = Returns (_, ?c') |- _ =>
      pose proof (TriggerTemplates_Get_preserves eventListener n (fun _ _ => eq_refl) _ _ _ G);
      pose proof (TriggerTemplates_Get_preserves triggerBindings n (fun _ _ => eq_refl) _ _ _ G);
      pose proof (TriggerTemplates_Get_preserves providerCalls n (fun _ _ => eq_refl) _ _ _ G);
      clear G
  | G : TriggerBindings.Get ?n ?c = Returns (_, ?c') |- _ =>
      pose proof (TriggerBindings_Get_preserves eventListener n (fun _ _ => eq_refl) _ _ _ G);
      pose proof (TriggerBindings_Get_preserves triggerBindings n (fun _ _ => eq_refl) _ _ _ G);
      pose proof (TriggerBindings_Get_preserves providerCalls n (fun _ _ => eq_refl) _ _ _ G);
      clear G
  | G : awaitEventListener ?n ?c = Returns (_, ?c') |- _ =>
      pose proof (awaitEventListener_preserves eventListener n (fun _ _ => eq_refl) _ _ _ G);
      pose proof (awaitEventListener_preserves triggerBindings n (fun _ _ => eq_refl) _ _ _ G);
      pose proof (awaitEventListener_preserves providerCalls n (fun _ _ => eq_refl) _ _ _ G);
      clear G
  | G : createDeleteIngress ?m ?n ?c = Returns (_, ?c') |- _ =>
      pose proof (createDeleteIngress_preserves eventListener m n
                    (fun _ _ => eq_refl) (fun _ _ => eq_refl) _ _ _ G);
      pose proof (createDeleteIngress_preserves triggerBindings m n
                    (fun _ _ => eq_refl) (fun _ _ => eq_refl) _ _ _ G);
      pose proof (createDeleteIngress_preserves providerCalls m n
                    (fun _ _ => eq_refl) (fun _ _ => eq_refl) _ _ _ G);
      clear G
  | G : createOpenshiftRoute ?n ?c = Returns (_, ?c') |- _ =>
      pose proof (createOpenshiftRoute_preserves eventListener n
                    (fun _ _ => eq_refl) (fun _ _ => eq_refl) _ _ _ G);
      pose proof (createOpenshiftRoute_preserves triggerBindings n
                    (fun _ _ => eq_refl) (fun _ _ => eq_refl) _ _ _ G);
      pose proof (createOpenshiftRoute_preserves providerCalls n
                    (fun _ _ => eq_refl) (fun _ _ => eq_refl) _ _ _ G);
      clear G
  | G : AddWebhook _ _ _ _ = Returns (None, _) |- _ =>
      apply AddWebhook_returns in G as (? & ? & ?)
  | G : EventListeners.Get _ _ = Returns _ |- _ =>
      apply EventListeners_Get_returns in G as (? & ? & ? & ?)
  end.

Lemma createWebhookWith_created (fuel : nat) (r : Resource) (hooks : list webhook)
  (w : webhook) (c c' : Cluster) :
  createWebhookWith fuel r hooks w c = Returns ([WriteHeader 201], c') ->
  registrationEffect r hooks w c c'.
Proof.
  intros H. unfold createWebhookWith in H.
  minv H.
  all: try match goal with
    | G : [WriteHeader 201] = RespondError _ _ _ |- _ => discriminate G
    end.
  all: use_frames.
  all: match goal with
    | G : isSome ?o = false, G' : getGitValues _ = Returns (_, ?o) |- _ =>
        destruct o; [discriminate G|]; clear G
    end.
  all: repeat match goal with
    | G : [WriteHeader 201] = _ |- _ => clear G
    | G : conflictWith _ _ = None |- _ => clear G
    | G : isSome _ || _ = false |- _ => clear G
    end.
  all: repeat match goal with
    | G : ?o = None /\ _ |- _ => destruct G
    | G : match ?o with Some _ => ?e = zeroEventListener | None => _ end,
      G' : negb (String.eqb (elName ?e) "") = true |- _ =>
        destruct o; [subst e; discriminate G'|]; destruct G; clear G'
    | G : match ?o with Some _ => ?e = zeroEventListener | None => _ end,
      G' : negb (String.eqb (elName ?e) "") = false |- _ =>
        clear G'
    | G : updateEventListener _ _ _ _ _ _ = Returns (_, None, _) |- _ =>
        apply updateEventListener_returns in G
          as (mbn & found & mname & hb & hookBinding & ? & ? & ? & ? & ? & ?)
    | G : createEventListener _ _ _ _ _ _ = Returns (_, None, _) |- _ =>
        apply createEventListener_returns in G
          as (mbn & hb & mb & mname & hookBinding & monitorBinding
              & ? & ? & ? & ? & ? & ? & ? & ? & ? & ?)
    end.
  all: unfold registrationEffect.
  all: repeat match goal with
    | G : eventListener ?a = eventListener ?b |- _ => try rewrite G in *; clear G
    | G : triggerBindings ?a = triggerBindings ?b |- _ => try rewrite G in *; clear G
    | G : providerCalls ?a = providerCalls ?b |- _ => try rewrite G in *; clear G
    end.
  all: subst.
  all: do 5 eexists.
  all: (split; [eassumption|]).
  all: (split; [eassumption|]).
  all: (split; [eassumption|]).
  all: (split; [first [eassumption | symmetry; apply app_nil_r]|]).
  all: cbv zeta.
  all: match goal with
    | G : eventListener ?c = _ |- context [match eventListener ?c with _ => _ end] =>
        rewrite G
    end.
  1,2: exists found, mname; (split; [assumption|]); destruct found; [assumption|];
       match goal with
       | G : exists _ _ _, _ |- _ =>
           destruct G as (mb & mtn & monitorBinding & ? & ? & ? & ? & ? & ?)
       end; subst; exists mtn, monitorBinding; cbn [app]; auto 10.
  all: exists mname, monitorBinding; cbn [app withTriggers]; auto 10.
Qed.

(** A registration the handler answers with 201 did what
    [registrationEffect] says, for the sanitised request and the hooks the
    look-up returned. *)
Lemma createWebhook_created (fuel : nat) (r : Resource) (request : webhook)
  (c c' : Cluster) :
  createWebhook fuel r request c = Returns ([WriteHeader 201], c') ->
  exists hooks, registrationEffect r hooks (sanitize r request) c c'.
Proof.
  intros H. unfold createWebhook in H.
  repeat match type of H with
  | (if ?b then _ else _) _ = _ => destruct b; [minv H; discriminate|]
  end.
  minv H.
  match goal with
  | G : getHooksForRepo _ _ _ = Returns _ |- _ =>
      pose proof (getHooksForRepo_preserves eventListener _ _ (fun _ _ => eq_refl) _ _ _ G);
      pose proof (getHooksForRepo_preserves triggerBindings _ _ (fun _ _ => eq_refl) _ _ _ G);
      pose proof (getHooksForRepo_preserves providerCalls _ _ (fun _ _ => eq_refl) _ _ _ G)
  end.
  match goal with
  | G : createWebhookWith _ _ ?hooks _ _ = Returns _ |- _ =>
      exists hooks; apply createWebhookWith_created in G; revert G
  end.
  unfold registrationEffect.
  repeat match goal with
    | G : eventListener ?a = eventListener ?b |- _ => rewrite G; clear G
    | G : triggerBindings ?a = triggerBindings ?b |- _ => rewrite G; clear G
    | G : providerCalls ?a = providerCalls ?b |- _ => rewrite G; clear G
    end.
  trivial.
Qed.


(** ** Registration: the first webhook of a cluster *)

Lemma sanitize_Name (r : Resource) (request : webhook) :
  Name (sanitize r request) = Name request
  /\ Namespace (sanitize r request) = Namespace request
  /\ Pipeline (sanitize r request) = Pipeline request
  /\ AccessTokenRef (sanitize r request) = AccessTokenRef request
  /\ GitRepositoryURL (sanitize r request)
     = strings.TrimSuffix (GitRepositoryURL request) ".git".
Proof.
  unfold sanitize.
  repeat match goal with
  | |- context [if ?b then _ else _] => destruct b
  end; repeat split.
Qed.

(** C6: the first successful registration against an absent collection
    creates the collection with exactly three triggers, the push trigger
    [{name}-{namespace}-push-event], the pull-request trigger
    [{name}-{namespace}-pullrequest-event] and one monitor trigger named
    [{owner}.{repo}-] followed by a generated decimal suffix below 10000;
    and it creates two bindings, the hook binding the push and
    pull-request triggers refer to and the monitor binding the monitor
    trigger refers to. *)
Theorem createWebhook_first_registration
  (fuel : nat) (r : Resource) (request : webhook) (c c' : Cluster) :
  eventListener c = None ->
  createWebhook fuel r request c = Returns ([WriteHeader 201], c') ->
  exists server owner repo suffix pushTrigger pullRequestTrigger monitorTrigger
         hookBinding monitorBinding el,
    getGitValues (GitRepositoryURL (sanitize r request))
    = Returns (server, owner, repo, None)
    /\ eventListener c' = Some el
    /\ elName el = eventListenerName
    /\ Triggers el = [pushTrigger; pullRequestTrigger; monitorTrigger]
    /\ tName pushTrigger = Name request ++ "-" ++ Namespace request ++ "-push-event"
    /\ tName pullRequestTrigger
       = Name request ++ "-" ++ Namespace request ++ "-pullrequest-event"
    /\ tName monitorTrigger = owner ++ "." ++ repo ++ "-" ++ strconv.Itoa suffix
    /\ 0 <= suffix < 10000
    /\ triggerBindings c' = (triggerBindings c ++ [hookBinding; monitorBinding])%list
    /\ strings.HasPrefix (tbName hookBinding) ("wext-" ++ Name request ++ "-") = true
    /\ map Ref (Bindings pushTrigger)
       = [Pipeline request ++ "-push-binding"; tbName hookBinding]
    /\ map Ref (Bindings pullRequestTrigger)
       = [Pipeline request ++ "-pullrequest-binding"; tbName hookBinding]
    /\ nth_error (map Ref (Bindings monitorTrigger)) 1 = Some (tbName monitorBinding).
Proof.
  intros Habsent H.
  apply createWebhook_created in H as (hooks & H).
  destruct H as (server & owner & repo & mbn & hookBinding & Hgit & Hmbn & Hhb & Hpc & H).
  cbv zeta in H. rewrite Habsent in H.
  destruct H as (mname & monitorBinding & (n & -> & Hn) & _ & Hmb & Hel & Htb).
  destruct (sanitize_Name r request) as (EName & ENs & EPipe & ETok & EUrl).
  exists server, owner, repo, n. do 3 eexists. exists hookBinding, monitorBinding.
  eexists. split; [exact Hgit|]. split; [exact Hel|].
  cbn [withTriggers elName Triggers app].
  split; [reflexivity|]. split; [reflexivity|].
  cbn [pushTriggerOf pullRequestTriggerOf monitorTriggerOf newTrigger appendHeader built
       tName Bindings Interceptors Webhook map Ref nth_error].
  rewrite EName, ENs, EPipe in *.
  repeat split; try assumption; try lia.
  now rewrite !app_assoc_s.
Qed.

Definition afterFirstRegistration : Cluster :=
  match createWebhook 5 demoResource helloWorld emptyCluster with
  | Returns (_, c') => c'
  | _ => emptyCluster
  end.

Lemma createWebhook_first_registration_witness :
  exists el, eventListener afterFirstRegistration = Some el
             /\ map tName (Triggers el)
                = [ "go-hello-world-green-push-event";
                    "go-hello-world-green-pullrequest-event";
                    "ncskier.go-hello-world-4242" ].
Proof.
  assert (Hrun : createWebhook 5 demoResource helloWorld emptyCluster
                 = Returns ([WriteHeader 201], afterFirstRegistration))
    by (vm_compute; reflexivity).
  destruct (createWebhook_first_registration 5 demoResource helloWorld emptyCluster
              afterFirstRegistration eq_refl Hrun)
    as (server & owner & repo & suffix & t1 & t2 & t3 & hb & mb & el
        & _ & Hel & _ & Hts & _).
  exists el. split; [exact Hel|].
  assert (E : eventListener afterFirstRegistration = Some el) by exact Hel.
  vm_compute in E. injection E as <-. reflexivity.
Defined.


(** ** 4.2 The headers of the triggers a registration builds *)

(** The four fixed headers of an interceptor. *)
Definition fixedHeaders (name repoURL event secretName : string) : list HeaderParam :=
  [ mkHeader "Wext-Trigger-Name" (mkAOS ParamTypeString name);
    mkHeader "Wext-Repository-Url" (mkAOS ParamTypeString repoURL);
    mkHeader "Wext-Incoming-Event" (mkAOS ParamTypeString event);
    mkHeader "Wext-Secret-Name" (mkAOS ParamTypeString secretName) ].

Definition pushEvents : string := "push, Push Hook, Tag Push Hook".
Definition pullRequestEvents : string := "pull_request, Merge Request Hook".

(** What a registration appended: the new triggers behind the old ones. *)
Lemma registrationEffect_appended (r : Resource) (hooks : list webhook) (w : webhook)
  (c c' : Cluster) :
  registrationEffect r hooks w c c' ->
  exists hookExtBinding others,
    storedTriggers c'
    = (storedTriggers c
       ++ pushTriggerOf r w hookExtBinding
          :: built (pullRequestTriggerOf r w hookExtBinding) :: others)%list
    /\ (others = []
        \/ exists name monitorBindingName monitorExtBinding,
             others = [built (monitorTriggerOf r w name monitorBindingName
                                               monitorExtBinding)]).
Proof.
  intros (server & owner & repo & mbn & hookBinding & _ & _ & _ & _ & H).
  cbv zeta in H. unfold storedTriggers.
  destruct (eventListener c) as [el|].
  - destruct H as (found & mname & _ & H). destruct found.
    + destruct H as [-> _]. exists (tbName hookBinding), []. split; [reflexivity | now left].
    + destruct H as (name & mb & _ & _ & _ & -> & _).
      eexists (tbName hookBinding), [_]. split; [reflexivity|]. right. now do 3 eexists.
  - destruct H as (name & mb & _ & _ & _ & -> & _).
    eexists (tbName hookBinding), [_]. split; [reflexivity|]. right. now do 3 eexists.
Qed.

(** C8, as amended: of the triggers a registration builds, the
    pull-request trigger and the monitor trigger carry the four fixed
    headers (trigger name, repository URL, event filter, secret name)
    followed by the [Wext-Incoming-Actions] header with value
    [opened,reopened,synchronize]; the push trigger carries the four fixed
    headers and nothing else. *)
Theorem registration_trigger_headers
  (fuel : nat) (r : Resource) (request : webhook) (c c' : Cluster) :
  createWebhook fuel r request c = Returns ([WriteHeader 201], c') ->
  exists pushTrigger others,
    storedTriggers c' = (storedTriggers c ++ pushTrigger :: others)%list
    /\ firstHeader pushTrigger
       = Returns (fixedHeaders (tName pushTrigger)
                               (GitRepositoryURL (sanitize r request))
                               pushEvents (AccessTokenRef request))
    /\ others <> []
    /\ Forall (fun t =>
                 firstHeader t
                 = Returns (fixedHeaders (tName t)
                                         (GitRepositoryURL (sanitize r request))
                                         pullRequestEvents (AccessTokenRef request)
                            ++ [ mkHeader "Wext-Incoming-Actions"
                                          (mkAOS ParamTypeString
                                                 "opened,reopened,synchronize") ])%list)
              others.
Proof.
  intros H. apply createWebhook_created in H as (hooks & H).
  apply registrationEffect_appended in H as (hb & others & Hts & Hothers).
  destruct (sanitize_Name r request) as (_ & _ & _ & ETok & _).
  eexists _, (_ :: others). split; [exact Hts|].
  split; [cbn; now rewrite ETok|].
  split; [discriminate|].
  constructor; [cbn; now rewrite ETok|].
  destruct Hothers as [-> | (name & mbn & mb & ->)]; constructor; [|constructor].
  cbn. now rewrite ETok.
Qed.

(** C8 as stated fails: the push trigger of a registration has the four
    fixed headers and no [Wext-Incoming-Actions] header. *)
Lemma push_trigger_has_no_actions_header :
  option_map (fun t => (tName t, firstHeader t))
             (hd_error (storedTriggers afterFirstRegistration))
  = Some ("go-hello-world-green-push-event",
          Returns (fixedHeaders "go-hello-world-green-push-event"
                                "https://github.com/ncskier/go-hello-world"
                                "push, Push Hook, Tag Push Hook" "github-secret"))
  /\ existsb (fun h => String.eqb (hName h) "Wext-Incoming-Actions")
             (fixedHeaders "go-hello-world-green-push-event"
                           "https://github.com/ncskier/go-hello-world"
                           "push, Push Hook, Tag Push Hook" "github-secret")
     = false.
Proof. split; vm_compute; reflexivity. Qed.

Lemma registration_trigger_headers_witness :
  exists pushTrigger others,
    storedTriggers afterFirstRegistration = pushTrigger :: others
    /\ List.length others = 2%nat.
Proof.
  assert (Hrun : createWebhook 5 demoResource helloWorld emptyCluster
                 = Returns ([WriteHeader 201], afterFirstRegistration))
    by (vm_compute; reflexivity).
  destruct (registration_trigger_headers 5 demoResource helloWorld emptyCluster
              afterFirstRegistration Hrun)
    as (pushTrigger & others & Hts & _).
  exists pushTrigger, others. split; [exact Hts|].
  assert (E : storedTriggers afterFirstRegistration = pushTrigger :: others) by exact Hts.
  vm_compute in E. injection E as _ <-. reflexivity.
Defined.


(** ** 4.5 A failed look-up during creation *)

(** The request passes the checks that precede the look-up. *)
Definition passesValidation (r : Resource) (request : webhook) : bool :=
  let webhook := sanitize r request in
  (negb (negb (String.eqb (Name request) "") && (57 <? strings.len (Name request)))
   && negb (String.eqb (Namespace webhook) "")
   && strings.HasPrefix (GitRepositoryURL webhook) "http"
   && negb (Z.of_nat (List.length (strings.Split (GitRepositoryURL webhook) "/")) <? 4))%bool.

Lemma createWebhook_valid (fuel : nat) (r : Resource) (request : webhook) :
  passesValidation r request = true ->
  createWebhook fuel r request
  = bind (getHooksForRepo r (GitRepositoryURL (sanitize r request)))
         (fun x => match x with
                   | (hooks, _) => createWebhookWith fuel r hooks (sanitize r request)
                   end).
Proof.
  unfold passesValidation, createWebhook. cbv zeta. intros H.
  apply andb_prop in H as [H H4]. apply andb_prop in H as [H H3].
  apply andb_prop in H as [H1 H2].
  apply negb_true_iff in H1, H2, H4.
  rewrite H1, H2, H3, H4. reflexivity.
Qed.

(** A failed look-up hands back no hook. *)
Lemma getHooksForRepo_failed (r : Resource) (gitURL : string) (c c1 : Cluster)
  (hooks : list webhook) (e : error) :
  getHooksForRepo r gitURL c = Returns ((hooks, Some e), c1) -> hooks = [].
Proof.
  intros H. unfold getHooksForRepo in H. minv H; congruence.
Qed.

(** C10: when the look-up of the hooks of the repository fails,
    [createWebhook] drops the error and goes on exactly as with no hook
    registered: the conflict checks run over no hook at all, so none of
    the three conflicts is found, and a registration that is answered 201
    has called the Git provider to register the webhook, as for the first
    registration of a repository. *)
Theorem createWebhook_ignores_lookup_error
  (fuel : nat) (r : Resource) (request : webhook) (c c1 : Cluster)
  (hooks : list webhook) (e : error) :
  passesValidation r request = true ->
  getHooksForRepo r (GitRepositoryURL (sanitize r request)) c
  = Returns ((hooks, Some e), c1) ->
  createWebhook fuel r request c
  = createWebhookWith fuel r [] (sanitize r request) c1
  /\ conflictWith hooks (sanitize r request) = None
  /\ forall c',
       createWebhook fuel r request c = Returns ([WriteHeader 201], c') ->
       exists server owner repo,
         getGitValues (GitRepositoryURL (sanitize r request))
         = Returns (server, owner, repo, None)
         /\ providerCalls c'
            = (providerCalls c ++ [AddWebhookCall (sanitize r request) owner repo])%list.
Proof.
  intros Hvalid Hlookup.
  pose proof (getHooksForRepo_failed _ _ _ _ _ _ Hlookup) as ->.
  assert (Hrun : createWebhook fuel r request c
                 = createWebhookWith fuel r [] (sanitize r request) c1).
  { rewrite createWebhook_valid by exact Hvalid.
    unfold bind. rewrite Hlookup. reflexivity. }
  split; [exact Hrun|]. split; [reflexivity|].
  intros c' H. rewrite Hrun in H.
  apply createWebhookWith_created in H
    as (server & owner & repo & mbn & hb & Hgit & _ & _ & Hpc & _).
  exists server, owner, repo. split; [exact Hgit|].
  rewrite Hpc.
  now rewrite (getHooksForRepo_preserves providerCalls _ _ (fun _ _ => eq_refl) _ _ _ Hlookup).
Qed.

(** A cluster that holds the registration [helloWorld] and whose next
    client call fails. *)
Definition unreachableStore : Cluster :=
  setFaults [Some (mkError "connection refused" false)] afterFirstRegistration.

Lemma createWebhook_ignores_lookup_error_witness :
  createWebhook 5 demoResource helloWorld unreachableStore
  = createWebhookWith 5 demoResource [] (sanitize demoResource helloWorld)
                      (setFaults [] afterFirstRegistration)
  /\ fst (fst (match getHooksForRepo demoResource "https://github.com/ncskier/go-hello-world"
                                      afterFirstRegistration with
               | Returns x => x
               | _ => (([], None), emptyCluster)
               end))
     = [sanitize demoResource (withPullTask "monitor-task"
                                 (withDockerRegistry "mydockerregistry"
                                    (mkWebhook "go-hello-world" "green"
                                       "https://github.com/ncskier/go-hello-world"
                                       "github-secret" "simple-pipeline" "" "" "go-hello-world"
                                       "" "" "" "" "" "")))].
Proof.
  assert (Hvalid : passesValidation demoResource helloWorld = true)
    by (vm_compute; reflexivity).
  assert (Hlookup :
    getHooksForRepo demoResource
                    (GitRepositoryURL (sanitize demoResource helloWorld)) unreachableStore
    = Returns (([], Some (mkError "connection refused" false)),
               setFaults [] afterFirstRegistration))
    by (vm_compute; reflexivity).
  split.
  - exact (proj1 (createWebhook_ignores_lookup_error
                    5 demoResource helloWorld unreachableStore
                    (setFaults [] afterFirstRegistration) []
                    (mkError "connection refused" false) Hvalid Hlookup)).
  - vm_compute. reflexivity.
Defined.


(** ** 4.3 and 4.4: one monitor trigger per repository *)

(** A trigger the listing reads as a push or pull-request trigger
    ([getWebhooksFromEventListener] tells them by the suffix of the name);
    every other trigger is a monitor. *)
Definition isHookTrigger (t : EventListenerTrigger) : bool :=
  (strings.HasSuffix (tName t) "-push-event"
   || strings.HasSuffix (tName t) "-pullrequest-event")%bool.

(** The deduplicator's test: the first interceptor of the trigger names
    the repository of [repoURL], compared through the normaliser. *)
Definition onRepository (repoURL : string) (t : EventListenerTrigger) : bool :=
  match firstHeader t with
  | Returns headers =>
      match scanHeaders headers repoURL with
      | Returns ScanMatch => true
      | _ => false
      end
  | _ => false
  end.

Definition monitorsFor (repoURL : string) (triggers : list EventListenerTrigger)
  : list EventListenerTrigger :=
  filter (fun t => (negb (isHookTrigger t) && onRepository repoURL t)%bool) triggers.

(** Every repository URL the first interceptor carries can be parsed. *)
Definition headersParse (t : EventListenerTrigger) : Prop :=
  exists headers,
    firstHeader t = Returns headers
    /\ Forall (fun h => hName h = "Wext-Repository-Url" ->
                        exists server owner repo,
                          getGitValues (StringVal (hValue h))
                          = Returns (server, owner, repo, None)) headers.

(** The requests handled one after the other, under the handler's lock. *)
Fixpoint registerAll (fuel : nat) (r : Resource) (requests : list webhook)
  : M (list Response) :=
  match requests with
  | [] => ret []
  | request :: rest =>
      response <- createWebhook fuel r request ;;
      responses <- registerAll fuel r rest ;;
      ret (response :: responses)
  end.

Lemma compareGitRepoNames_same (url1 url2 server owner repo : string) :
  getGitValues url1 = Returns (server, owner, repo, None) ->
  getGitValues url2 = Returns (server, owner, repo, None) ->
  compareGitRepoNames url1 url2 = Returns (true, None).
Proof.
  intros H1 H2. unfold compareGitRepoNames. rewrite H1, H2. cbn [obind].
  now rewrite !String.eqb_refl.
Qed.

Lemma compareGitRepoNames_parsed (url1 url2 : string)
  (s1 o1 p1 s2 o2 p2 : string) :
  getGitValues url1 = Returns (s1, o1, p1, None) ->
  getGitValues url2 = Returns (s2, o2, p2, None) ->
  exists b, compareGitRepoNames url1 url2 = Returns (b, None).
Proof.
  intros H1 H2. unfold compareGitRepoNames. rewrite H1, H2. cbn [obind].
  destruct (_ && _)%bool; eauto.
Qed.

Lemma scanHeaders_parsed (headers : list HeaderParam) (repoURL s o p : string) :
  Forall (fun h => hName h = "Wext-Repository-Url" ->
                   exists server owner repo,
                     getGitValues (StringVal (hValue h))
                     = Returns (server, owner, repo, None)) headers ->
  getGitValues repoURL = Returns (s, o, p, None) ->
  scanHeaders headers repoURL = Returns ScanMatch
  \/ scanHeaders headers repoURL = Returns ScanNoMatch.
Proof.
  intros Hall Hurl. induction Hall as [|h rest Hh _ IH]; cbn [scanHeaders]; [now right|].
  destruct (String.eqb (hName h) "Wext-Repository-Url") eqn:E; [|exact IH].
  apply String.eqb_eq in E. destruct (Hh E) as (s' & o' & p' & Hp).
  destruct (compareGitRepoNames_parsed _ _ _ _ _ _ _ _ Hp Hurl) as (b & ->).
  cbn [obind]. destruct b; [now left | exact IH].
Qed.

Lemma scanHeaders_same_repo (headers : list HeaderParam) (url1 url2 : string) :
  getGitValues url1 = getGitValues url2 ->
  scanHeaders headers url1 = scanHeaders headers url2.
Proof.
  intros E. induction headers as [|h rest IH]; cbn [scanHeaders]; [reflexivity|].
  destruct (String.eqb (hName h) "Wext-Repository-Url"); [|exact IH].
  unfold compareGitRepoNames. rewrite E, IH. reflexivity.
Qed.

Lemma onRepository_same_repo (url1 url2 : string) (t : EventListenerTrigger) :
  getGitValues url1 = getGitValues url2 ->
  onRepository url1 t = onRepository url2 t.
Proof.
  intros E. unfold onRepository. destruct (firstHeader t); try reflexivity.
  now rewrite (scanHeaders_same_repo _ _ _ E).
Qed.

(** No trigger on the repository: the deduplicator finds no monitor. *)
Lemma doesMonitorExist_none (prefix : string) (w : webhook)
  (triggers : list EventListenerTrigger) (s o p : string) :
  getGitValues (GitRepositoryURL w) = Returns (s, o, p, None) ->
  Forall headersParse triggers ->
  Forall (fun t => onRepository (GitRepositoryURL w) t = false) triggers ->
  doesMonitorExist prefix w triggers = Returns (false, "").
Proof.
  intros Hurl Hparse Hnone.
  induction triggers as [|t rest IH]; cbn [doesMonitorExist]; [reflexivity|].
  inversion Hparse as [|? ? (headers & Hf & Hh) Hparse']; subst.
  inversion Hnone as [|? ? Hon Hnone']; subst.
  destruct (strings.HasPrefix (tName t) prefix); [|now apply IH].
  unfold onRepository in Hon. rewrite Hf in *. cbn [obind].
  destruct (scanHeaders_parsed _ _ _ _ _ Hh Hurl) as [E | E]; rewrite E in *;
    [discriminate|].
  cbn [obind]. now apply IH.
Qed.

(** A trigger on the repository whose name has the prefix: the
    deduplicator finds a monitor. *)
Lemma doesMonitorExist_some (prefix : string) (w : webhook)
  (triggers : list EventListenerTrigger) (s o p : string) :
  getGitValues (GitRepositoryURL w) = Returns (s, o, p, None) ->
  Forall headersParse triggers ->
  Exists (fun t => strings.HasPrefix (tName t) prefix = true
                   /\ onRepository (GitRepositoryURL w) t = true) triggers ->
  exists name, doesMonitorExist prefix w triggers = Returns (true, name).
Proof.
  intros Hurl Hparse Hex.
  induction triggers as [|t rest IH]; [inversion Hex|].
  inversion Hparse as [|? ? (headers & Hf & Hh) Hparse']; subst.
  cbn [doesMonitorExist].
  destruct (strings.HasPrefix (tName t) prefix) eqn:Hp.
  - rewrite Hf. cbn [obind].
    destruct (scanHeaders_parsed _ _ _ _ _ Hh Hurl) as [E | E]; rewrite E; cbn [obind].
    + now eexists.
    + apply IH; [assumption|].
      inversion Hex as [? ? [_ Hon] | ? ? Hex']; subst; [|assumption].
      unfold onRepository in Hon. rewrite Hf, E in Hon. discriminate.
  - apply IH; [assumption|].
    inversion Hex as [? ? [Hp' _] | ? ? Hex']; subst; [congruence | assumption].
Qed.


Lemma digits_lastByte (fuel n : nat) (acc : string) :
  acc <> "" -> lastByte (strconv.digits fuel n acc) = lastByte acc.
Proof.
  revert n acc. induction fuel as [|fuel IH]; intros n acc Hacc; cbn [strconv.digits];
    [reflexivity|].
  destruct (Nat.ltb n 10).
  - destruct acc; [contradiction | reflexivity].
  - rewrite IH by discriminate. destruct acc; [contradiction | reflexivity].
Qed.

Lemma Itoa_lastByte (n : Z) :
  lastByte (strconv.Itoa n) = Some (strconv.digit (Z.to_nat n)).
Proof.
  unfold strconv.Itoa. cbn [strconv.digits].
  destruct (Nat.ltb (Z.to_nat n) 10); [reflexivity|].
  now rewrite digits_lastByte by discriminate.
Qed.

Lemma digit_not_t (n : nat) : strconv.digit n <> "t"%char.
Proof.
  unfold strconv.digit. intros E.
  assert (B : (Nat.modulo n 10 < 10)%nat) by (apply Nat.mod_upper_bound; lia).
  apply (f_equal nat_of_ascii) in E.
  rewrite nat_ascii_embedding in E by lia.
  change (nat_of_ascii "t") with 116%nat in E. lia.
Qed.

Lemma Some_eq {A} (a b : A) : Some a = Some b -> a = b.
Proof. intros H. injection H. trivial. Qed.

(** A generated monitor name ends in a digit: the listing never reads a
    monitor trigger as a hook trigger. *)
Lemma monitor_name_is_no_hook (prefix : string) (n : Z) (t : EventListenerTrigger) :
  tName t = prefix ++ strconv.Itoa n -> isHookTrigger t = false.
Proof.
  intros E. unfold isHookTrigger. rewrite E.
  assert (Hlast : lastByte (prefix ++ strconv.Itoa n)
                  = Some (strconv.digit (Z.to_nat n))).
  { rewrite lastByte_app; [apply Itoa_lastByte|].
    intros C. pose proof (Itoa_lastByte n) as L. rewrite C in L. discriminate. }
  apply orb_false_iff. split.
  - destruct (strings.HasSuffix _ "-push-event") eqn:S; [|reflexivity].
    apply HasSuffix_lastByte in S; [|discriminate].
    rewrite Hlast in S. apply Some_eq in S. now apply digit_not_t in S.
  - destruct (strings.HasSuffix _ "-pullrequest-event") eqn:S; [|reflexivity].
    apply HasSuffix_lastByte in S; [|discriminate].
    rewrite Hlast in S. apply Some_eq in S. now apply digit_not_t in S.
Qed.

Lemma pushTrigger_is_hook (r : Resource) (w : webhook) (hb : string) :
  isHookTrigger (pushTriggerOf r w hb) = true.
Proof.
  unfold isHookTrigger. cbn [pushTriggerOf newTrigger tName].
  replace (Name w ++ "-" ++ Namespace w ++ "-push-event")
    with ((Name w ++ "-" ++ Namespace w) ++ "-push-event")
    by (now rewrite !app_assoc_s).
  now rewrite HasSuffix_app.
Qed.

Lemma pullRequestTrigger_is_hook (r : Resource) (w : webhook) (hb : string) :
  isHookTrigger (built (pullRequestTriggerOf r w hb)) = true.
Proof.
  unfold isHookTrigger.
  cbn [pullRequestTriggerOf newTrigger appendHeader built tName Interceptors Webhook].
  replace (Name w ++ "-" ++ Namespace w ++ "-pullrequest-event")
    with ((Name w ++ "-" ++ Namespace w) ++ "-pullrequest-event")
    by (now rewrite !app_assoc_s).
  rewrite HasSuffix_app. apply orb_true_r.
Qed.

Lemma scanHeaders_fixed (name url event secretName repoURL : string)
  (extra : list HeaderParam) :
  compareGitRepoNames url repoURL = Returns (true, None) ->
  scanHeaders (fixedHeaders name url event secretName ++ extra) repoURL
  = Returns ScanMatch.
Proof.
  intros H. unfold fixedHeaders. cbn [app scanHeaders hName hValue StringVal].
  change (String.eqb "Wext-Trigger-Name" "Wext-Repository-Url") with false.
  change (String.eqb "Wext-Repository-Url" "Wext-Repository-Url") with true.
  cbv iota. rewrite H. reflexivity.
Qed.

Lemma fixedHeaders_parse (name url event secretName : string) (extra : list HeaderParam)
  (s o p : string) :
  getGitValues url = Returns (s, o, p, None) ->
  Forall (fun h => hName h <> "Wext-Repository-Url") extra ->
  Forall (fun h => hName h = "Wext-Repository-Url" ->
                   exists server owner repo,
                     getGitValues (StringVal (hValue h))
                     = Returns (server, owner, repo, None))
         (fixedHeaders name url event secretName ++ extra).
Proof.
  intros Hurl Hextra. unfold fixedHeaders. cbn [app].
  repeat constructor; cbn [hName hValue StringVal]; try discriminate.
  - intros _. now exists s, o, p.
  - eapply Forall_impl; [|exact Hextra]. intros h Hn E. contradiction.
Qed.

(** The three triggers of a registration, seen by the deduplicator. *)
Lemma built_triggers (r : Resource) (w : webhook) (hb name mbn mb : string) :
  firstHeader (pushTriggerOf r w hb)
  = Returns (fixedHeaders (tName (pushTriggerOf r w hb)) (GitRepositoryURL w)
                          pushEvents (AccessTokenRef w) ++ [])%list
  /\ firstHeader (built (pullRequestTriggerOf r w hb))
     = Returns (fixedHeaders (tName (built (pullRequestTriggerOf r w hb)))
                             (GitRepositoryURL w) pullRequestEvents (AccessTokenRef w)
                ++ [actions])%list
  /\ firstHeader (built (monitorTriggerOf r w name mbn mb))
     = Returns (fixedHeaders name (GitRepositoryURL w) pullRequestEvents
                             (AccessTokenRef w) ++ [actions])%list
  /\ tName (built (monitorTriggerOf r w name mbn mb)) = name.
Proof. repeat split. Qed.

Lemma built_triggers_parse (r : Resource) (w : webhook) (hb name mbn mb s o p : string) :
  getGitValues (GitRepositoryURL w) = Returns (s, o, p, None) ->
  headersParse (pushTriggerOf r w hb)
  /\ headersParse (built (pullRequestTriggerOf r w hb))
  /\ headersParse (built (monitorTriggerOf r w name mbn mb)).
Proof.
  intros Hurl.
  destruct (built_triggers r w hb name mbn mb) as (E1 & E2 & E3 & _).
  repeat split; eexists; (split; [eassumption|]);
    (eapply fixedHeaders_parse; [exact Hurl|]); repeat constructor; discriminate.
Qed.

Lemma built_triggers_onRepository (r : Resource) (w : webhook)
  (hb name mbn mb repoURL s o p : string) :
  getGitValues (GitRepositoryURL w) = Returns (s, o, p, None) ->
  getGitValues repoURL = Returns (s, o, p, None) ->
  onRepository repoURL (pushTriggerOf r w hb) = true
  /\ onRepository repoURL (built (pullRequestTriggerOf r w hb)) = true
  /\ onRepository repoURL (built (monitorTriggerOf r w name mbn mb)) = true.
Proof.
  intros Hw Hu.
  pose proof (compareGitRepoNames_same _ _ _ _ _ Hw Hu) as Hc.
  destruct (built_triggers r w hb name mbn mb) as (E1 & E2 & E3 & _).
  unfold onRepository. rewrite E1, E2, E3.
  now rewrite !(scanHeaders_fixed _ _ _ _ _ _ Hc).
Qed.


Lemma registerAll_cons (fuel : nat) (r : Resource) (request : webhook)
  (rest : list webhook) (c c' : Cluster) (response : Response) (responses : list Response) :
  registerAll fuel r (request :: rest) c = Returns (response :: responses, c') ->
  exists c1, createWebhook fuel r request c = Returns (response, c1)
             /\ registerAll fuel r rest c1 = Returns (responses, c').
Proof.
  cbn [registerAll]. intros H. minv H.
  match goal with G : _ :: _ = _ :: _ |- _ => injection G as -> -> end.
  eauto.
Qed.

(** A later registration for a repository whose monitor is in the
    collection appends its push and pull-request triggers and nothing
    else. *)
Lemma createWebhook_reuses_monitor (fuel : nat) (r : Resource) (request : webhook)
  (c c' : Cluster) (server owner repo : string) :
  getGitValues (GitRepositoryURL (sanitize r request)) = Returns (server, owner, repo, None) ->
  Forall headersParse (storedTriggers c) ->
  Exists (fun t => strings.HasPrefix (tName t) (owner ++ "." ++ repo ++ "-") = true
                   /\ onRepository (GitRepositoryURL (sanitize r request)) t = true)
         (storedTriggers c) ->
  createWebhook fuel r request c = Returns ([WriteHeader 201], c') ->
  exists hb,
    storedTriggers c'
    = (storedTriggers c
       ++ [ pushTriggerOf r (sanitize r request) hb;
            built (pullRequestTriggerOf r (sanitize r request) hb) ])%list.
Proof.
  intros Hurl Hparse Hex H.
  apply createWebhook_created in H as (hooks & H).
  destruct H as (server' & owner' & repo' & mbn & hookBinding & Hgit & _ & _ & _ & H).
  rewrite Hurl in Hgit. injection Hgit as <- <- <-.
  cbv zeta in H. unfold storedTriggers in *.
  destruct (eventListener c) as [el|]; [|inversion Hex].
  destruct H as (found & mname & Hdoes & H).
  destruct (doesMonitorExist_some _ _ _ _ _ _ Hurl Hparse Hex) as (name & Hfound).
  rewrite Hfound in Hdoes. injection Hdoes as <- <-.
  destruct H as [-> _]. now eexists.
Qed.

(** The first registration for a repository none of whose triggers is in
    the collection appends its push and pull-request triggers and one
    monitor trigger. *)
Lemma createWebhook_adds_monitor (fuel : nat) (r : Resource) (request : webhook)
  (c c' : Cluster) (server owner repo : string) :
  getGitValues (GitRepositoryURL (sanitize r request)) = Returns (server, owner, repo, None) ->
  Forall headersParse (storedTriggers c) ->
  Forall (fun t => onRepository (GitRepositoryURL (sanitize r request)) t = false)
         (storedTriggers c) ->
  createWebhook fuel r request c = Returns ([WriteHeader 201], c') ->
  exists hb suffix mbn mb,
    0 <= suffix < 10000
    /\ storedTriggers c'
       = (storedTriggers c
          ++ [ pushTriggerOf r (sanitize r request) hb;
               built (pullRequestTriggerOf r (sanitize r request) hb);
               built (monitorTriggerOf r (sanitize r request)
                        ((owner ++ "." ++ repo ++ "-") ++ strconv.Itoa suffix)
                        mbn mb) ])%list.
Proof.
  intros Hurl Hparse Hnone H.
  apply createWebhook_created in H as (hooks & H).
  destruct H as (server' & owner' & repo' & mbn & hookBinding & Hgit & _ & _ & _ & H).
  rewrite Hurl in Hgit. injection Hgit as <- <- <-.
  cbv zeta in H. unfold storedTriggers in *.
  destruct (eventListener c) as [el|].
  - destruct H as (found & mname & Hdoes & H).
    rewrite (doesMonitorExist_none _ _ _ _ _ _ Hurl Hparse Hnone) in Hdoes.
    injection Hdoes as <- <-.
    destruct H as (name & mb & (n & -> & Hn) & _ & _ & -> & _).
    exists (tbName hookBinding), n, mbn, (tbName mb). split; [exact Hn|]. reflexivity.
  - destruct H as (name & mb & (n & -> & Hn) & _ & _ & -> & _).
    exists (tbName hookBinding), n, mbn, (tbName mb). split; [exact Hn|]. reflexivity.
Qed.

Lemma register_rest (fuel : nat) (r : Resource) (server owner repo repoURL : string) :
  getGitValues repoURL = Returns (server, owner, repo, None) ->
  forall (rest : list webhook) (c c' : Cluster),
    Forall (fun q => getGitValues (GitRepositoryURL (sanitize r q))
                     = Returns (server, owner, repo, None)) rest ->
    Forall headersParse (storedTriggers c) ->
    Exists (fun t => strings.HasPrefix (tName t) (owner ++ "." ++ repo ++ "-") = true
                     /\ onRepository repoURL t = true) (storedTriggers c) ->
    registerAll fuel r rest c
    = Returns (repeat [WriteHeader 201] (List.length rest), c') ->
    exists later,
      storedTriggers c' = (storedTriggers c ++ later)%list
      /\ Forall (fun t => isHookTrigger t = true) later
      /\ List.length later = (2 * List.length rest)%nat.
Proof.
  intros Hu. induction rest as [|q rest IH]; intros c c' Hsame Hparse Hex H.
  - cbn in H. apply ret_returns in H as [_ ->].
    exists []. rewrite app_nil_r. repeat split. constructor.
  - cbn [List.length repeat] in H.
    apply registerAll_cons in H as (c1 & Hq & Hrest).
    inversion Hsame as [|? ? Hq_repo Hsame']; subst.
    assert (Hex' : Exists (fun t =>
              strings.HasPrefix (tName t) (owner ++ "." ++ repo ++ "-") = true
              /\ onRepository (GitRepositoryURL (sanitize r q)) t = true)
              (storedTriggers c)).
    { eapply Exists_impl; [|exact Hex]. intros t [Hp Hon]. split; [exact Hp|].
      rewrite <- Hon. apply onRepository_same_repo. congruence. }
    destruct (createWebhook_reuses_monitor _ _ _ _ _ _ _ _ Hq_repo Hparse Hex' Hq)
      as (hb & Hts).
    destruct (built_triggers_parse r (sanitize r q) hb "" "" "" _ _ _ Hq_repo)
      as (Pp & Ppr & _).
    destruct (IH c1 c' Hsame') as (later & Hlater & Hhooks & Hlen); [| |exact Hrest|].
    + rewrite Hts. apply Forall_app. split; [exact Hparse|]. now repeat constructor.
    + rewrite Hts. apply Exists_app. now left.
    + eexists (_ :: _ :: later). rewrite Hlater, Hts, <- app_assoc. cbn [app].
      split; [reflexivity|]. split.
      * constructor; [apply pushTrigger_is_hook|].
        constructor; [apply pullRequestTrigger_is_hook | exact Hhooks].
      * cbn [List.length]. lia.
Qed.

(** C1: requests for one repository (the same normalised server, owner
    and repository), registered one after the other with success on a
    collection that holds no trigger of that repository, leave exactly one
    monitor trigger for it.  The first registration appends its push and
    pull-request triggers and the monitor, named [{owner}.{repo}-] and a
    generated suffix; every later one finds that monitor and appends its
    push and pull-request triggers only. *)
Theorem one_monitor_per_repository
  (fuel : nat) (r : Resource) (first : webhook) (rest : list webhook)
  (c c' : Cluster) (server owner repo : string) :
  Forall (fun q => getGitValues (GitRepositoryURL (sanitize r q))
                   = Returns (server, owner, repo, None)) (first :: rest) ->
  Forall headersParse (storedTriggers c) ->
  Forall (fun t => onRepository (GitRepositoryURL (sanitize r first)) t = false)
         (storedTriggers c) ->
  registerAll fuel r (first :: rest) c
  = Returns (repeat [WriteHeader 201] (S (List.length rest)), c') ->
  exists pushTrigger pullRequestTrigger monitor later,
    storedTriggers c'
    = (storedTriggers c ++ [pushTrigger; pullRequestTrigger; monitor] ++ later)%list
    /\ isHookTrigger pushTrigger = true
    /\ isHookTrigger pullRequestTrigger = true
    /\ isHookTrigger monitor = false
    /\ strings.HasPrefix (tName monitor) (owner ++ "." ++ repo ++ "-") = true
    /\ Forall (fun t => isHookTrigger t = true) later
    /\ List.length later = (2 * List.length rest)%nat
    /\ forall q, In q (first :: rest) ->
         monitorsFor (GitRepositoryURL (sanitize r q)) (storedTriggers c') = [monitor].
Proof.
  intros Hsame Hparse Hnone H.
  cbn [repeat] in H. apply registerAll_cons in H as (c1 & Hfirst & Hrest).
  inversion Hsame as [|? ? Hfirst_repo Hsame']; subst.
  destruct (createWebhook_adds_monitor _ _ _ _ _ _ _ _ Hfirst_repo Hparse Hnone Hfirst)
    as (hb & n & mbn & mb & Hn & Hts).
  set (w := sanitize r first) in *.
  set (name := (owner ++ "." ++ repo ++ "-") ++ strconv.Itoa n) in *.
  destruct (built_triggers_parse r w hb name mbn mb _ _ _ Hfirst_repo) as (Pp & Ppr & Pm).
  destruct (built_triggers_onRepository r w hb name mbn mb _ _ _ _ Hfirst_repo Hfirst_repo)
    as (Op & Opr & Om).
  destruct (register_rest fuel r _ _ _ _ Hfirst_repo rest c1 c' Hsame')
    as (later & Hlater & Hhooks & Hlen); [| |exact Hrest|].
  { rewrite Hts. apply Forall_app. split; [exact Hparse|]. now repeat constructor. }
  { rewrite Hts. apply Exists_app. right. do 2 apply Exists_cons_tl. apply Exists_cons_hd.
    split; [|exact Om]. apply HasPrefix_app. }
  assert (Hmon : isHookTrigger (built (monitorTriggerOf r w name mbn mb)) = false)
    by (eapply monitor_name_is_no_hook; reflexivity).
  do 3 eexists. exists later.
  split; [rewrite Hlater, Hts, <- app_assoc; reflexivity|].
  split; [apply pushTrigger_is_hook|].
  split; [apply pullRequestTrigger_is_hook|].
  split; [exact Hmon|].
  split; [apply HasPrefix_app|].
  split; [exact Hhooks|]. split; [exact Hlen|].
  intros q Hq.
  assert (Hq_repo : getGitValues (GitRepositoryURL (sanitize r q))
                    = Returns (server, owner, repo, None))
    by (rewrite Forall_forall in Hsame; now apply Hsame).
  assert (Efam : getGitValues (GitRepositoryURL (sanitize r q))
                 = getGitValues (GitRepositoryURL w)) by congruence.
  rewrite Hlater, Hts. unfold monitorsFor. rewrite !filter_app.
  assert (E0 : filter (fun t => (negb (isHookTrigger t)
                                 && onRepository (GitRepositoryURL (sanitize r q)) t)%bool)
                      (storedTriggers c) = []).
  { clear - Hnone Efam. induction (storedTriggers c) as [|t ts IH]; [reflexivity|].
    inversion Hnone as [|? ? Ht Hts]; subst. cbn [filter].
    rewrite (onRepository_same_repo _ _ _ Efam), Ht, andb_false_r. now apply IH. }
  assert (E2 : filter (fun t => (negb (isHookTrigger t)
                                 && onRepository (GitRepositoryURL (sanitize r q)) t)%bool)
                      later = []).
  { clear - Hhooks. induction Hhooks as [|t ts Ht _ IH]; [reflexivity|].
    cbn [filter]. rewrite Ht. cbn [negb andb]. exact IH. }
  rewrite E0, E2, app_nil_r. cbn [app filter].
  rewrite pushTrigger_is_hook, pullRequestTrigger_is_hook, Hmon. cbn [negb andb].
  rewrite (onRepository_same_repo _ _ _ Efam), Om. reflexivity.
Qed.

(** A second registration for the repository of [helloWorld], its URL
    spelt in another case. *)
Definition secondHook : webhook :=
  withNamespace "blue"
    (withName "second"
       (withGitRepositoryURL "https://github.com/NCSKIER/go-hello-world" helloWorld)).

Definition afterTwoRegistrations : Cluster :=
  match registerAll 5 demoResource [helloWorld; secondHook] emptyCluster with
  | Returns (_, c') => c'
  | _ => emptyCluster
  end.

Lemma one_monitor_per_repository_witness :
  exists monitor,
    monitorsFor (GitRepositoryURL (sanitize demoResource secondHook))
                (storedTriggers afterTwoRegistrations) = [monitor]
    /\ isHookTrigger monitor = false.
Proof.
  assert (Hsame :
    Forall (fun q => getGitValues (GitRepositoryURL (sanitize demoResource q))
                     = Returns ("https://github.com", "ncskier", "go-hello-world", None))
           [helloWorld; secondHook])
    by (repeat constructor; vm_compute; reflexivity).
  assert (Hparse : Forall headersParse (storedTriggers emptyCluster)) by constructor.
  assert (Hnone :
    Forall (fun t => onRepository (GitRepositoryURL (sanitize demoResource helloWorld)) t
                     = false) (storedTriggers emptyCluster)) by constructor.
  assert (Hrun :
    registerAll 5 demoResource [helloWorld; secondHook] emptyCluster
    = Returns (repeat [WriteHeader 201] (S (List.length [secondHook])),
               afterTwoRegistrations))
    by (vm_compute; reflexivity).
  destruct (one_monitor_per_repository 5 demoResource helloWorld [secondHook]
              emptyCluster afterTwoRegistrations _ _ _ Hsame Hparse Hnone Hrun)
    as (pushTrigger & pullRequestTrigger & monitor & later
        & _ & _ & _ & Hmon & _ & _ & _ & Hall).
  exists monitor. split; [|exact Hmon].
  apply Hall. right. left. reflexivity.
Defined.

(** ** Deregistration on collections the program built itself *)

(** The cluster a computation leaves, and what it answers. *)
Definition stateAfter {A} (m : M A) (c : Cluster) : Cluster :=
  match m c with
  | Returns (_, c') => c'
  | _ => c
  end.

Definition answerOf {A} (m : M A) (c : Cluster) : option A :=
  match m c with
  | Returns (a, _) => Some a
  | _ => None
  end.

Definition helloWorldURL : string := "https://github.com/ncskier/go-hello-world".

(** C2 on the code: the collection holds the one registration
    [helloWorld], built by [createWebhook].  Deleting it drops the monitor
    trigger (two triggers on the repository, two deleted), but the name
    marked for deletion is the empty string: the monitor trigger refers to
    its binding through [Ref], and the loop reads [Name].  The monitor
    binding and the hook binding stay in the store, and the handler
    answers 500 after it has deleted the collection. *)
Lemma deregistration_marks_no_monitor_binding :
  option_map (fun t => map Ref (Bindings t))
             (nth_error (storedTriggers afterFirstRegistration) 2)
  = Some ["monitor-task-github-binding"; "wext-monitor-task-github-binding-1"]
  /\ match reconcileDelete "go-hello-world-green" "ncskier.go-hello-world-"
                           "monitor-task-github-binding"
                           (sanitize demoResource helloWorld)
                           (storedTriggers afterFirstRegistration) with
     | Returns st =>
         Some (triggersOnRepo st, triggersDeleted st,
               map tName (newTriggers st), bindingsToRemove st)
     | _ => None
     end = Some (2, 2, [], [""])
  /\ answerOf (deleteWebhook demoResource "go-hello-world" helloWorldURL "green" "")
              afterFirstRegistration
     = Some [WriteError 500 "error deleting webhook from eventlistener"]
  /\ triggerNames (stateAfter (deleteWebhook demoResource "go-hello-world"
                                             helloWorldURL "green" "")
                              afterFirstRegistration) = None
  /\ map tbName (triggerBindings
                   (stateAfter (deleteWebhook demoResource "go-hello-world"
                                              helloWorldURL "green" "")
                               afterFirstRegistration))
     = [ "simple-pipeline-push-binding"; "simple-pipeline-pullrequest-binding";
         "monitor-task-github-binding"; "wext-go-hello-world-0";
         "wext-monitor-task-github-binding-1" ].
Proof. repeat split; vm_compute; reflexivity. Qed.

(** A registration whose name starts with [{owner}.{repo}-]. *)
Definition aliasedHook : webhook := withName "ncskier.go-hello-world-ci" helloWorld.

(** C3 on the code: the push trigger of [aliasedHook] has the monitor's
    name prefix and names the repository, so the deduplicator takes it for
    the monitor.  Deleting the registration, the only one of the
    collection, is answered 204 and removes the pull-request trigger only:
    the push trigger [ncskier.go-hello-world-ci-green-push-event] is kept. *)
Lemma deregistration_keeps_aliased_push_trigger :
  triggerNames (stateAfter (createWebhook 5 demoResource aliasedHook) emptyCluster)
  = Some [ "ncskier.go-hello-world-ci-green-push-event";
           "ncskier.go-hello-world-ci-green-pullrequest-event";
           "ncskier.go-hello-world-4242" ]
  /\ doesMonitorExist "ncskier.go-hello-world-" (sanitize demoResource aliasedHook)
       (storedTriggers (stateAfter (createWebhook 5 demoResource aliasedHook) emptyCluster))
     = Returns (true, "ncskier.go-hello-world-ci-green-push-event")
  /\ answerOf (deleteWebhook demoResource "ncskier.go-hello-world-ci" helloWorldURL
                             "green" "")
              (stateAfter (createWebhook 5 demoResource aliasedHook) emptyCluster)
     = Some [WriteHeader 204]
  /\ triggerNames
       (stateAfter (deleteWebhook demoResource "ncskier.go-hello-world-ci" helloWorldURL
                                  "green" "")
                   (stateAfter (createWebhook 5 demoResource aliasedHook) emptyCluster))
     = Some [ "ncskier.go-hello-world-4242";
              "ncskier.go-hello-world-ci-green-push-event" ].
Proof. repeat split; vm_compute; reflexivity. Qed.

(** A third registration for the repository, its URL spelt as in
    [helloWorld]. *)
Definition sameSpellingHook : webhook := withNamespace "blue" (withName "second" helloWorld).

Definition labelledRun : PipelineRun :=
  mkPipelineRun "run-1" "green" "simple-pipeline"
                [ ("webhooks.tekton.dev/gitServer", "github.com");
                  ("webhooks.tekton.dev/gitOrg", "ncskier");
                  ("webhooks.tekton.dev/gitRepo", "go-hello-world") ].

(** C5 on the code: two spellings of one repository, equal for the
    normaliser.  The look-up of hooks and the counting of the triggers of
    a repository compare the strings: the second registration is taken
    for the first of its repository (the provider is called again), and
    deleting the first registration drops the monitor that the second one
    still uses, while with equal spellings the monitor is kept.  The purge
    of pipeline runs compares lower-cased strings: a trailing slash, which
    the normaliser drops, makes it match nothing. *)
Lemma identity_checks_diverge :
  compareGitRepoNames helloWorldURL "https://github.com/NCSKIER/go-hello-world"
  = Returns (true, None)
  /\ option_map (fun x => List.length (fst x))
       (answerOf (getHooksForRepo demoResource helloWorldURL) afterFirstRegistration)
     = Some 1%nat
  /\ option_map (fun x => List.length (fst x))
       (answerOf (getHooksForRepo demoResource "https://github.com/NCSKIER/go-hello-world")
                 afterFirstRegistration)
     = Some 0%nat
  /\ List.length (providerCalls afterTwoRegistrations) = 2%nat
  /\ triggerNames afterTwoRegistrations
     = Some [ "go-hello-world-green-push-event"; "go-hello-world-green-pullrequest-event";
              "ncskier.go-hello-world-4242";
              "second-blue-push-event"; "second-blue-pullrequest-event" ]
  /\ triggerNames (stateAfter (deleteWebhook demoResource "go-hello-world" helloWorldURL
                                             "green" "")
                              afterTwoRegistrations)
     = Some ["second-blue-push-event"; "second-blue-pullrequest-event"]
  /\ triggerNames
       (stateAfter (deleteWebhook demoResource "go-hello-world" helloWorldURL "green" "")
          (stateAfter (registerAll 5 demoResource [helloWorld; sameSpellingHook])
                      emptyCluster))
     = Some [ "second-blue-push-event"; "second-blue-pullrequest-event";
              "ncskier.go-hello-world-4242" ]
  /\ compareGitRepoNames helloWorldURL "https://github.com/ncskier/go-hello-world/"
     = Returns (true, None)
  /\ pipelineRuns (stateAfter (deletePipelineRuns helloWorldURL "green" "simple-pipeline")
                              (setPipelineRuns [labelledRun] emptyCluster))
     = []
  /\ pipelineRuns
       (stateAfter (deletePipelineRuns "https://github.com/ncskier/go-hello-world/"
                                       "green" "simple-pipeline")
                   (setPipelineRuns [labelledRun] emptyCluster))
     = [labelledRun].
Proof. repeat split; vm_compute; reflexivity. Qed.


(** * Further properties of the code *)

(** ** The normaliser: outcomes, symmetry, letter case *)

(** [getGitValues] ends in one of three ways. *)
Lemma getGitValues_cases (url : string) :
  getGitValues url = Returns ("", "", "", Some malformedURL)
  \/ (exists server owner repo, getGitValues url = Returns (server, owner, repo, None))
  \/ getGitValues url = Panics "slice bounds out of range".
Proof.
  rewrite getGitValues_eq.
  destruct (strings.Count (withoutScheme url) "/" <? 2); [now left|]. right.
  cbv zeta. unfold sliceOrPanic.
  destruct (strings.slice _ 0 _); cbn [obind]; [|now right].
  destruct (strings.slice _ (_ + 1) _); cbn [obind]; [|now right].
  destruct (strings.HasSuffix _ ".git");
    destruct (strings.slice _ (_ + 1) _); cbn [obind]; eauto.
Qed.

(** [compareGitRepoNames] does not depend on the order of its arguments,
    whatever they are: equal answers, equal errors, equal panics. *)
Theorem compareGitRepoNames_symmetric (url1 url2 : string) :
  compareGitRepoNames url1 url2 = compareGitRepoNames url2 url1.
Proof.
  unfold compareGitRepoNames.
  destruct (getGitValues_cases url1) as [E1 | [(s1 & o1 & p1 & E1) | E1]];
    destruct (getGitValues_cases url2) as [E2 | [(s2 & o2 & p2 & E2) | E2]];
    rewrite E1, E2; cbn [obind]; try reflexivity.
  rewrite (String.eqb_sym s1 s2), (String.eqb_sym o1 o2), (String.eqb_sym p1 p2).
  reflexivity.
Qed.

(** A URL names the repository it names, provided it can be parsed; a
    URL that cannot be parsed compares to nothing, itself included. *)
Theorem compareGitRepoNames_reflexive_iff_parsed (url : string) :
  compareGitRepoNames url url = Returns (true, None)
  <-> exists server owner repo, getGitValues url = Returns (server, owner, repo, None).
Proof.
  split.
  - unfold compareGitRepoNames.
    destruct (getGitValues_cases url) as [E | [(s & o & p & E) | E]];
      rewrite E; cbn [obind]; try discriminate. eauto.
  - intros (s & o & p & E). eapply compareGitRepoNames_same; eauto.
Qed.

Lemma lowerByte_idempotent (c : ascii) :
  strings.lowerByte (strings.lowerByte c) = strings.lowerByte c.
Proof.
  destruct c as [b0 b1 b2 b3 b4 b5 b6 b7].
  destruct b0, b1, b2, b3, b4, b5, b6, b7; reflexivity.
Qed.

Lemma ToLower_idempotent (s : string) : strings.ToLower (strings.ToLower s) = strings.ToLower s.
Proof.
  induction s as [|c s IH]; cbn [strings.ToLower]; [reflexivity|].
  now rewrite lowerByte_idempotent, IH.
Qed.

Lemma ToLower_empty_iff (s : string) :
  String.eqb (strings.ToLower s) "" = String.eqb s "".
Proof. now destruct s. Qed.

Lemma getGitValues_ToLower (url : string) :
  getGitValues (strings.ToLower url) = getGitValues url.
Proof.
  unfold getGitValues.
  rewrite ToLower_empty_iff, ToLower_idempotent.
  destruct (String.eqb url "") eqn:E; [|reflexivity].
  apply String.eqb_eq in E. now subst.
Qed.

(** Identity ignores letter case: two URLs with the same lower-case form
    are parsed alike, and compare alike with any third URL. *)
Theorem getGitValues_ignores_case (url1 url2 other : string) :
  strings.ToLower url1 = strings.ToLower url2 ->
  getGitValues url1 = getGitValues url2
  /\ compareGitRepoNames url1 other = compareGitRepoNames url2 other.
Proof.
  intros E.
  assert (H : getGitValues url1 = getGitValues url2)
    by (rewrite <- (getGitValues_ToLower url1), <- (getGitValues_ToLower url2); now rewrite E).
  split; [exact H|]. unfold compareGitRepoNames. now rewrite H.
Qed.

Lemma getGitValues_ignores_case_witness :
  getGitValues "https://GitHub.com/Tektoncd/Pipeline"
  = getGitValues "https://github.com/tektoncd/pipeline".
Proof.
  exact (proj1 (getGitValues_ignores_case
                  "https://GitHub.com/Tektoncd/Pipeline"
                  "https://github.com/tektoncd/pipeline" "" eq_refl)).
Defined.

(** ** The normaliser: what it returns is lower-case *)

Definition isLower (s : string) : Prop := strings.ToLower s = s.

Lemma isLower_take (n : nat) (s : string) : isLower s -> isLower (strings.take n s).
Proof.
  unfold isLower. revert s. induction n as [|n IH]; intros [|c s] H; try reflexivity.
  cbn [strings.take strings.ToLower] in *. injection H as Hc Hs.
  now rewrite Hc, IH.
Qed.

Lemma isLower_drop (n : nat) (s : string) : isLower s -> isLower (strings.drop n s).
Proof.
  unfold isLower. revert s. induction n as [|n IH]; intros [|c s] H; try assumption.
  cbn [strings.drop strings.ToLower] in *. injection H as Hc Hs. now apply IH.
Qed.

Lemma isLower_app (a b : string) : isLower a -> isLower b -> isLower (a ++ b).
Proof.
  unfold isLower. intros Ha Hb. induction a as [|c a IH]; [exact Hb|].
  cbn [append strings.ToLower] in *. injection Ha as Hc Ha. now rewrite Hc, IH.
Qed.

Lemma isLower_slice (s r : string) (lo hi : Z) :
  isLower s -> sliceOrPanic s lo hi = Returns r -> isLower r.
Proof.
  unfold sliceOrPanic, strings.slice. intros Hs.
  destruct (_ && _)%bool; [|discriminate]. intros [= <-].
  now apply isLower_take, isLower_drop.
Qed.

Lemma isLower_withoutScheme (url : string) : isLower (withoutScheme url).
Proof.
  unfold withoutScheme, strings.TrimPrefix. cbv zeta.
  assert (L : isLower (strings.ToLower url)) by apply ToLower_idempotent.
  destruct (strings.Contains _ _); destruct (strings.HasPrefix _ _);
    try exact L; now apply isLower_drop.
Qed.

(** The comment above [getGitValues] holds: the server, the owner and the
    repository it returns are lower-case, whatever the case of the URL. *)
Theorem getGitValues_returns_lower_case (url server owner repo : string) :
  getGitValues url = Returns (server, owner, repo, None) ->
  strings.ToLower server = server
  /\ strings.ToLower owner = owner
  /\ strings.ToLower repo = repo.
Proof.
  rewrite getGitValues_eq.
  destruct (strings.Count (withoutScheme url) "/" <? 2); [discriminate|].
  cbv zeta.
  assert (L : isLower (strings.TrimSuffix (withoutScheme url) "/")).
  { unfold strings.TrimSuffix. destruct (strings.HasSuffix _ _).
    - apply isLower_take, isLower_withoutScheme.
    - apply isLower_withoutScheme. }
  destruct (sliceOrPanic _ 0 _) as [host| |] eqn:E1; cbn [obind]; try discriminate.
  destruct (sliceOrPanic _ (_ + 1) _) as [o| |] eqn:E2; cbn [obind]; try discriminate.
  intros H.
  assert (Hrepo : exists lo hi,
             sliceOrPanic (strings.TrimSuffix (withoutScheme url) "/") lo hi = Returns repo
             /\ server = schemeOf url ++ host /\ owner = o).
  { revert H.
    destruct (strings.HasSuffix _ ".git");
      match goal with |- context [obind ?x _] => destruct x eqn:E3 end;
      cbn [obind]; try discriminate; intros H; inversion H; subst; eauto. }
  destruct Hrepo as (lo & hi & E3 & -> & ->).
  repeat split.
  - apply isLower_app; [|eapply isLower_slice; eauto].
    unfold schemeOf. destruct (strings.Contains _ _); reflexivity.
  - eapply isLower_slice; eauto.
  - eapply isLower_slice; eauto.
Qed.

Lemma getGitValues_returns_lower_case_witness :
  strings.ToLower "https://github.com" = "https://github.com"
  /\ strings.ToLower "tektoncd" = "tektoncd"
  /\ strings.ToLower "pipeline" = "pipeline".
Proof.
  apply (getGitValues_returns_lower_case "HTTPS://GitHub.com/TektonCD/Pipeline.git").
  vm_compute. reflexivity.
Defined.


(** ** The normaliser: when it panics *)

Section ByteOccurrences.

Variable c : ascii.

Let sep : string := String c "".

Lemma countFrom_cons (d : ascii) (t : string) :
  strings.countFrom 0 (String d t) sep
  = (if Ascii.eqb d c then 1 else 0) + strings.countFrom 0 t sep.
Proof.
  unfold sep. cbn [strings.countFrom strings.HasPrefix String.length Nat.sub].
  destruct (Ascii.eqb d c); cbn [andb]; lia.
Qed.

Lemma countFrom_app (a b : string) :
  strings.countFrom 0 (a ++ b) sep
  = strings.countFrom 0 a sep + strings.countFrom 0 b sep.
Proof.
  induction a as [|d a IH]; [reflexivity|].
  cbn [append]. rewrite !countFrom_cons, IH. lia.
Qed.

(** How the first and the last occurrence of a byte lie, by the number of
    its occurrences. *)
Lemma Index_LastIndex_by_count (s : string) :
  let n := strings.countFrom 0 s sep in
  let i := strings.Index s sep in
  let l := strings.LastIndex s sep in
  0 <= n
  /\ (n = 0 -> i = -1 /\ l = -1)
  /\ (n = 1 -> 0 <= i /\ i = l /\ l < strings.len s)
  /\ (2 <= n -> 0 <= i /\ i < l /\ l < strings.len s).
Proof.
  induction s as [|d t IH]; cbv zeta in *.
  - cbn. repeat split; intros; try lia.
  - rewrite countFrom_cons.
    unfold sep in *.
    cbn [strings.Index strings.LastIndex strings.HasPrefix].
    assert (L : strings.len (String d t) = strings.len t + 1)
      by (unfold strings.len; cbn [String.length]; lia).
    rewrite L.
    destruct IH as (Hn & H0 & H1 & H2).
    destruct (Ascii.eqb d c); cbn [andb].
    + destruct (Z.eq_dec (strings.countFrom 0 t (String c "")) 0) as [E|E].
      * destruct (H0 E) as [_ Hl]. rewrite Hl.
        change (0 <=? -1) with false. cbv iota.
        unfold strings.len in *. repeat split; intros; try lia.
      * destruct (Z.eq_dec (strings.countFrom 0 t (String c "")) 1) as [E1|E1].
        -- destruct (H1 E1) as (Hi & Hil & Hl).
           replace (0 <=? strings.LastIndex t (String c "")) with true
             by (symmetry; apply Z.leb_le; lia).
           repeat split; intros; try lia.
        -- destruct H2 as (Hi & Hil & Hl); [lia|].
           replace (0 <=? strings.LastIndex t (String c "")) with true
             by (symmetry; apply Z.leb_le; lia).
           repeat split; intros; try lia.
    + destruct (Z.eq_dec (strings.countFrom 0 t (String c "")) 0) as [E|E].
      * destruct (H0 E) as [Hi Hl]. rewrite Hi, Hl.
        change (0 <=? -1) with false. change (-1 <? 0) with true. cbv iota.
        repeat split; intros; try lia.
      * destruct (Z.eq_dec (strings.countFrom 0 t (String c "")) 1) as [E1|E1].
        -- destruct (H1 E1) as (Hi & Hil & Hl).
           replace (0 <=? strings.LastIndex t (String c "")) with true
             by (symmetry; apply Z.leb_le; lia).
           replace (strings.Index t (String c "") <? 0) with false
             by (symmetry; apply Z.ltb_ge; lia).
           repeat split; intros; try lia.
        -- destruct H2 as (Hi & Hil & Hl); [lia|].
           replace (0 <=? strings.LastIndex t (String c "")) with true
             by (symmetry; apply Z.leb_le; lia).
           replace (strings.Index t (String c "") <? 0) with false
             by (symmetry; apply Z.ltb_ge; lia).
           repeat split; intros; try lia.
Qed.

Lemma LastIndex_app_without (a b : string) :
  strings.countFrom 0 b sep = 0 ->
  strings.LastIndex (a ++ b) sep = strings.LastIndex a sep.
Proof.
  intros Hb. induction a as [|d a IH].
  - cbn [append]. now destruct (Index_LastIndex_by_count b) as (_ & H0 & _), (H0 Hb).
  - unfold sep in *. cbn [append strings.LastIndex strings.HasPrefix]. now rewrite IH.
Qed.

End ByteOccurrences.

Lemma drop_app_le (k : nat) (a b : string) :
  (k <= String.length a)%nat -> strings.drop k (a ++ b) = strings.drop k a ++ b.
Proof.
  revert a. induction k as [|k IH]; intros a H; [reflexivity|].
  destruct a as [|d a]; cbn [String.length] in H; [lia|].
  cbn [append strings.drop]. apply IH. lia.
Qed.

Lemma drop_app_ge (k : nat) (a b : string) :
  (String.length a <= k)%nat ->
  strings.drop k (a ++ b) = strings.drop (k - String.length a) b.
Proof.
  revert k. induction a as [|d a IH]; intros k H.
  - cbn [append String.length]. now rewrite Nat.sub_0_r.
  - destruct k as [|k]; cbn [String.length] in *; [lia|].
    cbn [append strings.drop Nat.sub]. apply IH. lia.
Qed.

Lemma lastByte_drop (k : nat) (s : string) :
  strings.drop k s <> "" -> lastByte (strings.drop k s) = lastByte s.
Proof.
  intros H. rewrite <- (take_drop k s) at 2. symmetry. now apply lastByte_app.
Qed.

(** What is left of the lower-cased URL is a tail of it. *)
Lemma withoutScheme_is_tail (url : string) :
  exists k, withoutScheme url = strings.drop k (strings.ToLower url).
Proof.
  unfold withoutScheme, strings.TrimPrefix. cbv zeta.
  destruct (strings.Contains _ _); destruct (strings.HasPrefix _ _);
    eauto; now exists O.
Qed.

Lemma Count_slash (s : string) : strings.Count s "/" = strings.countFrom 0 s "/".
Proof. reflexivity. Qed.

Lemma Count_TrimSuffix_slash (s : string) :
  strings.Count (strings.TrimSuffix s "/") "/"
  = strings.Count s "/" - (if strings.HasSuffix s "/" then 1 else 0).
Proof.
  unfold strings.TrimSuffix.
  destruct (strings.HasSuffix s "/") eqn:E; [|lia].
  pose proof (HasSuffix_split _ _ E) as Hs.
  set (t := strings.take _ s) in *. rewrite Hs.
  rewrite !Count_slash. change "/" with (String "/"%char "").
  rewrite countFrom_app. cbn. lia.
Qed.

Lemma len_TrimSuffix_git (y : string) : strings.len (y ++ ".git") = strings.len y + 4.
Proof. unfold strings.len. rewrite length_app. cbn [String.length]. lia.  Qed.

(** A tail of a string that ends in [.git], if it holds a [/], ends in
    [.git] itself. *)
Lemma tail_of_git (k : nat) (x : string) :
  1 <= strings.Count (strings.drop k (x ++ ".git")) "/" ->
  exists y, strings.drop k (x ++ ".git") = y ++ ".git".
Proof.
  intros H.
  destruct (Nat.le_gt_cases k (String.length x)) as [L | L].
  - rewrite drop_app_le by exact L. eauto.
  - exfalso. rewrite drop_app_ge in H by lia.
    destruct (k - String.length x)%nat as [|[|[|[|[|j]]]]] eqn:E; [lia| | | | |];
      cbn in H; lia.
Qed.

Lemma sliceOrPanic_returns_iff (s : string) (lo hi : Z) :
  (exists r, sliceOrPanic s lo hi = Returns r) <-> 0 <= lo <= hi /\ hi <= strings.len s.
Proof.
  unfold sliceOrPanic, strings.slice.
  destruct (0 <=? lo) eqn:E1; destruct (lo <=? hi) eqn:E2;
    destruct (hi <=? strings.len s) eqn:E3; cbn [andb];
    (split; [intros [r H]; try discriminate | intros H; try (eexists; reflexivity)]);
    try (apply Z.leb_le in E1); try (apply Z.leb_le in E2); try (apply Z.leb_le in E3);
    try (apply Z.leb_gt in E1); try (apply Z.leb_gt in E2); try (apply Z.leb_gt in E3);
    lia.
Qed.

Lemma sliceOrPanic_panics_iff (s : string) (lo hi : Z) :
  sliceOrPanic s lo hi = Panics "slice bounds out of range"
  <-> ~ (0 <= lo <= hi /\ hi <= strings.len s).
Proof.
  rewrite <- sliceOrPanic_returns_iff. unfold sliceOrPanic.
  destruct (strings.slice s lo hi).
  - split; [discriminate | intros H; exfalso; eauto].
  - split; [intros _ [r H]; discriminate | reflexivity].
Qed.

(** [getGitValues] slices out of range, and the handler that called it
    panics, exactly on a URL with one path segment and a closing slash
    behind the host, such as [https://host/owner/]: two slashes pass the
    length check, the closing one is trimmed, and the owner is then cut
    from behind the only slash left to in front of it. *)
Theorem getGitValues_panics_iff (url : string) :
  (exists msg, getGitValues url = Panics msg)
  <-> strings.Count (withoutScheme url) "/" = 2
      /\ strings.HasSuffix (withoutScheme url) "/" = true.
Proof.
  rewrite getGitValues_eq.
  pose proof (Count_TrimSuffix_slash (withoutScheme url)) as HC.
  destruct (strings.Count (withoutScheme url) "/" <? 2) eqn:E.
  { apply Z.ltb_lt in E. split; [intros [m H]; discriminate | lia]. }
  apply Z.ltb_ge in E. cbv zeta.
  set (r := strings.TrimSuffix (withoutScheme url) "/") in *.
  destruct (Index_LastIndex_by_count "/"%char r) as (Hn & _ & H1 & H2).
  change (String "/"%char "") with "/" in *. rewrite <- Count_slash in *.
  destruct (strings.HasSuffix (withoutScheme url) "/") eqn:S.
  - (* a closing slash *)
    destruct (Z.eq_dec (strings.Count (withoutScheme url) "/") 2) as [E2 | E2].
    + destruct H1 as (Hi & Hil & Hl); [lia|].
      split; [intros _; now split|intros _].
      destruct (proj2 (sliceOrPanic_returns_iff r 0 (strings.Index r "/"))) as [h ->]; [lia|].
      cbn [obind].
      rewrite (proj2 (sliceOrPanic_panics_iff r (strings.Index r "/" + 1)
                        (strings.LastIndex r "/"))) by lia.
      cbn [obind]. eauto.
    + destruct H2 as (Hi & Hil & Hl); [lia|].
      split; [|intros [? _]; lia]. intros [m H]. exfalso.
      destruct (proj2 (sliceOrPanic_returns_iff r 0 (strings.Index r "/"))) as [h Hh]; [lia|].
      destruct (proj2 (sliceOrPanic_returns_iff r (strings.Index r "/" + 1)
                         (strings.LastIndex r "/"))) as [o Ho]; [lia|].
      destruct (proj2 (sliceOrPanic_returns_iff r (strings.LastIndex r "/" + 1)
                         (strings.len r))) as [p Hp]; [lia|].
      rewrite Hh, Ho in H. cbn [obind] in H.
      assert (G : strings.HasSuffix (strings.ToLower url) ".git" = false).
      { destruct (strings.HasSuffix (strings.ToLower url) ".git") eqn:G; [|reflexivity].
        exfalso.
        destruct (withoutScheme_is_tail url) as [k Hk].
        assert (Hne : strings.drop k (strings.ToLower url) <> "").
        { rewrite <- Hk. intros Z0. rewrite Z0 in E. cbn in E. lia. }
        pose proof (lastByte_drop k _ Hne) as LB. rewrite <- Hk in LB.
        rewrite (HasSuffix_lastByte (withoutScheme url) "/") in LB
          by (discriminate || exact S).
        rewrite (HasSuffix_lastByte (strings.ToLower url) ".git") in LB
          by (discriminate || exact G).
        discriminate. }
      rewrite G, Hp in H. cbn [obind] in H. discriminate.
  - (* no closing slash *)
    split; [|intros [_ ?]; discriminate]. intros [m H]. exfalso.
    destruct H2 as (Hi & Hil & Hl); [lia|].
    destruct (proj2 (sliceOrPanic_returns_iff r 0 (strings.Index r "/"))) as [h Hh]; [lia|].
    destruct (proj2 (sliceOrPanic_returns_iff r (strings.Index r "/" + 1)
                       (strings.LastIndex r "/"))) as [o Ho]; [lia|].
    rewrite Hh, Ho in H. cbn [obind] in H.
    destruct (strings.HasSuffix (strings.ToLower url) ".git") eqn:G.
    + assert (R : r = withoutScheme url)
        by (unfold r, strings.TrimSuffix; now rewrite S).
      destruct (withoutScheme_is_tail url) as [k Hk].
      rewrite (HasSuffix_split _ _ G) in Hk.
      destruct (tail_of_git k (strings.take (String.length (strings.ToLower url)
                                              - String.length ".git")
                                            (strings.ToLower url))) as [y Hy].
      { rewrite <- Hk. lia. }
      rewrite Hy in Hk. rewrite <- R in Hk.
      assert (Cy : 2 <= strings.Count y "/").
      { assert (X : strings.Count (withoutScheme url) "/" = strings.Count y "/").
        { rewrite <- R, Hk, !Count_slash. change "/" with (String "/"%char "").
          rewrite countFrom_app.
          change (strings.countFrom 0 ".git" (String "/"%char "")) with 0. lia. }
        lia. }
      destruct (Index_LastIndex_by_count "/"%char y) as (_ & _ & _ & Y2).
      change (String "/"%char "") with "/" in *. rewrite <- Count_slash in Y2.
      destruct (Y2 Cy) as (_ & _ & Yl).
      destruct (proj2 (sliceOrPanic_returns_iff r (strings.LastIndex r "/" + 1)
                         (strings.len r - 4))) as [p Hp].
      { rewrite Hk. change "/" with (String "/"%char "").
        rewrite LastIndex_app_without by reflexivity.
        rewrite len_TrimSuffix_git. change (String "/"%char "") with "/". lia. }
      rewrite Hp in H. cbn [obind] in H. discriminate.
    + destruct (proj2 (sliceOrPanic_returns_iff r (strings.LastIndex r "/" + 1)
                         (strings.len r))) as [p Hp]; [lia|].
      rewrite Hp in H. cbn [obind] in H. discriminate.
Qed.


(** ** 4.4 Deregistration: what the loop over the triggers computes *)

(** The trigger that [doesMonitorExist] named. *)
Definition isMonitorOf (found : bool) (monitorTriggerName : string)
  (t : EventListenerTrigger) : bool :=
  (found && String.eqb t.(tName) monitorTriggerName)%bool.

(** The two trigger names of a registration, [toRemove] in the source. *)
Definition toRemoveOf (name : string) : list string :=
  [name ++ "-push-event"; name ++ "-pullrequest-event"].

(** The headers of a trigger that name the repository, as the loop counts
    them. *)
Definition repoHeaders (repoURL : string) (t : EventListenerTrigger) : Z :=
  match firstHeader t with
  | Returns headers => countRepoHeaders headers repoURL
  | _ => 0
  end.

Fixpoint sumZ (l : list Z) : Z :=
  match l with
  | [] => 0
  | x :: rest => x + sumZ rest
  end.

(** [triggersDeleted] and [triggersOnRepo] when the loop ends: the
    monitor apart, the triggers named in [toRemove], and the headers that
    name the repository, compared as strings. *)
Definition triggersDeletedOf (toRemove : list string)
  (found : bool) (monitorTriggerName : string) (triggers : list EventListenerTrigger) : Z :=
  Z.of_nat (List.length
              (filter (fun t => (negb (isMonitorOf found monitorTriggerName t)
                                 && inToRemove toRemove t.(tName))%bool) triggers)).

Definition triggersOnRepoOf (repoURL : string)
  (found : bool) (monitorTriggerName : string) (triggers : list EventListenerTrigger) : Z :=
  sumZ (map (fun t => if isMonitorOf found monitorTriggerName t then 0
                      else repoHeaders repoURL t) triggers).

(** The triggers a deregistration leaves: every trigger that is neither
    the monitor nor one of the two to remove, in the order they had,
    followed by the monitor when more headers name the repository than
    triggers were removed. *)
Definition triggersAfterDelete (toRemove : list string) (repoURL : string)
  (found : bool) (monitorTriggerName : string) (triggers : list EventListenerTrigger)
  : list EventListenerTrigger :=
  (filter (fun t => (negb (isMonitorOf found monitorTriggerName t)
                     && negb (inToRemove toRemove t.(tName)))%bool) triggers
   ++ (if triggersDeletedOf toRemove found monitorTriggerName triggers
          <? triggersOnRepoOf repoURL found monitorTriggerName triggers
       then [last (filter (isMonitorOf found monitorTriggerName) triggers) zeroTrigger]
       else []))%list.

Lemma last_cons_default {A} (x : A) (l : list A) (d d' : A) :
  last (x :: l) d = last (x :: l) d'.
Proof.
  revert x. induction l as [|y l IH]; intros x; [reflexivity|].
  cbn [last] in *. apply IH.
Qed.

Lemma sweepTriggers_returns (w : webhook) (mbn : string) (toRemove : list string)
  (found : bool) (m : string) (triggers : list EventListenerTrigger) :
  forall st0 st,
    sweepTriggers w mbn toRemove found m triggers st0 = Returns st ->
    let monitor := isMonitorOf found m in
    newTriggers st
    = (newTriggers st0
       ++ filter (fun t => (negb (monitor t) && negb (inToRemove toRemove t.(tName)))%bool)
                 triggers)%list
    /\ triggersDeleted st
       = triggersDeleted st0
         + Z.of_nat (List.length (filter (fun t => (negb (monitor t)
                                               && inToRemove toRemove t.(tName))%bool)
                                    triggers))
    /\ triggersOnRepo st
       = triggersOnRepo st0
         + sumZ (map (fun t => if monitor t then 0 else repoHeaders w.(GitRepositoryURL) t)
                     triggers)
    /\ monitorTrigger st = last (filter monitor triggers) (monitorTrigger st0).
Proof.
  cbv zeta.
  induction triggers as [|t rest IH]; intros st0 st H.
  - cbn in H. injection H as <-. cbn. rewrite app_nil_r. repeat split; lia.
  - cbn [sweepTriggers] in H.
    destruct (sweepStep w mbn toRemove found m st0 t) as [st1| |] eqn:S;
      cbn [obind] in H; try discriminate.
    apply IH in H as (H1 & H2 & H3 & H4).
    unfold sweepStep in S. fold (isMonitorOf found m t) in S.
    cbn [filter map sumZ].
    destruct (isMonitorOf found m t) eqn:Mon; cbn [negb andb].
    + injection S as <-. cbn [newTriggers triggersDeleted triggersOnRepo monitorTrigger] in *.
      repeat split; try assumption; try lia.
      rewrite H4.
      destruct (filter (isMonitorOf found m) rest) as [|e l]; [reflexivity|].
      cbn [last]. apply last_cons_default.
    + assert (RH : repoHeaders (GitRepositoryURL w) t
                   = match firstHeader t with
                     | Returns headers => countRepoHeaders headers (GitRepositoryURL w)
                     | _ => 0
                     end) by reflexivity.
      rewrite RH. clear RH.
      destruct (firstHeader t) as [hs| |]; cbn [obind] in S; try discriminate.
      destruct (inToRemove toRemove (tName t)); injection S as <-;
        cbn [newTriggers triggersDeleted triggersOnRepo monitorTrigger negb andb
             List.length] in *.
      * repeat split; try assumption; lia.
      * rewrite H1, <- app_assoc. repeat split; try assumption; lia.
Qed.

Lemma reconcileDelete_returns (name prefix mbn : string) (w : webhook)
  (triggers : list EventListenerTrigger) (st : sweep) :
  reconcileDelete name prefix mbn w triggers = Returns st ->
  exists found m,
    doesMonitorExist prefix w triggers = Returns (found, m)
    /\ newTriggers st
       = triggersAfterDelete (toRemoveOf name) w.(GitRepositoryURL) found m triggers.
Proof.
  unfold reconcileDelete.
  destruct (doesMonitorExist prefix w triggers) as [[found m]| |];
    cbn [obind]; try discriminate.
  fold (toRemoveOf name).
  destruct (sweepTriggers _ _ _ _ _ _ _) as [st1| |] eqn:S; cbn [obind]; try discriminate.
  intros [= <-]. exists found, m. split; [reflexivity|].
  apply sweepTriggers_returns in S as (H1 & H2 & H3 & H4).
  cbn [sweepStart newTriggers triggersDeleted triggersOnRepo monitorTrigger app] in *.
  unfold decideMonitor, triggersAfterDelete, triggersDeletedOf, triggersOnRepoOf.
  rewrite <- H1, <- H4.
  rewrite Z.add_0_l in H2, H3. rewrite <- H2, <- H3.
  destruct (triggersDeleted st1 <? triggersOnRepo st1);
    cbn [newTriggers]; [reflexivity | now rewrite app_nil_r].
Qed.

Lemma TriggerBindings_Delete_preserves {X} (f : Cluster -> X) (name : string) :
  (forall v c, f (setFaults v c) = f c) ->
  (forall v c, f (setTriggerBindings v c) = f c) ->
  preserves f (TriggerBindings.Delete name).
Proof.
  intros Hf Hb. apply preserves_clientCall; [exact Hf|].
  intros c. destruct (findBinding name (triggerBindings c)); cbn; [apply Hb | reflexivity].
Qed.

Lemma deleteBindings_preserves {X} (f : Cluster -> X) (keys : list string) :
  (forall v c, f (setFaults v c) = f c) ->
  (forall v c, f (setTriggerBindings v c) = f c) ->
  forall err, preserves f (deleteBindings keys err).
Proof.
  intros Hf Hb. induction keys as [|k keys IH]; intros err; cbn [deleteBindings].
  - apply preserves_ret.
  - apply preserves_bind; [now apply TriggerBindings_Delete_preserves|].
    intros [u e]. apply IH.
Qed.

Lemma EventListeners_Delete_returns (name : string) (c c' : Cluster) :
  EventListeners.Delete name c = Returns ((tt, None), c') -> eventListener c' = None.
Proof.
  intros H. unfold EventListeners.Delete in H.
  apply clientCall_returns in H as [(e & rest & _ & [=] & _) | (c0 & Hc0 & H)].
  destruct (eventListener c0) eqn:E; [|discriminate].
  destruct (String.eqb _ _); [|discriminate].
  inversion H; subst. reflexivity.
Qed.

Lemma deleteFromEventListener_returns
  (r : Resource) (name installNS prefix : string) (w : webhook) (c c' : Cluster) :
  deleteFromEventListener r name installNS prefix w c = Returns (None, c') ->
  exists el found m,
    eventListener c = Some el
    /\ doesMonitorExist prefix w el.(Triggers) = Returns (found, m)
    /\ let remaining :=
         triggersAfterDelete (toRemoveOf name) w.(GitRepositoryURL) found m el.(Triggers) in
       eventListener c'
       = match remaining with
         | [] => None
         | _ :: _ => Some (withTriggers el remaining)
         end.
Proof.
  intros H. unfold deleteFromEventListener in H.
  apply bind_returns in H as ([el err] & c1 & HG & H).
  apply EventListeners_Get_returns in HG as (G1 & _ & _ & G4).
  destruct err as [e|]; [apply ret_returns in H as [[=] _]|].
  destruct G4 as [Hel _].
  destruct (getMonitorBindingName r (GitRepositoryURL w) (PullTask w)) as [mbn [e|]];
    [apply ret_returns in H as [[=] _]|].
  apply bind_returns in H as (st & c2 & HR & H).
  apply liftO_returns in HR as [HR ->].
  apply reconcileDelete_returns in HR as (found & m & HM & HN).
  exists el, found, m. split; [exact Hel|]. split; [exact HM|].
  cbv zeta. rewrite <- HN.
  assert (DB : forall keys err cc cc' x,
             deleteBindings keys err cc = Returns (x, cc') ->
             eventListener cc' = eventListener cc).
  { intros keys err cc cc' x HD.
    eapply (deleteBindings_preserves eventListener keys); [reflexivity..|exact HD]. }
  destruct (newTriggers st) as [|t ts].
  - apply bind_returns in H as ([[] err] & c3 & HD & H).
    destruct err as [e|]; [apply ret_returns in H as [[=] _]|].
    apply EventListeners_Delete_returns in HD.
    destruct (negb (platformSet r)).
    + apply bind_returns in H as (err & c4 & HI & H).
      destruct err as [e|]; [apply ret_returns in H as [[=] _]|].
      apply DB in H. rewrite H.
      rewrite (createDeleteIngress_preserves eventListener _ _ (fun _ _ => eq_refl)
                 (fun _ _ => eq_refl) _ _ _ HI).
      exact HD.
    + apply bind_returns in H as (err & c4 & HI & H).
      destruct err as [e|]; [apply ret_returns in H as [[=] _]|].
      apply DB in H. rewrite H.
      rewrite (deleteOpenshiftRoute_preserves eventListener _ (fun _ _ => eq_refl)
                 (fun _ _ => eq_refl) _ _ _ HI).
      exact HD.
  - apply bind_returns in H as ([x err] & c3 & HU & H).
    destruct err as [e|]; [apply ret_returns in H as [[=] _]|].
    apply EventListeners_Update_returns in HU as (U1 & _).
    apply DB in H. now rewrite H.
Qed.

(** A deregistration that reports no error has stored exactly the triggers
    the loop decided on: the triggers of the collection that are neither
    the monitor found for the repository nor named
    [{name}-push-event] or [{name}-pullrequest-event], in their order and
    unchanged, and behind them the monitor if the count says it stays.
    When that list is empty the collection is deleted, not stored empty. *)
Theorem deleteFromEventListener_stores_the_remaining_triggers
  (r : Resource) (name installNS prefix : string) (w : webhook) (c c' : Cluster) :
  deleteFromEventListener r name installNS prefix w c = Returns (None, c') ->
  exists el found m,
    eventListener c = Some el
    /\ doesMonitorExist prefix w el.(Triggers) = Returns (found, m)
    /\ let remaining :=
         triggersAfterDelete (toRemoveOf name) w.(GitRepositoryURL) found m el.(Triggers) in
       eventListener c'
       = match remaining with
         | [] => None
         | _ :: _ => Some (withTriggers el remaining)
         end.
Proof. apply deleteFromEventListener_returns. Qed.

(** Two registrations for one repository, its URL spelt alike. *)
Definition twoHooksOnOneRepository : Cluster :=
  stateAfter (registerAll 5 demoResource [helloWorld; sameSpellingHook]) emptyCluster.

Lemma deleteFromEventListener_stores_the_remaining_triggers_witness :
  exists el found m,
    eventListener twoHooksOnOneRepository = Some el
    /\ doesMonitorExist "ncskier.go-hello-world-" helloWorld el.(Triggers)
       = Returns (found, m)
    /\ let remaining :=
         triggersAfterDelete (toRemoveOf "go-hello-world-green")
                             helloWorld.(GitRepositoryURL) found m el.(Triggers) in
       eventListener
         (stateAfter (deleteFromEventListener demoResource "go-hello-world-green"
                        "tekton-pipelines" "ncskier.go-hello-world-" helloWorld)
                     twoHooksOnOneRepository)
       = match remaining with
         | [] => None
         | _ :: _ => Some (withTriggers el remaining)
         end.
Proof.
  assert (Hrun :
    deleteFromEventListener demoResource "go-hello-world-green" "tekton-pipelines"
                            "ncskier.go-hello-world-" helloWorld twoHooksOnOneRepository
    = Returns (None,
               stateAfter (deleteFromEventListener demoResource "go-hello-world-green"
                             "tekton-pipelines" "ncskier.go-hello-world-" helloWorld)
                          twoHooksOnOneRepository))
    by (vm_compute; reflexivity).
  exact (deleteFromEventListener_stores_the_remaining_triggers
           demoResource "go-hello-world-green" "tekton-pipelines"
           "ncskier.go-hello-world-" helloWorld twoHooksOnOneRepository
           (stateAfter (deleteFromEventListener demoResource "go-hello-world-green"
                          "tekton-pipelines" "ncskier.go-hello-world-" helloWorld)
                       twoHooksOnOneRepository)
           Hrun).
Defined.

(** ** 4.3 What the deduplicator returns *)

Lemma doesMonitorExist_sound (prefix : string) (w : webhook)
  (triggers : list EventListenerTrigger) (found : bool) (name : string) :
  doesMonitorExist prefix w triggers = Returns (found, name) ->
  if found then
    exists before t after,
      triggers = (before ++ t :: after)%list
      /\ tName t = name
      /\ strings.HasPrefix (tName t) prefix = true
      /\ onRepository (GitRepositoryURL w) t = true
      /\ Forall (fun u => strings.HasPrefix (tName u) prefix = true ->
                          onRepository (GitRepositoryURL w) u = false) before
  else name = "".
Proof.
  induction triggers as [|t rest IH]; cbn [doesMonitorExist].
  - intros [= <- <-]. reflexivity.
  - destruct (strings.HasPrefix (tName t) prefix) eqn:P.
    + destruct (firstHeader t) as [hs| |] eqn:F; cbn [obind]; try discriminate.
      destruct (scanHeaders hs (GitRepositoryURL w)) as [[| |]| |] eqn:S;
        cbn [obind]; try discriminate.
      * intros [= <- <-]. exists [], t, rest. repeat split; auto.
        unfold onRepository. now rewrite F, S.
      * intros H. specialize (IH H). destruct found; [|exact IH].
        destruct IH as (before & u & after & -> & Hn & Hp & Ho & Hb).
        exists (t :: before), u, after. repeat split; auto.
        constructor; [|exact Hb]. intros _. unfold onRepository. now rewrite F, S.
      * intros [= <- <-]. reflexivity.
    + intros H. specialize (IH H). destruct found; [|exact IH].
      destruct IH as (before & u & after & -> & Hn & Hp & Ho & Hb).
      exists (t :: before), u, after. repeat split; auto.
      constructor; [|exact Hb]. congruence.
Qed.

(** [doesMonitorExist] is sound: the name it returns is the name of a
    trigger of the collection, the first whose name starts with the prefix
    and whose first interceptor names the repository; when it finds none
    the name is empty. *)
Theorem doesMonitorExist_returns_first_match (prefix : string) (w : webhook)
  (triggers : list EventListenerTrigger) (found : bool) (name : string) :
  doesMonitorExist prefix w triggers = Returns (found, name) ->
  if found then
    exists before t after,
      triggers = (before ++ t :: after)%list
      /\ tName t = name
      /\ strings.HasPrefix (tName t) prefix = true
      /\ onRepository (GitRepositoryURL w) t = true
      /\ Forall (fun u => strings.HasPrefix (tName u) prefix = true ->
                          onRepository (GitRepositoryURL w) u = false) before
  else name = "".
Proof. apply doesMonitorExist_sound. Qed.

Lemma doesMonitorExist_returns_first_match_witness :
  exists before t after,
    storedTriggers afterFirstRegistration = (before ++ t :: after)%list
    /\ tName t = "ncskier.go-hello-world-4242"
    /\ strings.HasPrefix (tName t) "ncskier.go-hello-world-" = true
    /\ onRepository (GitRepositoryURL helloWorld) t = true
    /\ Forall (fun u => strings.HasPrefix (tName u) "ncskier.go-hello-world-" = true ->
                        onRepository (GitRepositoryURL helloWorld) u = false) before.
Proof.
  assert (Hrun : doesMonitorExist "ncskier.go-hello-world-" helloWorld
                                  (storedTriggers afterFirstRegistration)
                 = Returns (true, "ncskier.go-hello-world-4242"))
    by (vm_compute; reflexivity).
  exact (doesMonitorExist_returns_first_match _ _ _ _ _ Hrun).
Defined.

(** A trigger whose name has the prefix and whose repository URL cannot be
    parsed ends the search: the deduplicator reports no monitor, whatever
    follows that trigger in the collection. *)
Theorem doesMonitorExist_stops_at_unparsable_url (prefix : string) (w : webhook)
  (before after : list EventListenerTrigger) (t : EventListenerTrigger)
  (headers : list HeaderParam) :
  Forall (fun u => strings.HasPrefix (tName u) prefix = false) before ->
  strings.HasPrefix (tName t) prefix = true ->
  firstHeader t = Returns headers ->
  scanHeaders headers (GitRepositoryURL w) = Returns ScanError ->
  doesMonitorExist prefix w (before ++ t :: after) = Returns (false, "").
Proof.
  intros Hb Hp Hf Hs. induction Hb as [|u before Hu _ IH]; cbn [app doesMonitorExist].
  - rewrite Hp, Hf. cbn [obind]. now rewrite Hs.
  - now rewrite Hu.
Qed.

(** A trigger with the monitor's prefix whose URL has no owner. *)
Definition strayTrigger : EventListenerTrigger :=
  newTrigger demoResource "ncskier.go-hello-world-old" "b" "t" "github.com" "push" "s" "x".

Lemma doesMonitorExist_stops_at_unparsable_url_witness :
  doesMonitorExist "ncskier.go-hello-world-" helloWorld
                   ([] ++ strayTrigger :: storedTriggers afterFirstRegistration)
  = Returns (false, "").
Proof.
  apply (doesMonitorExist_stops_at_unparsable_url "ncskier.go-hello-world-" helloWorld
           [] (storedTriggers afterFirstRegistration) strayTrigger
           (fixedHeaders "ncskier.go-hello-world-old" "github.com" "push" "s")).
  - constructor.
  - vm_compute. reflexivity.
  - vm_compute. reflexivity.
  - vm_compute. reflexivity.
Defined.

(** ** 4.4 Deregistration: when the monitor stays *)

Lemma existsb_filter_false {A} (p q : A -> bool) (l : list A) :
  (forall x, q x = true -> p x = false) -> existsb p (filter q l) = false.
Proof.
  intros H. induction l as [|x l IH]; [reflexivity|].
  cbn [filter]. destruct (q x) eqn:Q; [|exact IH].
  cbn [existsb]. now rewrite (H x Q), IH.
Qed.

Lemma last_filter {A} (p : A -> bool) (l : list A) (d : A) :
  filter p l <> [] -> p (last (filter p l) d) = true.
Proof.
  intros H.
  assert (G : Forall (fun x => p x = true) (filter p l)).
  { apply Forall_forall. intros x Hx. now apply filter_In in Hx. }
  induction G as [|x l' Hx G IH]; [congruence|].
  destruct l' as [|y l']; [exact Hx|].
  cbn [last]. cbn [last] in IH. apply IH. discriminate.
Qed.

(** The retention rule: after a deregistration that reports no error, a
    trigger with the monitor's name is in the collection if and only if
    more headers named the repository than triggers were removed,
    [triggersOnRepo > triggersDeleted]. *)
Theorem deleteFromEventListener_keeps_monitor_iff
  (r : Resource) (name installNS prefix : string) (w : webhook) (c c' : Cluster)
  (el : EventListener) (m : string) :
  deleteFromEventListener r name installNS prefix w c = Returns (None, c') ->
  eventListener c = Some el ->
  doesMonitorExist prefix w el.(Triggers) = Returns (true, m) ->
  existsb (fun t => String.eqb (tName t) m) (storedTriggers c') = true
  <-> triggersDeletedOf (toRemoveOf name) true m el.(Triggers)
      < triggersOnRepoOf w.(GitRepositoryURL) true m el.(Triggers).
Proof.
  intros H Hel HM.
  apply deleteFromEventListener_returns in H
    as (el' & found & m' & Hel' & HM' & HS).
  rewrite Hel in Hel'. injection Hel' as <-.
  rewrite HM in HM'. injection HM' as <- <-.
  cbv zeta in HS.
  assert (Hst : storedTriggers c'
                = triggersAfterDelete (toRemoveOf name) (GitRepositoryURL w) true m
                                      (Triggers el)).
  { unfold storedTriggers. rewrite HS.
    destruct (triggersAfterDelete _ _ _ _ _); reflexivity. }
  rewrite Hst. unfold triggersAfterDelete.
  rewrite existsb_app, existsb_filter_false.
  2:{ intros t Ht. apply andb_prop in Ht as [Ht _].
      unfold isMonitorOf in Ht. cbn [andb] in Ht. now destruct (String.eqb (tName t) m). }
  cbn [orb].
  destruct (_ <? _) eqn:L.
  - apply Z.ltb_lt in L. split; [intros _; exact L | intros _].
    cbn [existsb]. rewrite orb_false_r.
    apply doesMonitorExist_sound in HM
      as (before & t & after & Hts & Hn & _).
    assert (Hne : filter (isMonitorOf true m) (Triggers el) <> []).
    { intros E. assert (Hin : In t (filter (isMonitorOf true m) (Triggers el))).
      { apply filter_In. split; [rewrite Hts; apply in_elt|].
        unfold isMonitorOf. cbn [andb]. now apply String.eqb_eq. }
      rewrite E in Hin. destruct Hin. }
    exact (last_filter (isMonitorOf true m) _ zeroTrigger Hne).
  - apply Z.ltb_ge in L. cbn [existsb]. split; [discriminate | lia].
Qed.

(** The collection of [twoHooksOnOneRepository]. *)
Definition twoHooksListener : EventListener :=
  mkEventListener eventListenerName "tekton-pipelines"
                  "tekton-webhooks-extension-eventlistener"
                  (storedTriggers twoHooksOnOneRepository).

Definition afterOneOfTwoDeleted : Cluster :=
  stateAfter (deleteFromEventListener demoResource "go-hello-world-green"
                "tekton-pipelines" "ncskier.go-hello-world-" helloWorld)
             twoHooksOnOneRepository.

Lemma deleteFromEventListener_keeps_monitor_iff_witness :
  existsb (fun t => String.eqb (tName t) "ncskier.go-hello-world-4242")
          (storedTriggers afterOneOfTwoDeleted) = true
  <-> triggersDeletedOf (toRemoveOf "go-hello-world-green") true
                        "ncskier.go-hello-world-4242" (Triggers twoHooksListener)
      < triggersOnRepoOf helloWorld.(GitRepositoryURL) true "ncskier.go-hello-world-4242"
                         (Triggers twoHooksListener).
Proof.
  assert (Hrun :
    deleteFromEventListener demoResource "go-hello-world-green" "tekton-pipelines"
                            "ncskier.go-hello-world-" helloWorld twoHooksOnOneRepository
    = Returns (None, afterOneOfTwoDeleted))
    by (vm_compute; reflexivity).
  assert (Hel : eventListener twoHooksOnOneRepository = Some twoHooksListener)
    by (vm_compute; reflexivity).
  assert (HM : doesMonitorExist "ncskier.go-hello-world-" helloWorld
                 (Triggers twoHooksListener)
               = Returns (true, "ncskier.go-hello-world-4242"))
    by (vm_compute; reflexivity).
  exact (deleteFromEventListener_keeps_monitor_iff
           demoResource "go-hello-world-green" "tekton-pipelines"
           "ncskier.go-hello-world-" helloWorld twoHooksOnOneRepository
           afterOneOfTwoDeleted twoHooksListener "ncskier.go-hello-world-4242"
           Hrun Hel HM).
Defined.
